(** * microcosm: scoped result cache, fan-out/gather aggregation, paging
      and duplicate suppression

    A shallow embedding of the model layer of the microcosm REST backend
    (package [models]: profiles, events, ignores) together with proofs of
    the properties its specification states about it.

    Conventions of the embedding:
    - Go [int64]/[int] values are [Z]; no modelled computation reaches the
      width of the machine integer, so wrap-around is not written out.
    - Go [error] is [option string]: [nil] is [None], a non-nil error is
      [Some msg] with the message the code builds.
    - [sql.NullString], [sql.NullInt64] and [pq.NullTime] are [option]s.
    - Code that reads or writes the cache, the database or spawns work is
      a state transformer over [World] (monad [M]).
    - Packages [cache] and [helpers] and several files of package [models]
      are not part of the sources at hand; what is used of them is either
      a field of [Externals]/[Db] (a parameter) or a definition marked
      "Modelled from the spec". *)

From Stdlib Require Import ZArith String List Lia.
From stdpp Require Import gmap strings list sorting pretty.

Open Scope string_scope.
Open Scope Z_scope.

(** ** Go conventions *)

Definition error : Type := option string.

Definition StatusOK : Z := 200.
Definition StatusBadRequest : Z := 400.
Definition StatusNotFound : Z := 404.
Definition StatusInternalServerError : Z := 500.
Definition StatusNotImplemented : Z := 501.

(** [err != nil] *)
Definition failed (e : error) : bool :=
  match e with Some _ => true | None => false end.

(** ** Cache keys and scopes (package cache) *)

Inductive Scope : Type :=
| CacheDetail
| CacheSummary
| CacheCounts
| CacheProfileIds
| CacheItem.

#[global] Instance Scope_eq_dec : EqDecision Scope.
Proof. solve_decision. Defined.

Definition all_scopes : list Scope :=
  [CacheDetail; CacheSummary; CacheCounts; CacheProfileIds; CacheItem].

(** A rendered key.  The format templates ([mcProfileKeys], [mcEventKeys])
    are declared outside the sources at hand; the specification fixes that a
    rendered key is unique per (entity kind, scope, id), which is what
    [KScoped] records.  [KSiteUser] is the "s%d_u%d" key of [GetProfileId],
    [KDupe] the "dupe_"-prefixed fingerprint key of [EventType.Insert]. *)
Inductive CacheKey : Type :=
| KScoped (kind : Z) (scope : Scope) (id : Z)
| KSiteUser (siteId userId : Z)
| KDupe (fingerprint : string).

#[global] Instance CacheKey_eq_dec : EqDecision CacheKey.
Proof. solve_decision. Defined.

Definition Scope_to_nat (s : Scope) : nat :=
  match s with
  | CacheDetail => 0 | CacheSummary => 1 | CacheCounts => 2
  | CacheProfileIds => 3 | CacheItem => 4
  end%nat.

Definition Scope_of_nat (n : nat) : Scope :=
  match n with
  | 0 => CacheDetail | 1 => CacheSummary | 2 => CacheCounts
  | 3 => CacheProfileIds | _ => CacheItem
  end%nat.

Definition CacheKey_encode (k : CacheKey) : (Z * nat * Z) + (Z * Z) + string :=
  match k with
  | KScoped kind s id => inl (inl (kind, Scope_to_nat s, id))
  | KSiteUser a b => inl (inr (a, b))
  | KDupe f => inr f
  end.

Definition CacheKey_decode (x : (Z * nat * Z) + (Z * Z) + string) : CacheKey :=
  match x with
  | inl (inl (kind, s, id)) => KScoped kind (Scope_of_nat s) id
  | inl (inr (a, b)) => KSiteUser a b
  | inr f => KDupe f
  end.

#[global] Instance CacheKey_countable : Countable CacheKey.
Proof.
  apply (inj_countable' CacheKey_encode CacheKey_decode).
  intros [kind [] id | a b | f]; reflexivity.
Defined.

(** ** Entity records (package models) *)

(** [h.LinkType] as built by [h.GetLink(rel, title, itemType, id)]. *)
Record LinkType : Type := GetLink {
  link_Rel : string;
  link_Title : string;
  link_ItemType : string;
  link_Id : Z
}.

Definition ItemTypeSite : string := "site".
Definition ItemTypeMicrocosm : string := "microcosm".
Definition ItemTypeProfile : string := "profile".
Definition ItemTypeEvent : string := "event".

Record ProfileSummaryType : Type := {
  ps_Id : Z;
  ps_SiteId : Z;
  ps_UserId : Z;
  ps_ProfileName : string;
  ps_Visible : bool;
  ps_AvatarUrlNullable : option string;
  ps_AvatarUrl : string;
  ps_AvatarIdNullable : option Z;
  ps_AvatarId : Z;
  ps_Links : list LinkType          (* Meta.Links *)
}.

(** [ProfileSummaryType{}] *)
Definition ProfileSummaryType_zero : ProfileSummaryType :=
  {| ps_Id := 0; ps_SiteId := 0; ps_UserId := 0; ps_ProfileName := "";
     ps_Visible := false; ps_AvatarUrlNullable := None; ps_AvatarUrl := "";
     ps_AvatarIdNullable := None; ps_AvatarId := 0; ps_Links := [] |}.

(** The comment summary attached to a profile; its type is declared outside
    the sources at hand and only its identity is kept. *)
Inductive CommentSummaryType : Type :=
| CommentSummary (commentId : Z).

Record ProfileType : Type := {
  p_Id : Z;
  p_SiteId : Z;
  p_UserId : Z;
  p_Email : string;
  p_ProfileName : string;
  p_GenderNullable : option string;
  p_Gender : string;
  p_Visible : bool;
  p_StyleId : Z;
  p_ItemCount : Z;
  p_CommentCount : Z;
  p_ProfileComment : option CommentSummaryType;
  p_Created : Z;
  p_LastActive : Z;
  p_AvatarUrlNullable : option string;
  p_AvatarUrl : string;
  p_AvatarIdNullable : option Z;
  p_AvatarId : Z;
  p_Links : list LinkType
}.

Definition ProfileType_zero : ProfileType :=
  {| p_Id := 0; p_SiteId := 0; p_UserId := 0; p_Email := "";
     p_ProfileName := ""; p_GenderNullable := None; p_Gender := "";
     p_Visible := false; p_StyleId := 0; p_ItemCount := 0;
     p_CommentCount := 0; p_ProfileComment := None; p_Created := 0;
     p_LastActive := 0; p_AvatarUrlNullable := None; p_AvatarUrl := "";
     p_AvatarIdNullable := None; p_AvatarId := 0; p_Links := [] |}.

(** [float64] fields are only stored, compared and formatted by the modelled
    code; they are carried as their IEEE-754 bit pattern. *)
Definition float64 : Type := Z.

Record FlagsType : Type := {
  f_Sticky : bool;
  f_Open : bool;
  f_Visible : bool;
  f_Moderated : bool;
  f_Deleted : bool;
  f_Attending : bool
}.

Definition FlagsType_zero : FlagsType :=
  {| f_Sticky := false; f_Open := false; f_Visible := false;
     f_Moderated := false; f_Deleted := false; f_Attending := false |}.

(** The [Meta] block shared by [EventType] and [EventSummaryType]. *)
Record EventMeta : Type := {
  m_Created : Z;
  m_CreatedById : Z;
  m_CreatedBy : option ProfileSummaryType;
  m_EditedNullable : option Z;
  m_Edited : string;
  m_EditedByNullable : option Z;
  m_EditedBy : option ProfileSummaryType;
  m_EditReasonNullable : option string;
  m_EditReason : string;
  m_Flags : FlagsType;
  m_Links : list LinkType
}.

Definition EventMeta_zero : EventMeta :=
  {| m_Created := 0; m_CreatedById := 0; m_CreatedBy := None;
     m_EditedNullable := None; m_Edited := ""; m_EditedByNullable := None;
     m_EditedBy := None; m_EditReasonNullable := None; m_EditReason := "";
     m_Flags := FlagsType_zero; m_Links := [] |}.

Record EventType : Type := {
  e_Id : Z;
  e_MicrocosmId : Z;
  e_Title : string;
  e_WhenNullable : option Z;
  e_When : string;
  e_Duration : Z;
  e_Where : string;
  e_WhereNullable : option string;
  e_Lat : float64;
  e_Lon : float64;
  e_North : float64;
  e_East : float64;
  e_South : float64;
  e_West : float64;
  e_Status : string;
  e_RSVPLimit : Z;
  e_RSVPAttending : Z;
  e_RSVPSpaces : Z;
  e_Meta : EventMeta
}.

Definition EventType_zero : EventType :=
  {| e_Id := 0; e_MicrocosmId := 0; e_Title := ""; e_WhenNullable := None;
     e_When := ""; e_Duration := 0; e_Where := ""; e_WhereNullable := None;
     e_Lat := 0; e_Lon := 0; e_North := 0; e_East := 0; e_South := 0;
     e_West := 0; e_Status := ""; e_RSVPLimit := 0; e_RSVPAttending := 0;
     e_RSVPSpaces := 0; e_Meta := EventMeta_zero |}.

(** [LastComment] of an item summary (type declared outside the sources at
    hand): whether one exists, who wrote it, and the author once resolved. *)
Record LastComment : Type := {
  lc_Valid : bool;
  lc_Id : Z;
  lc_CreatedById : Z;
  lc_CreatedBy : option ProfileSummaryType
}.

Record EventSummaryType : Type := {
  es_Id : Z;
  es_MicrocosmId : Z;
  es_Title : string;
  es_WhenNullable : option Z;
  es_When : string;
  es_Duration : Z;
  es_WhereNullable : option string;
  es_Where : string;
  es_Lat : float64;
  es_Lon : float64;
  es_North : float64;
  es_East : float64;
  es_South : float64;
  es_West : float64;
  es_Status : string;
  es_RSVPLimit : Z;
  es_RSVPAttending : Z;
  es_RSVPSpaces : Z;
  es_CommentCount : Z;
  es_ViewCount : Z;
  es_LastComment : option LastComment;      (* interface{}: nil or LastComment *)
  es_Meta : EventMeta
}.

Definition EventSummaryType_zero : EventSummaryType :=
  {| es_Id := 0; es_MicrocosmId := 0; es_Title := ""; es_WhenNullable := None;
     es_When := ""; es_Duration := 0; es_WhereNullable := None; es_Where := "";
     es_Lat := 0; es_Lon := 0; es_North := 0; es_East := 0; es_South := 0;
     es_West := 0; es_Status := ""; es_RSVPLimit := 0; es_RSVPAttending := 0;
     es_RSVPSpaces := 0; es_CommentCount := 0; es_ViewCount := 0;
     es_LastComment := None; es_Meta := EventMeta_zero |}.

(** The summary a [SummaryContainer] carries (declared outside the sources
    at hand); only its rendering is kept. *)
Definition SummaryValue : Type := string.

Record IgnoreType : Type := {
  ig_ProfileId : Z;
  ig_ItemTypeId : Z;
  ig_ItemType : string;
  ig_ItemId : Z;
  ig_Item : option SummaryValue     (* interface{}, nil until GetIgnored fills it *)
}.

(** ** Cache contents *)

(** What a key can hold: entity-shaped records, a scalar, or a list of ids. *)
Inductive CacheValue : Type :=
| VProfile (m : ProfileType)
| VProfileSummary (m : ProfileSummaryType)
| VEvent (m : EventType)
| VEventSummary (m : EventSummaryType)
| VInt64 (i : Z)
| VInt64Slice (l : list Z).

Record CacheEntry : Type := {
  ce_value : CacheValue;
  ce_expires : Z                    (* write time + ttl, in seconds *)
}.

(** Typed retrieval: the projection plays the role of the exemplar passed to
    [c.CacheGet(key, T{})] and of the type assertion [val.(T)] that follows. *)
Definition as_Profile (v : CacheValue) : option ProfileType :=
  match v with VProfile m => Some m | _ => None end.
Definition as_ProfileSummary (v : CacheValue) : option ProfileSummaryType :=
  match v with VProfileSummary m => Some m | _ => None end.
Definition as_Event (v : CacheValue) : option EventType :=
  match v with VEvent m => Some m | _ => None end.
Definition as_EventSummary (v : CacheValue) : option EventSummaryType :=
  match v with VEventSummary m => Some m | _ => None end.
Definition as_Int64 (v : CacheValue) : option Z :=
  match v with VInt64 i => Some i | _ => None end.
Definition as_Int64Slice (v : CacheValue) : option (list Z) :=
  match v with VInt64Slice l => Some l | _ => None end.

(** ** The relational store *)

Record ProfileRow : Type := {
  pr_site_id : Z;
  pr_user_id : Z;
  pr_profile_name : string;
  pr_gender : option string;
  pr_is_visible : bool;
  pr_style_id : Z;
  pr_item_count : Z;
  pr_comment_count : Z;
  pr_created : Z;
  pr_last_active : Z;
  pr_avatar_url : option string;
  pr_avatar_id : option Z
}.

Record EventRow : Type := {
  er_microcosm_id : Z;
  er_title : string;
  er_created : Z;
  er_created_by : Z;
  er_edited : option Z;
  er_edited_by : option Z;
  er_edit_reason : option string;
  er_is_sticky : bool;
  er_is_open : bool;
  er_is_visible : bool;
  er_is_moderated : bool;
  er_is_deleted : bool;
  er_when : option Z;
  er_duration : Z;
  er_where : option string;
  er_lat : float64;
  er_lon : float64;
  er_bounds_north : float64;
  er_bounds_east : float64;
  er_bounds_south : float64;
  er_bounds_west : float64;
  er_status : string;
  er_rsvp_limit : Z;
  er_rsvp_attending : Z;
  er_rsvp_spaces : Z;
  er_view_count : Z
}.

(** A row of the denormalised [flags] table, keyed by (item_type_id, item_id). *)
Record FlagRow : Type := {
  fl_site_id : Z;
  fl_microcosm_is_deleted : bool;
  fl_microcosm_is_moderated : bool;
  fl_parent_is_deleted : bool;
  fl_parent_is_moderated : bool;
  fl_item_is_deleted : bool;
  fl_item_is_moderated : bool
}.

Record AttendeeRow : Type := {
  at_event_id : Z;
  at_profile_id : Z;
  at_state_id : Z
}.

(** A call that leaves the process and may fail.  [Sql] is a statement,
    named by its leading comment (or its table) and its key argument;
    [Collab] is a function of package [models] or [helpers] that lies outside
    the sources at hand. *)
Inductive Call : Type :=
| GetConnection
| GetTransaction
| Begin
| Commit
| Sql (label : string) (key : Z)
| Collab (name : string) (key : Z).

#[global] Instance Call_eq_dec : EqDecision Call.
Proof. solve_decision. Defined.

Record ProfileSearchOptions : Type := {
  so_OrderByCommentCount : bool;
  so_IsFollowing : bool;
  so_IsOnline : bool;
  so_StartsWith : string;
  so_ProfileId : Z
}.

(** A row of the [--Get Ignores] page; [total] is the window count. *)
Record IgnoreRow : Type := {
  ir_total : Z;
  ir_profile_id : Z;
  ir_item_type_id : Z;
  ir_item_id : Z
}.

(** A row of the [--GetEvents] page. *)
Record EventsPageRow : Type := {
  ep_total : Z;
  ep_item_id : Z;
  ep_is_attending : bool
}.

(** [FileMetadataType], as far as [insert] of a profile reads it. *)
Record FileMetadataType : Type := {
  fm_AttachmentMetaId : Z;
  fm_FileHash : string;
  fm_FileExt : string
}.

Record AttachmentType : Type := {
  a_AttachmentId : Z;
  a_AttachmentMetaId : Z;
  a_FileHash : string;
  a_Created : Z;
  a_ItemTypeId : Z;
  a_ItemId : Z;
  a_ProfileId : Z
}.

Definition AttachmentType_zero : AttachmentType :=
  {| a_AttachmentId := 0; a_AttachmentMetaId := 0; a_FileHash := "";
     a_Created := 0; a_ItemTypeId := 0; a_ItemId := 0; a_ProfileId := 0 |}.

(** [h.PatchType] after [ScanRawValue]: the path and the boolean value. *)
Record PatchType : Type := {
  pt_Path : string;
  pt_Bool : bool
}.

Record Db : Type := {
  (* tables the modelled read paths query *)
  db_profiles : gmap Z ProfileRow;
  db_profile_seq : Z;
  db_events : gmap Z EventRow;
  db_event_seq : Z;
  db_flags : gmap (Z * Z) FlagRow;
  db_attendees : list AttendeeRow;
  db_event_default : EventRow;     (* column defaults of table events *)
  (* injected failure of a call; [None] lets it succeed *)
  db_fault : Call -> error;
  (* results of queries and collaborators whose logic is outside the model *)
  db_is_deleted : Z -> Z -> bool;                    (* SQL is_deleted(type, id) *)
  db_comment_count : Z -> Z -> Z;                    (* comments under (type, id) *)
  db_flag_item_count : Z -> Z -> Z;                  (* items created by (site, profile) *)
  db_profile_comment_id : Z -> Z;                    (* latest comment on a profile, or 0 *)
  db_comment_summary : Z -> Z -> CommentSummaryType * Z * error;   (* GetCommentSummary *)
  db_microcosm_summary : Z -> Z -> Z -> Z * error;   (* GetMicrocosmSummary: status, error *)
  db_collab : string -> Z -> Z * error;              (* status and error of a collaborator *)
  db_profile_validate : ProfileType -> bool -> ProfileType * Z * error;
                                                     (* (m *ProfileType) Validate(exists) *)
  db_user_email : Z -> string;                       (* GetUser(id).Email *)
  db_gravatar : string -> FileMetadataType;          (* StoreGravatar(url) *)
  db_attachment_id : Z -> Z;                         (* id given by AttachmentType.Insert *)
  db_microcosm_title : Z -> string;                  (* GetMicrocosmTitle *)
  db_last_comment : Z -> Z -> LastComment * Z * error;   (* GetLastComment *)
  db_profile_ids : Z -> ProfileSearchOptions -> Z -> Z -> list Z;
                                   (* --GetProfiles page: site, options, limit, offset *)
  db_profile_total : Z -> ProfileSearchOptions -> Z -> Z -> Z;   (* its COUNT( * ) *)
  db_ignores_page : Z -> Z -> Z -> list IgnoreRow;   (* --Get Ignores: profile, limit, offset *)
  db_events_page : Z -> Z -> bool -> Z -> Z -> list EventsPageRow
                                   (* --GetEvents: site, profile, attending, limit, offset *)
}.


(** ** Field updates *)

(** [r.F = v] on a record. *)
Definition set_f_Sticky (v : bool) (r : FlagsType) : FlagsType :=
  {| f_Sticky := v; f_Open := f_Open r; f_Visible := f_Visible r;
     f_Moderated := f_Moderated r; f_Deleted := f_Deleted r;
     f_Attending := f_Attending r |}.

Definition set_f_Open (v : bool) (r : FlagsType) : FlagsType :=
  {| f_Sticky := f_Sticky r; f_Open := v; f_Visible := f_Visible r;
     f_Moderated := f_Moderated r; f_Deleted := f_Deleted r;
     f_Attending := f_Attending r |}.

Definition set_f_Moderated (v : bool) (r : FlagsType) : FlagsType :=
  {| f_Sticky := f_Sticky r; f_Open := f_Open r; f_Visible := f_Visible r;
     f_Moderated := v; f_Deleted := f_Deleted r;
     f_Attending := f_Attending r |}.

Definition set_f_Deleted (v : bool) (r : FlagsType) : FlagsType :=
  {| f_Sticky := f_Sticky r; f_Open := f_Open r; f_Visible := f_Visible r;
     f_Moderated := f_Moderated r; f_Deleted := v;
     f_Attending := f_Attending r |}.

Definition set_f_Attending (v : bool) (r : FlagsType) : FlagsType :=
  {| f_Sticky := f_Sticky r; f_Open := f_Open r; f_Visible := f_Visible r;
     f_Moderated := f_Moderated r; f_Deleted := f_Deleted r;
     f_Attending := v |}.

Definition set_m_CreatedBy (v : option ProfileSummaryType)
    (r : EventMeta) : EventMeta :=
  {| m_Created := m_Created r; m_CreatedById := m_CreatedById r;
     m_CreatedBy := v; m_EditedNullable := m_EditedNullable r;
     m_Edited := m_Edited r; m_EditedByNullable := m_EditedByNullable r;
     m_EditedBy := m_EditedBy r;
     m_EditReasonNullable := m_EditReasonNullable r;
     m_EditReason := m_EditReason r; m_Flags := m_Flags r;
     m_Links := m_Links r |}.

Definition set_m_EditedNullable (v : option Z) (r : EventMeta) : EventMeta :=
  {| m_Created := m_Created r; m_CreatedById := m_CreatedById r;
     m_CreatedBy := m_CreatedBy r; m_EditedNullable := v;
     m_Edited := m_Edited r; m_EditedByNullable := m_EditedByNullable r;
     m_EditedBy := m_EditedBy r;
     m_EditReasonNullable := m_EditReasonNullable r;
     m_EditReason := m_EditReason r; m_Flags := m_Flags r;
     m_Links := m_Links r |}.

Definition set_m_Edited (v : string) (r : EventMeta) : EventMeta :=
  {| m_Created := m_Created r; m_CreatedById := m_CreatedById r;
     m_CreatedBy := m_CreatedBy r; m_EditedNullable := m_EditedNullable r;
     m_Edited := v; m_EditedByNullable := m_EditedByNullable r;
     m_EditedBy := m_EditedBy r;
     m_EditReasonNullable := m_EditReasonNullable r;
     m_EditReason := m_EditReason r; m_Flags := m_Flags r;
     m_Links := m_Links r |}.

Definition set_m_EditedByNullable (v : option Z) (r : EventMeta) : EventMeta :=
  {| m_Created := m_Created r; m_CreatedById := m_CreatedById r;
     m_CreatedBy := m_CreatedBy r; m_EditedNullable := m_EditedNullable r;
     m_Edited := m_Edited r; m_EditedByNullable := v;
     m_EditedBy := m_EditedBy r;
     m_EditReasonNullable := m_EditReasonNullable r;
     m_EditReason := m_EditReason r; m_Flags := m_Flags r;
     m_Links := m_Links r |}.

Definition set_m_EditedBy (v : option ProfileSummaryType)
    (r : EventMeta) : EventMeta :=
  {| m_Created := m_Created r; m_CreatedById := m_CreatedById r;
     m_CreatedBy := m_CreatedBy r; m_EditedNullable := m_EditedNullable r;
     m_Edited := m_Edited r; m_EditedByNullable := m_EditedByNullable r;
     m_EditedBy := v; m_EditReasonNullable := m_EditReasonNullable r;
     m_EditReason := m_EditReason r; m_Flags := m_Flags r;
     m_Links := m_Links r |}.

Definition set_m_EditReason (v : string) (r : EventMeta) : EventMeta :=
  {| m_Created := m_Created r; m_CreatedById := m_CreatedById r;
     m_CreatedBy := m_CreatedBy r; m_EditedNullable := m_EditedNullable r;
     m_Edited := m_Edited r; m_EditedByNullable := m_EditedByNullable r;
     m_EditedBy := m_EditedBy r;
     m_EditReasonNullable := m_EditReasonNullable r; m_EditReason := v;
     m_Flags := m_Flags r; m_Links := m_Links r |}.

Definition set_m_Flags (v : FlagsType) (r : EventMeta) : EventMeta :=
  {| m_Created := m_Created r; m_CreatedById := m_CreatedById r;
     m_CreatedBy := m_CreatedBy r; m_EditedNullable := m_EditedNullable r;
     m_Edited := m_Edited r; m_EditedByNullable := m_EditedByNullable r;
     m_EditedBy := m_EditedBy r;
     m_EditReasonNullable := m_EditReasonNullable r;
     m_EditReason := m_EditReason r; m_Flags := v; m_Links := m_Links r |}.

Definition set_m_Links (v : list LinkType) (r : EventMeta) : EventMeta :=
  {| m_Created := m_Created r; m_CreatedById := m_CreatedById r;
     m_CreatedBy := m_CreatedBy r; m_EditedNullable := m_EditedNullable r;
     m_Edited := m_Edited r; m_EditedByNullable := m_EditedByNullable r;
     m_EditedBy := m_EditedBy r;
     m_EditReasonNullable := m_EditReasonNullable r;
     m_EditReason := m_EditReason r; m_Flags := m_Flags r; m_Links := v |}.

Definition set_e_Id (v : Z) (r : EventType) : EventType :=
  {| e_Id := v; e_MicrocosmId := e_MicrocosmId r; e_Title := e_Title r;
     e_WhenNullable := e_WhenNullable r; e_When := e_When r;
     e_Duration := e_Duration r; e_Where := e_Where r;
     e_WhereNullable := e_WhereNullable r; e_Lat := e_Lat r;
     e_Lon := e_Lon r; e_North := e_North r; e_East := e_East r;
     e_South := e_South r; e_West := e_West r; e_Status := e_Status r;
     e_RSVPLimit := e_RSVPLimit r; e_RSVPAttending := e_RSVPAttending r;
     e_RSVPSpaces := e_RSVPSpaces r; e_Meta := e_Meta r |}.

Definition set_e_Title (v : string) (r : EventType) : EventType :=
  {| e_Id := e_Id r; e_MicrocosmId := e_MicrocosmId r; e_Title := v;
     e_WhenNullable := e_WhenNullable r; e_When := e_When r;
     e_Duration := e_Duration r; e_Where := e_Where r;
     e_WhereNullable := e_WhereNullable r; e_Lat := e_Lat r;
     e_Lon := e_Lon r; e_North := e_North r; e_East := e_East r;
     e_South := e_South r; e_West := e_West r; e_Status := e_Status r;
     e_RSVPLimit := e_RSVPLimit r; e_RSVPAttending := e_RSVPAttending r;
     e_RSVPSpaces := e_RSVPSpaces r; e_Meta := e_Meta r |}.

Definition set_e_WhenNullable (v : option Z) (r : EventType) : EventType :=
  {| e_Id := e_Id r; e_MicrocosmId := e_MicrocosmId r; e_Title := e_Title r;
     e_WhenNullable := v; e_When := e_When r; e_Duration := e_Duration r;
     e_Where := e_Where r; e_WhereNullable := e_WhereNullable r;
     e_Lat := e_Lat r; e_Lon := e_Lon r; e_North := e_North r;
     e_East := e_East r; e_South := e_South r; e_West := e_West r;
     e_Status := e_Status r; e_RSVPLimit := e_RSVPLimit r;
     e_RSVPAttending := e_RSVPAttending r; e_RSVPSpaces := e_RSVPSpaces r;
     e_Meta := e_Meta r |}.

Definition set_e_When (v : string) (r : EventType) : EventType :=
  {| e_Id := e_Id r; e_MicrocosmId := e_MicrocosmId r; e_Title := e_Title r;
     e_WhenNullable := e_WhenNullable r; e_When := v;
     e_Duration := e_Duration r; e_Where := e_Where r;
     e_WhereNullable := e_WhereNullable r; e_Lat := e_Lat r;
     e_Lon := e_Lon r; e_North := e_North r; e_East := e_East r;
     e_South := e_South r; e_West := e_West r; e_Status := e_Status r;
     e_RSVPLimit := e_RSVPLimit r; e_RSVPAttending := e_RSVPAttending r;
     e_RSVPSpaces := e_RSVPSpaces r; e_Meta := e_Meta r |}.

Definition set_e_Duration (v : Z) (r : EventType) : EventType :=
  {| e_Id := e_Id r; e_MicrocosmId := e_MicrocosmId r; e_Title := e_Title r;
     e_WhenNullable := e_WhenNullable r; e_When := e_When r;
     e_Duration := v; e_Where := e_Where r;
     e_WhereNullable := e_WhereNullable r; e_Lat := e_Lat r;
     e_Lon := e_Lon r; e_North := e_North r; e_East := e_East r;
     e_South := e_South r; e_West := e_West r; e_Status := e_Status r;
     e_RSVPLimit := e_RSVPLimit r; e_RSVPAttending := e_RSVPAttending r;
     e_RSVPSpaces := e_RSVPSpaces r; e_Meta := e_Meta r |}.

Definition set_e_Where (v : string) (r : EventType) : EventType :=
  {| e_Id := e_Id r; e_MicrocosmId := e_MicrocosmId r; e_Title := e_Title r;
     e_WhenNullable := e_WhenNullable r; e_When := e_When r;
     e_Duration := e_Duration r; e_Where := v;
     e_WhereNullable := e_WhereNullable r; e_Lat := e_Lat r;
     e_Lon := e_Lon r; e_North := e_North r; e_East := e_East r;
     e_South := e_South r; e_West := e_West r; e_Status := e_Status r;
     e_RSVPLimit := e_RSVPLimit r; e_RSVPAttending := e_RSVPAttending r;
     e_RSVPSpaces := e_RSVPSpaces r; e_Meta := e_Meta r |}.

Definition set_e_WhereNullable (v : option string)
    (r : EventType) : EventType :=
  {| e_Id := e_Id r; e_MicrocosmId := e_MicrocosmId r; e_Title := e_Title r;
     e_WhenNullable := e_WhenNullable r; e_When := e_When r;
     e_Duration := e_Duration r; e_Where := e_Where r; e_WhereNullable := v;
     e_Lat := e_Lat r; e_Lon := e_Lon r; e_North := e_North r;
     e_East := e_East r; e_South := e_South r; e_West := e_West r;
     e_Status := e_Status r; e_RSVPLimit := e_RSVPLimit r;
     e_RSVPAttending := e_RSVPAttending r; e_RSVPSpaces := e_RSVPSpaces r;
     e_Meta := e_Meta r |}.

Definition set_e_Status (v : string) (r : EventType) : EventType :=
  {| e_Id := e_Id r; e_MicrocosmId := e_MicrocosmId r; e_Title := e_Title r;
     e_WhenNullable := e_WhenNullable r; e_When := e_When r;
     e_Duration := e_Duration r; e_Where := e_Where r;
     e_WhereNullable := e_WhereNullable r; e_Lat := e_Lat r;
     e_Lon := e_Lon r; e_North := e_North r; e_East := e_East r;
     e_South := e_South r; e_West := e_West r; e_Status := v;
     e_RSVPLimit := e_RSVPLimit r; e_RSVPAttending := e_RSVPAttending r;
     e_RSVPSpaces := e_RSVPSpaces r; e_Meta := e_Meta r |}.

Definition set_e_RSVPSpaces (v : Z) (r : EventType) : EventType :=
  {| e_Id := e_Id r; e_MicrocosmId := e_MicrocosmId r; e_Title := e_Title r;
     e_WhenNullable := e_WhenNullable r; e_When := e_When r;
     e_Duration := e_Duration r; e_Where := e_Where r;
     e_WhereNullable := e_WhereNullable r; e_Lat := e_Lat r;
     e_Lon := e_Lon r; e_North := e_North r; e_East := e_East r;
     e_South := e_South r; e_West := e_West r; e_Status := e_Status r;
     e_RSVPLimit := e_RSVPLimit r; e_RSVPAttending := e_RSVPAttending r;
     e_RSVPSpaces := v; e_Meta := e_Meta r |}.

Definition set_e_Meta (v : EventMeta) (r : EventType) : EventType :=
  {| e_Id := e_Id r; e_MicrocosmId := e_MicrocosmId r; e_Title := e_Title r;
     e_WhenNullable := e_WhenNullable r; e_When := e_When r;
     e_Duration := e_Duration r; e_Where := e_Where r;
     e_WhereNullable := e_WhereNullable r; e_Lat := e_Lat r;
     e_Lon := e_Lon r; e_North := e_North r; e_East := e_East r;
     e_South := e_South r; e_West := e_West r; e_Status := e_Status r;
     e_RSVPLimit := e_RSVPLimit r; e_RSVPAttending := e_RSVPAttending r;
     e_RSVPSpaces := e_RSVPSpaces r; e_Meta := v |}.

Definition set_lc_CreatedBy (v : option ProfileSummaryType)
    (r : LastComment) : LastComment :=
  {| lc_Valid := lc_Valid r; lc_Id := lc_Id r;
     lc_CreatedById := lc_CreatedById r; lc_CreatedBy := v |}.

Definition set_es_When (v : string) (r : EventSummaryType) : EventSummaryType :=
  {| es_Id := es_Id r; es_MicrocosmId := es_MicrocosmId r;
     es_Title := es_Title r; es_WhenNullable := es_WhenNullable r;
     es_When := v; es_Duration := es_Duration r;
     es_WhereNullable := es_WhereNullable r; es_Where := es_Where r;
     es_Lat := es_Lat r; es_Lon := es_Lon r; es_North := es_North r;
     es_East := es_East r; es_South := es_South r; es_West := es_West r;
     es_Status := es_Status r; es_RSVPLimit := es_RSVPLimit r;
     es_RSVPAttending := es_RSVPAttending r;
     es_RSVPSpaces := es_RSVPSpaces r; es_CommentCount := es_CommentCount r;
     es_ViewCount := es_ViewCount r; es_LastComment := es_LastComment r;
     es_Meta := es_Meta r |}.

Definition set_es_Where (v : string)
    (r : EventSummaryType) : EventSummaryType :=
  {| es_Id := es_Id r; es_MicrocosmId := es_MicrocosmId r;
     es_Title := es_Title r; es_WhenNullable := es_WhenNullable r;
     es_When := es_When r; es_Duration := es_Duration r;
     es_WhereNullable := es_WhereNullable r; es_Where := v;
     es_Lat := es_Lat r; es_Lon := es_Lon r; es_North := es_North r;
     es_East := es_East r; es_South := es_South r; es_West := es_West r;
     es_Status := es_Status r; es_RSVPLimit := es_RSVPLimit r;
     es_RSVPAttending := es_RSVPAttending r;
     es_RSVPSpaces := es_RSVPSpaces r; es_CommentCount := es_CommentCount r;
     es_ViewCount := es_ViewCount r; es_LastComment := es_LastComment r;
     es_Meta := es_Meta r |}.

Definition set_es_LastComment (v : option LastComment)
    (r : EventSummaryType) : EventSummaryType :=
  {| es_Id := es_Id r; es_MicrocosmId := es_MicrocosmId r;
     es_Title := es_Title r; es_WhenNullable := es_WhenNullable r;
     es_When := es_When r; es_Duration := es_Duration r;
     es_WhereNullable := es_WhereNullable r; es_Where := es_Where r;
     es_Lat := es_Lat r; es_Lon := es_Lon r; es_North := es_North r;
     es_East := es_East r; es_South := es_South r; es_West := es_West r;
     es_Status := es_Status r; es_RSVPLimit := es_RSVPLimit r;
     es_RSVPAttending := es_RSVPAttending r;
     es_RSVPSpaces := es_RSVPSpaces r; es_CommentCount := es_CommentCount r;
     es_ViewCount := es_ViewCount r; es_LastComment := v;
     es_Meta := es_Meta r |}.

Definition set_es_Meta (v : EventMeta)
    (r : EventSummaryType) : EventSummaryType :=
  {| es_Id := es_Id r; es_MicrocosmId := es_MicrocosmId r;
     es_Title := es_Title r; es_WhenNullable := es_WhenNullable r;
     es_When := es_When r; es_Duration := es_Duration r;
     es_WhereNullable := es_WhereNullable r; es_Where := es_Where r;
     es_Lat := es_Lat r; es_Lon := es_Lon r; es_North := es_North r;
     es_East := es_East r; es_South := es_South r; es_West := es_West r;
     es_Status := es_Status r; es_RSVPLimit := es_RSVPLimit r;
     es_RSVPAttending := es_RSVPAttending r;
     es_RSVPSpaces := es_RSVPSpaces r; es_CommentCount := es_CommentCount r;
     es_ViewCount := es_ViewCount r; es_LastComment := es_LastComment r;
     es_Meta := v |}.

Definition set_p_Id (v : Z) (r : ProfileType) : ProfileType :=
  {| p_Id := v; p_SiteId := p_SiteId r; p_UserId := p_UserId r;
     p_Email := p_Email r; p_ProfileName := p_ProfileName r;
     p_GenderNullable := p_GenderNullable r; p_Gender := p_Gender r;
     p_Visible := p_Visible r; p_StyleId := p_StyleId r;
     p_ItemCount := p_ItemCount r; p_CommentCount := p_CommentCount r;
     p_ProfileComment := p_ProfileComment r; p_Created := p_Created r;
     p_LastActive := p_LastActive r;
     p_AvatarUrlNullable := p_AvatarUrlNullable r;
     p_AvatarUrl := p_AvatarUrl r;
     p_AvatarIdNullable := p_AvatarIdNullable r; p_AvatarId := p_AvatarId r;
     p_Links := p_Links r |}.

Definition set_p_ProfileName (v : string) (r : ProfileType) : ProfileType :=
  {| p_Id := p_Id r; p_SiteId := p_SiteId r; p_UserId := p_UserId r;
     p_Email := p_Email r; p_ProfileName := v;
     p_GenderNullable := p_GenderNullable r; p_Gender := p_Gender r;
     p_Visible := p_Visible r; p_StyleId := p_StyleId r;
     p_ItemCount := p_ItemCount r; p_CommentCount := p_CommentCount r;
     p_ProfileComment := p_ProfileComment r; p_Created := p_Created r;
     p_LastActive := p_LastActive r;
     p_AvatarUrlNullable := p_AvatarUrlNullable r;
     p_AvatarUrl := p_AvatarUrl r;
     p_AvatarIdNullable := p_AvatarIdNullable r; p_AvatarId := p_AvatarId r;
     p_Links := p_Links r |}.

Definition set_p_Created (v : Z) (r : ProfileType) : ProfileType :=
  {| p_Id := p_Id r; p_SiteId := p_SiteId r; p_UserId := p_UserId r;
     p_Email := p_Email r; p_ProfileName := p_ProfileName r;
     p_GenderNullable := p_GenderNullable r; p_Gender := p_Gender r;
     p_Visible := p_Visible r; p_StyleId := p_StyleId r;
     p_ItemCount := p_ItemCount r; p_CommentCount := p_CommentCount r;
     p_ProfileComment := p_ProfileComment r; p_Created := v;
     p_LastActive := p_LastActive r;
     p_AvatarUrlNullable := p_AvatarUrlNullable r;
     p_AvatarUrl := p_AvatarUrl r;
     p_AvatarIdNullable := p_AvatarIdNullable r; p_AvatarId := p_AvatarId r;
     p_Links := p_Links r |}.

Definition set_p_LastActive (v : Z) (r : ProfileType) : ProfileType :=
  {| p_Id := p_Id r; p_SiteId := p_SiteId r; p_UserId := p_UserId r;
     p_Email := p_Email r; p_ProfileName := p_ProfileName r;
     p_GenderNullable := p_GenderNullable r; p_Gender := p_Gender r;
     p_Visible := p_Visible r; p_StyleId := p_StyleId r;
     p_ItemCount := p_ItemCount r; p_CommentCount := p_CommentCount r;
     p_ProfileComment := p_ProfileComment r; p_Created := p_Created r;
     p_LastActive := v; p_AvatarUrlNullable := p_AvatarUrlNullable r;
     p_AvatarUrl := p_AvatarUrl r;
     p_AvatarIdNullable := p_AvatarIdNullable r; p_AvatarId := p_AvatarId r;
     p_Links := p_Links r |}.

Definition set_p_AvatarUrlNullable (v : option string)
    (r : ProfileType) : ProfileType :=
  {| p_Id := p_Id r; p_SiteId := p_SiteId r; p_UserId := p_UserId r;
     p_Email := p_Email r; p_ProfileName := p_ProfileName r;
     p_GenderNullable := p_GenderNullable r; p_Gender := p_Gender r;
     p_Visible := p_Visible r; p_StyleId := p_StyleId r;
     p_ItemCount := p_ItemCount r; p_CommentCount := p_CommentCount r;
     p_ProfileComment := p_ProfileComment r; p_Created := p_Created r;
     p_LastActive := p_LastActive r; p_AvatarUrlNullable := v;
     p_AvatarUrl := p_AvatarUrl r;
     p_AvatarIdNullable := p_AvatarIdNullable r; p_AvatarId := p_AvatarId r;
     p_Links := p_Links r |}.

Definition set_p_AvatarIdNullable (v : option Z)
    (r : ProfileType) : ProfileType :=
  {| p_Id := p_Id r; p_SiteId := p_SiteId r; p_UserId := p_UserId r;
     p_Email := p_Email r; p_ProfileName := p_ProfileName r;
     p_GenderNullable := p_GenderNullable r; p_Gender := p_Gender r;
     p_Visible := p_Visible r; p_StyleId := p_StyleId r;
     p_ItemCount := p_ItemCount r; p_CommentCount := p_CommentCount r;
     p_ProfileComment := p_ProfileComment r; p_Created := p_Created r;
     p_LastActive := p_LastActive r;
     p_AvatarUrlNullable := p_AvatarUrlNullable r;
     p_AvatarUrl := p_AvatarUrl r; p_AvatarIdNullable := v;
     p_AvatarId := p_AvatarId r; p_Links := p_Links r |}.

Definition set_a_AttachmentId (v : Z) (r : AttachmentType) : AttachmentType :=
  {| a_AttachmentId := v; a_AttachmentMetaId := a_AttachmentMetaId r;
     a_FileHash := a_FileHash r; a_Created := a_Created r;
     a_ItemTypeId := a_ItemTypeId r; a_ItemId := a_ItemId r;
     a_ProfileId := a_ProfileId r |}.

Definition set_db_profiles (v : gmap Z ProfileRow) (r : Db) : Db :=
  {| db_profiles := v; db_profile_seq := db_profile_seq r;
     db_events := db_events r; db_event_seq := db_event_seq r;
     db_flags := db_flags r; db_attendees := db_attendees r;
     db_event_default := db_event_default r; db_fault := db_fault r;
     db_is_deleted := db_is_deleted r;
     db_comment_count := db_comment_count r;
     db_flag_item_count := db_flag_item_count r;
     db_profile_comment_id := db_profile_comment_id r;
     db_comment_summary := db_comment_summary r;
     db_microcosm_summary := db_microcosm_summary r;
     db_collab := db_collab r; db_profile_validate := db_profile_validate r;
     db_user_email := db_user_email r; db_gravatar := db_gravatar r;
     db_attachment_id := db_attachment_id r;
     db_microcosm_title := db_microcosm_title r;
     db_last_comment := db_last_comment r;
     db_profile_ids := db_profile_ids r;
     db_profile_total := db_profile_total r;
     db_ignores_page := db_ignores_page r;
     db_events_page := db_events_page r |}.

Definition set_db_profile_seq (v : Z) (r : Db) : Db :=
  {| db_profiles := db_profiles r; db_profile_seq := v;
     db_events := db_events r; db_event_seq := db_event_seq r;
     db_flags := db_flags r; db_attendees := db_attendees r;
     db_event_default := db_event_default r; db_fault := db_fault r;
     db_is_deleted := db_is_deleted r;
     db_comment_count := db_comment_count r;
     db_flag_item_count := db_flag_item_count r;
     db_profile_comment_id := db_profile_comment_id r;
     db_comment_summary := db_comment_summary r;
     db_microcosm_summary := db_microcosm_summary r;
     db_collab := db_collab r; db_profile_validate := db_profile_validate r;
     db_user_email := db_user_email r; db_gravatar := db_gravatar r;
     db_attachment_id := db_attachment_id r;
     db_microcosm_title := db_microcosm_title r;
     db_last_comment := db_last_comment r;
     db_profile_ids := db_profile_ids r;
     db_profile_total := db_profile_total r;
     db_ignores_page := db_ignores_page r;
     db_events_page := db_events_page r |}.

Definition set_db_events (v : gmap Z EventRow) (r : Db) : Db :=
  {| db_profiles := db_profiles r; db_profile_seq := db_profile_seq r;
     db_events := v; db_event_seq := db_event_seq r; db_flags := db_flags r;
     db_attendees := db_attendees r; db_event_default := db_event_default r;
     db_fault := db_fault r; db_is_deleted := db_is_deleted r;
     db_comment_count := db_comment_count r;
     db_flag_item_count := db_flag_item_count r;
     db_profile_comment_id := db_profile_comment_id r;
     db_comment_summary := db_comment_summary r;
     db_microcosm_summary := db_microcosm_summary r;
     db_collab := db_collab r; db_profile_validate := db_profile_validate r;
     db_user_email := db_user_email r; db_gravatar := db_gravatar r;
     db_attachment_id := db_attachment_id r;
     db_microcosm_title := db_microcosm_title r;
     db_last_comment := db_last_comment r;
     db_profile_ids := db_profile_ids r;
     db_profile_total := db_profile_total r;
     db_ignores_page := db_ignores_page r;
     db_events_page := db_events_page r |}.

Definition set_db_event_seq (v : Z) (r : Db) : Db :=
  {| db_profiles := db_profiles r; db_profile_seq := db_profile_seq r;
     db_events := db_events r; db_event_seq := v; db_flags := db_flags r;
     db_attendees := db_attendees r; db_event_default := db_event_default r;
     db_fault := db_fault r; db_is_deleted := db_is_deleted r;
     db_comment_count := db_comment_count r;
     db_flag_item_count := db_flag_item_count r;
     db_profile_comment_id := db_profile_comment_id r;
     db_comment_summary := db_comment_summary r;
     db_microcosm_summary := db_microcosm_summary r;
     db_collab := db_collab r; db_profile_validate := db_profile_validate r;
     db_user_email := db_user_email r; db_gravatar := db_gravatar r;
     db_attachment_id := db_attachment_id r;
     db_microcosm_title := db_microcosm_title r;
     db_last_comment := db_last_comment r;
     db_profile_ids := db_profile_ids r;
     db_profile_total := db_profile_total r;
     db_ignores_page := db_ignores_page r;
     db_events_page := db_events_page r |}.

(** The field updates as an unfolding database. *)
Create HintDb fields.
#[global] Hint Unfold
  set_f_Sticky set_f_Open set_f_Moderated set_f_Deleted set_f_Attending
  set_m_CreatedBy set_m_EditedNullable set_m_Edited set_m_EditedByNullable
  set_m_EditedBy set_m_EditReason set_m_Flags set_m_Links set_e_Id
  set_e_Title set_e_WhenNullable set_e_When set_e_Duration set_e_Where
  set_e_WhereNullable set_e_Status set_e_RSVPSpaces set_e_Meta
  set_lc_CreatedBy set_es_When set_es_Where set_es_LastComment set_es_Meta
  set_p_Id set_p_ProfileName set_p_Created set_p_LastActive
  set_p_AvatarUrlNullable set_p_AvatarIdNullable set_a_AttachmentId
  set_db_profiles set_db_profile_seq set_db_events set_db_event_seq
  : fields.

(** ** Observable effects *)

Inductive Effect : Type :=
| EBegin                                   (* a transaction was opened *)
| EExec (label : string) (key : Z)         (* a statement ran without error *)
| ECommit                                  (* tx.Commit() succeeded *)
| ECommitFailed                            (* tx.Commit() returned an error *)
| ERollback                                (* tx.Rollback() on a live transaction *)
| ECacheSet (k : CacheKey)
| EPurge (kind id : Z)                     (* PurgeCache(kind, id) *)
| EPurgeScope (s : Scope) (kind id : Z)    (* PurgeCacheByScope(s, kind, id) *)
| EGo (e : Effect)                         (* `go f(...)`: f started, not awaited *)
| ECall (name : string) (key : Z).         (* a collaborator with effects of its own *)

#[global] Instance Effect_eq_dec : EqDecision Effect.
Proof. solve_decision. Defined.

(** ** The world a request runs in *)

Record World : Type := {
  cache : gmap CacheKey CacheEntry;
  cache_up : bool;            (* the backing cache service is reachable *)
  db : Db;
  now : Z;                    (* wall clock, seconds *)
  log : list Effect           (* effects so far, oldest first *)
}.

Definition set_cache (c : gmap CacheKey CacheEntry) (w : World) : World :=
  {| cache := c; cache_up := cache_up w; db := db w; now := now w; log := log w |}.
Definition set_db (d : Db) (w : World) : World :=
  {| cache := cache w; cache_up := cache_up w; db := d; now := now w; log := log w |}.
Definition set_now (t : Z) (w : World) : World :=
  {| cache := cache w; cache_up := cache_up w; db := db w; now := t; log := log w |}.
Definition set_log (l : list Effect) (w : World) : World :=
  {| cache := cache w; cache_up := cache_up w; db := db w; now := now w; log := l |}.
Definition emit (e : Effect) (w : World) : World :=
  set_log (log w ++ [e]) w.

(** State-passing computations. *)
Definition M (A : Type) : Type := World -> A * World.

Definition ret {A} (a : A) : M A := fun w => (a, w).
Definition bind {A B} (c : M A) (k : A -> M B) : M B :=
  fun w => let (a, w') := c w in k a w'.
Definition gets {A} (f : World -> A) : M A := fun w => (f w, w).
Definition modify (f : World -> World) : M unit := fun w => (tt, f w).

Notation "'let*' x ':=' c 'in' k" := (bind c (fun x => k))
  (at level 10, x pattern, c at level 100, k at level 200, only parsing).
Notation "c ;; k" := (bind c (fun _ => k))
  (at level 100, k at level 200, only parsing).

(** The outcome of [QueryRow(...).Scan(...)]. *)
Inductive RowResult (A : Type) : Type :=
| Row (a : A)
| ErrNoRows
| QueryFailed (msg : string).
Arguments Row {A} a.
Arguments ErrNoRows {A}.
Arguments QueryFailed {A} msg.

(** ** Functions and constants declared outside the sources at hand *)

Record Externals : Type := {
  mcTtl : Z;                                  (* ttl of entity cache entries *)
  ItemTypes : gmap string Z;                  (* h.ItemTypes *)
  GetItemTypeFromInt : Z -> string * error;   (* h.GetItemTypeFromInt *)
  Md5sum : string -> string;                  (* h.Md5sum *)
  SanitiseText : string -> string;            (* bluemonday StripTagsPolicy().Sanitize *)
  ShoutToWhisper : string -> string;
  SetVisible : FlagsType -> FlagsType;        (* m.Meta.Flags.SetVisible() *)
  time_Parse : string -> Z + string;          (* time.Parse(time.RFC3339, s) *)
  time_String : Z -> string;                  (* Time.String() *)
  time_Format : Z -> string;                  (* Time.Format(time.RFC3339Nano) *)
  fmt_b : float64 -> string;                  (* fmt.Sprintf("%b", f) *)
  strings_ToLower : string -> string;
  ApiTypeFile : string;                       (* h.ApiTypeFile *)
  (* the fetch behind HandleSummaryContainerRequest: site, item type, item,
     profile; it may read and write the world like any other fetcher *)
  GetSummaryContainer : Z -> Z -> Z -> Z -> M (SummaryValue * Z * error)
}.

(** ** Aggregation units *)

(** [ProfileSummaryRequest] and [SummaryContainerRequest]: the same four
    fields around a different item. *)
Record Request (A : Type) : Type := {
  Item : A;
  Err : error;
  Status : Z;
  Seq : nat
}.
Arguments Item {A} r.
Arguments Err {A} r.
Arguments Status {A} r.
Arguments Seq {A} r.

Definition ProfileSummaryRequest : Type := Request ProfileSummaryType.
Definition SummaryContainerRequest : Type := Request SummaryValue.

(** [ProfileSummaryRequestBySeq.Less] / [SummaryContainerRequestsBySeq.Less] *)
Definition Less {A} (a b : Request A) : bool := (Seq a <? Seq b)%nat.

(** [sort.Sort(data)] orders [data] by [data.Less] and is not stable.  It is
    a Go library routine; the model is an insertion sort driven by the same
    [Less].  When no two elements compare equal (sequence numbers never do)
    there is one sorted arrangement, so the choice of algorithm is not
    observable. *)
Fixpoint insert_by {A} (less : A -> A -> bool) (x : A) (l : list A) : list A :=
  match l with
  | [] => [x]
  | y :: l' => if less y x then y :: insert_by less x l' else x :: y :: l'
  end.

Definition sort_Sort {A} (less : A -> A -> bool) (l : list A) : list A :=
  foldr (insert_by less) [] l.

(** The scan [for _, resp := range resps { if resp.Err != nil { return ... } }] *)
Definition first_error {A} (resps : list (Request A)) : option (Request A) :=
  find (fun r => failed (Err r)) resps.

(** Fan-out and receive.  One goroutine per position [seq] of [args] is
    started, each sending one response on an unbuffered channel; the caller
    receives [len(args)] responses.  The order of completion is not
    determined by the program: it is the parameter [sched], the list of
    positions in the order their responses are received.  Each unit runs to
    completion on the shared world at its turn. *)
Fixpoint fan_out {A B} (unit : nat -> B -> M (Request A))
    (args : list B) (sched : list nat) : M (list (Request A)) :=
  match sched with
  | [] => ret []
  | seq :: rest =>
      match args !! seq with
      | Some a =>
          let* r := unit seq a in
          let* rs := fan_out unit args rest in
          ret (r :: rs)
      | None => fan_out unit args rest
      end
  end.

(** The gather phase after the receive loop: scan for an error, then sort by
    [Seq] and project the items. *)
Definition gather {A} (resps : list (Request A)) : (Z * error) + list A :=
  match first_error resps with
  | Some r => inl (Status r, Err r)
  | None => inr (map Item (sort_Sort Less resps))
  end.

(** The gather phase in the words of the specification (section 4.3, steps
    3 and 4): the collected results are first sorted by [Seq], and the
    ordered results are then scanned for an error. *)
Definition gather_sorted_scan {A} (resps : list (Request A))
  : (Z * error) + list A :=
  match first_error (sort_Sort Less resps) with
  | Some r => inl (Status r, Err r)
  | None => inr (map Item (sort_Sort Less resps))
  end.

(** ** Paging (package helpers) *)

(** Modelled from the spec: [h.GetPageCount] and [h.GetMaxOffset] live in
    package [helpers], which is not among the sources.  The specification
    (section 4.4) gives [pages = ceil(total/limit)] and
    [maxOffset = max(0, (pages-1)*limit)] for [total >= 0] and [limit > 0]. *)
Definition GetPageCount (total limit : Z) : Z :=
  (total + limit - 1) / limit.

Definition GetMaxOffset (total limit : Z) : Z :=
  Z.max 0 ((GetPageCount total limit - 1) * limit).

(** The error every list function builds when [offset > maxOffset]. *)
Definition empty_page_error (offset : Z) : error :=
  Some ("not enough records, offset (" +:+ pretty offset +:+
        ") would return an empty page.").

(** ** The cache (package cache) *)

(** Modelled from the spec: the [cache] package is not among the sources.
    Section 4.1 of the specification: [get] yields [(value, found)];
    a stored value whose shape does not match the requested type, an expired
    entry and any failure of the backing service are all reported as "not
    found"; [set] overwrites unconditionally and is a no-op when the service
    cannot be reached; an entry lives for [ttl] seconds from its write. *)
Definition cache_lookup (k : CacheKey) (w : World) : option CacheValue :=
  if cache_up w then
    match cache w !! k with
    | Some e => if now w <? ce_expires e then Some (ce_value e) else None
    | None => None
    end
  else None.

Definition CacheGet {A} (proj : CacheValue -> option A) (k : CacheKey)
  : M (option A) :=
  gets (fun w => match cache_lookup k w with
                 | Some v => proj v
                 | None => None
                 end).

Definition cache_store (k : CacheKey) (v : CacheValue) (ttl : Z) (w : World)
  : World :=
  if cache_up w
  then set_cache (<[k := {| ce_value := v; ce_expires := now w + ttl |}]> (cache w)) w
  else w.

Definition CacheSet (k : CacheKey) (v : CacheValue) (ttl : Z) : M unit :=
  modify (fun w => emit (ECacheSet k) (cache_store k v ttl w)).

(** [c.CacheGetInt64(key) (int64, bool)] *)
Definition CacheGetInt64 (k : CacheKey) : M (Z * bool) :=
  let* r := CacheGet as_Int64 k in
  match r with
  | Some i => ret (i, true)
  | None => ret (0, false)
  end.

Definition CacheSetInt64 (k : CacheKey) (i : Z) (ttl : Z) : M unit :=
  CacheSet k (VInt64 i) ttl.

(** [c.CacheGetInt64Slice(key) ([]int64, bool)] *)
Definition CacheGetInt64Slice (k : CacheKey) : M (list Z * bool) :=
  let* r := CacheGet as_Int64Slice k in
  match r with
  | Some l => ret (l, true)
  | None => ret ([], false)
  end.

Definition CacheSetInt64Slice (k : CacheKey) (l : list Z) (ttl : Z) : M unit :=
  CacheSet k (VInt64Slice l) ttl.

(** Modelled from the spec: [PurgeCache] and [PurgeCacheByScope] belong to a
    file of package [models] that is not among the sources.  Section 4.1:
    [purge(kind, id)] removes the entry for every known scope of that
    (kind, id); [purgeScope(scope, kind, id)] removes only one scope's
    entry. *)
Definition purge_scope (s : Scope) (kind id : Z) (w : World) : World :=
  if cache_up w then set_cache (delete (KScoped kind s id) (cache w)) w else w.

Definition PurgeCacheByScope (s : Scope) (kind id : Z) : M unit :=
  modify (fun w => emit (EPurgeScope s kind id) (purge_scope s kind id w)).

Definition PurgeCache (kind id : Z) : M unit :=
  modify (fun w =>
    emit (EPurge kind id)
         (foldr (fun s w' => purge_scope s kind id w') w all_scopes)).

(** [go f(...)]: the call is started and not awaited; its effects are not
    part of the caller's world when the caller returns. *)
Definition go (e : Effect) : M unit := modify (emit (EGo e)).

(** ** Database access *)

Definition fault (c : Call) : M error := gets (fun w => db_fault (db w) c).

(** [h.GetConnection()] *)
Definition h_GetConnection : M error := fault GetConnection.

(** A transaction works on a copy of the store that replaces the store at
    commit.  Sequences are not transactional: a value drawn inside a
    transaction stays drawn. *)
Definition Tx : Type := Db.

(** [h.GetTransaction()]: a transaction, or the error. *)
Definition h_GetTransaction : M (Tx + string) :=
  let* e := fault GetTransaction in
  match e with
  | Some msg => ret (inr msg)
  | None => modify (emit EBegin) ;; let* d := gets db in ret (inl d)
  end.

(** [tx.Exec(stmt, key, ...)] for a statement whose rows no modelled read
    depends on: it either fails or is recorded. *)
Definition tx_Exec (label : string) (key : Z) : M error :=
  let* e := fault (Sql label key) in
  match e with
  | Some msg => ret (Some msg)
  | None => modify (emit (EExec label key)) ;; ret None
  end.

Definition with_seqs (world_db tx : Db) : Db :=
  set_db_profile_seq (db_profile_seq world_db)
    (set_db_event_seq (db_event_seq world_db) tx).

(** [tx.Commit()] *)
Definition tx_Commit (tx : Tx) : M error :=
  let* e := fault Commit in
  match e with
  | Some msg => modify (emit ECommitFailed) ;; ret (Some msg)
  | None =>
      modify (fun w => emit ECommit (set_db (with_seqs (db w) tx) w)) ;;
      ret None
  end.

(** [tx.Rollback()] on a transaction that has not been committed. *)
Definition tx_Rollback : M unit := modify (emit ERollback).


From Stdlib Require Import Ascii.

(** ** Authorisation (models/authorisation.go) *)

Record AuthContext : Type := {
  ac_SiteId : Z;
  ac_ProfileId : Z;
  ac_IsSiteOwner : bool;
  ac_MicrocosmId : Z;
  ac_ItemTypeId : Z;
  ac_ItemId : Z
}.

(** [AuthContext{}] *)
Definition AuthContext_zero : AuthContext :=
  {| ac_SiteId := 0; ac_ProfileId := 0; ac_IsSiteOwner := false;
     ac_MicrocosmId := 0; ac_ItemTypeId := 0; ac_ItemId := 0 |}.

Record PermissionType : Type := {
  pm_CanCreate : bool;
  pm_CanRead : bool;
  pm_CanUpdate : bool;
  pm_CanDelete : bool;
  pm_CanCloseOwn : bool;
  pm_CanOpenOwn : bool;
  pm_CanReadOthers : bool;
  pm_IsGuest : bool;
  pm_IsBanned : bool;
  pm_IsOwner : bool;
  pm_IsModerator : bool;
  pm_IsSiteOwner : bool;
  pm_Context : AuthContext;
  pm_Valid : bool
}.

(** [PermissionType{}] *)
Definition PermissionType_zero : PermissionType :=
  {| pm_CanCreate := false; pm_CanRead := false; pm_CanUpdate := false;
     pm_CanDelete := false; pm_CanCloseOwn := false; pm_CanOpenOwn := false;
     pm_CanReadOthers := false; pm_IsGuest := false; pm_IsBanned := false;
     pm_IsOwner := false; pm_IsModerator := false; pm_IsSiteOwner := false;
     pm_Context := AuthContext_zero; pm_Valid := false |}.

(** The row of [get_effective_permissions], in the order of its columns. *)
Record PermissionRow : Type := {
  gp_can_create : bool;
  gp_can_read : bool;
  gp_can_update : bool;
  gp_can_delete : bool;
  gp_can_close_own : bool;
  gp_can_open_own : bool;
  gp_can_read_others : bool;
  gp_is_guest : bool;
  gp_is_banned : bool;
  gp_is_owner : bool;
  gp_is_superuser : bool;
  gp_is_site_owner : bool
}.

(** What a permission grants or asserts: every field but [Context] and
    [Valid]. *)
Definition pm_flags (m : PermissionType) : list bool :=
  [pm_CanCreate m; pm_CanRead m; pm_CanUpdate m; pm_CanDelete m;
   pm_CanCloseOwn m; pm_CanOpenOwn m; pm_CanReadOthers m; pm_IsGuest m;
   pm_IsBanned m; pm_IsOwner m; pm_IsModerator m; pm_IsSiteOwner m].

(** ** Users and sites *)

(** [UserType] and [SiteType] are declared in files of package [models] that
    are not among the sources; these are the fields the modelled code
    reads. *)
Record UserType : Type := {
  u_ID : Z;
  u_Email : string
}.

Record SiteType : Type := {
  s_Id : Z
}.

(** ** View counts (models/cron.go) *)

(** The local [type View struct] of [UpdateViewCounts]. *)
Record View : Type := {
  v_ItemTypeId : Z;
  v_ItemId : Z
}.

Definition ItemTypeConversation : string := "conversation".
Definition ItemTypePoll : string := "poll".

(** ** Queries on tables outside [Db] *)

(** Results of the queries of the functions modelled below whose tables
    ([views], [users], the permission functions) are not part of [Db]. *)
Record Queries : Type := {
  (* get_effective_permissions(site, microcosm, item type, item, profile) *)
  q_effective_permissions : Z -> Z -> Z -> Z -> Z -> RowResult PermissionRow;
  (* --UpdateViewCounts: the (item_type_id, item_id) groups of table views *)
  q_views : list View;
  (* IsProfileNameTaken: the (email, exists) rows for site, user, lowered name *)
  q_name_taken : Z -> Z -> string -> list (string * bool)
}.

(** ** A concrete site, used to exercise the model *)

Definition ItemTypes0 : gmap string Z :=
  list_to_map
    [("site", 1); ("microcosm", 2); ("profile", 3); ("comment", 4);
     ("huddle", 5); ("conversation", 6); ("poll", 7); ("event", 9)].

Definition X0 : Externals :=
  {| mcTtl := 3600;
     ItemTypes := ItemTypes0;
     GetItemTypeFromInt := fun i =>
       if i =? 2 then ("microcosm", None)
       else if i =? 3 then ("profile", None)
       else if i =? 6 then ("conversation", None)
       else if i =? 9 then ("event", None)
       else ("", Some "item type not found");
     Md5sum := fun s => s;
     SanitiseText := fun s => s;
     ShoutToWhisper := fun s => s;
     SetVisible := fun f =>
       {| f_Sticky := f_Sticky f; f_Open := f_Open f;
          f_Visible := negb (f_Deleted f || f_Moderated f);
          f_Moderated := f_Moderated f; f_Deleted := f_Deleted f;
          f_Attending := f_Attending f |};
     time_Parse := fun s =>
       if String.eqb s "2014-05-05T19:00:00Z" then inl 1399316400
       else inr "parsing time: cannot parse";
     time_String := fun t => pretty t;
     time_Format := fun t => pretty t;
     fmt_b := fun f => pretty f;
     strings_ToLower := fun s => s;
     ApiTypeFile := "/api/v1/files";
     GetSummaryContainer := fun siteId itemTypeId itemId profileId =>
       if itemId =? 13 then ret ("", StatusNotFound, Some "Not found")
       else if itemId =? 14 then
         ret ("", StatusInternalServerError, Some "Database query failed")
       else ret ("summary " +:+ pretty itemId, StatusOK, None) |}.

Definition profile_row0 (siteId userId : Z) (name : string) : ProfileRow :=
  {| pr_site_id := siteId; pr_user_id := userId; pr_profile_name := name;
     pr_gender := None; pr_is_visible := true; pr_style_id := 0;
     pr_item_count := 0; pr_comment_count := 0; pr_created := 1399000000;
     pr_last_active := 1399000000; pr_avatar_url := None; pr_avatar_id := None |}.

Definition event_default0 : EventRow :=
  {| er_microcosm_id := 0; er_title := ""; er_created := 0; er_created_by := 0;
     er_edited := None; er_edited_by := None; er_edit_reason := None;
     er_is_sticky := false; er_is_open := true; er_is_visible := true;
     er_is_moderated := false; er_is_deleted := false; er_when := None;
     er_duration := 0; er_where := None; er_lat := 0; er_lon := 0;
     er_bounds_north := 0; er_bounds_east := 0; er_bounds_south := 0;
     er_bounds_west := 0; er_status := ""; er_rsvp_limit := 0;
     er_rsvp_attending := 0; er_rsvp_spaces := 0; er_view_count := 0 |}.

(** Site 1 has profiles 1 (alice) and 2 (bob); site 2 has profile 3 (carol).
    There are no events yet and nothing fails. *)
Definition db0 : Db :=
  {| db_profiles :=
       <[1 := profile_row0 1 101 "alice"]>
         (<[2 := profile_row0 1 102 "bob"]>
            (<[3 := profile_row0 2 103 "carol"]> ∅));
     db_profile_seq := 4;
     db_events := ∅;
     db_event_seq := 1;
     db_flags := ∅;
     db_attendees := [];
     db_event_default := event_default0;
     db_fault := fun _ => None;
     db_is_deleted := fun _ _ => false;
     db_comment_count := fun _ _ => 0;
     db_flag_item_count := fun _ _ => 0;
     db_profile_comment_id := fun _ => 0;
     db_comment_summary := fun _ id => (CommentSummary id, StatusOK, None);
     db_microcosm_summary := fun _ _ _ => (StatusOK, None);
     db_collab := fun _ _ => (StatusOK, None);
     db_profile_validate := fun m _ => (m, StatusOK, None);
     db_user_email := fun _ => "user@example.org";
     db_gravatar := fun _ =>
       {| fm_AttachmentMetaId := 1; fm_FileHash := "da39a3ee"; fm_FileExt := "png" |};
     db_attachment_id := fun _ => 1;
     db_microcosm_title := fun _ => "General";
     db_last_comment := fun _ _ =>
       ({| lc_Valid := false; lc_Id := 0; lc_CreatedById := 0; lc_CreatedBy := None |},
        StatusOK, None);
     db_profile_ids := fun _ _ _ _ => [1; 2];
     db_profile_total := fun _ _ _ _ => 2;
     db_ignores_page := fun _ _ _ => [];
     db_events_page := fun _ _ _ _ _ => [] |}.

Definition set_db_fault (f : Call -> error) (d : Db) : Db :=
  {| db_profiles := db_profiles d; db_profile_seq := db_profile_seq d;
     db_events := db_events d; db_event_seq := db_event_seq d;
     db_flags := db_flags d; db_attendees := db_attendees d;
     db_event_default := db_event_default d; db_fault := f;
     db_is_deleted := db_is_deleted d; db_comment_count := db_comment_count d;
     db_flag_item_count := db_flag_item_count d;
     db_profile_comment_id := db_profile_comment_id d;
     db_comment_summary := db_comment_summary d;
     db_microcosm_summary := db_microcosm_summary d;
     db_collab := db_collab d; db_profile_validate := db_profile_validate d;
     db_user_email := db_user_email d; db_gravatar := db_gravatar d;
     db_attachment_id := db_attachment_id d;
     db_microcosm_title := db_microcosm_title d;
     db_last_comment := db_last_comment d;
     db_profile_ids := db_profile_ids d; db_profile_total := db_profile_total d;
     db_ignores_page := db_ignores_page d; db_events_page := db_events_page d |}.

(** The call [c] fails with [msg]; every other call succeeds. *)
Definition failing (c : Call) (msg : string) : Call -> error :=
  fun c' => if decide (c' = c) then Some msg else None.

(** A fresh process: empty, reachable cache; empty log. *)
Definition w0 : World :=
  {| cache := ∅; cache_up := true; db := db0; now := 1400000000; log := [] |}.

(** As [w0], but the summary query for profile 5 fails. *)
Definition w_query5_fails : World :=
  set_db (set_db_fault (failing (Sql "--GetProfileSummary" 5) "connection reset") db0) w0.

(** Two rows of an ignore list: microcosm 1 and microcosm 13; the summary of
    item 13 cannot be fetched. *)
Definition ignores0 : list IgnoreType :=
  [ {| ig_ProfileId := 1; ig_ItemTypeId := 2; ig_ItemType := "microcosm";
       ig_ItemId := 1; ig_Item := None |};
    {| ig_ProfileId := 1; ig_ItemTypeId := 2; ig_ItemType := "microcosm";
       ig_ItemId := 13; ig_Item := None |} ].

Definition ignore0 : IgnoreType :=
  {| ig_ProfileId := 1; ig_ItemTypeId := 0; ig_ItemType := "microcosm";
     ig_ItemId := 7; ig_Item := None |}.

(** As [w0], but the INSERT of an ignore for profile 1 fails (the row is
    already there). *)
Definition w_ignore_exists : World :=
  set_db (set_db_fault (failing (Sql "--Create Ignore" 1) "duplicate key") db0) w0.

(** As [w0], but the summary key of profile 1 holds a value of another
    shape. *)
Definition w_wrong_shape : World :=
  set_cache (<[KScoped 3 CacheSummary 1 :=
               {| ce_value := VInt64 42; ce_expires := 1400003600 |}]> ∅) w0.

(** As [w0], but the cache service cannot be reached. *)
Definition w_cache_down : World :=
  {| cache := ∅; cache_up := false; db := db0; now := 1400000000; log := [] |}.







(** Responses of the units in the examples below. *)
Definition failed5 : ProfileSummaryRequest :=
  {| Item := ProfileSummaryType_zero;
     Err := Some "Database query failed: connection reset";
     Status := StatusInternalServerError; Seq := 1 |}.

Definition failed7 : ProfileSummaryRequest :=
  {| Item := ProfileSummaryType_zero;
     Err := Some "Resource with profile ID 7 not found";
     Status := StatusNotFound; Seq := 0 |}.

Definition fetched1 : SummaryContainerRequest :=
  {| Item := "summary 1"; Err := None; Status := StatusOK; Seq := 0 |}.

Definition failed13 : SummaryContainerRequest :=
  {| Item := ""; Err := Some "Not found"; Status := StatusNotFound; Seq := 1 |}.

(** A new event as a client submits it, and the same event submitted again
    a little later (another creation timestamp, another duration). *)
Definition picnic : EventType :=
  {| e_Id := 0; e_MicrocosmId := 1; e_Title := "Picnic"; e_WhenNullable := None;
     e_When := "2014-05-05T19:00:00Z"; e_Duration := 90; e_Where := "Hyde Park";
     e_WhereNullable := None; e_Lat := 0; e_Lon := 0; e_North := 0; e_East := 0;
     e_South := 0; e_West := 0; e_Status := ""; e_RSVPLimit := 10;
     e_RSVPAttending := 0; e_RSVPSpaces := 0;
     e_Meta :=
       {| m_Created := 1400000000; m_CreatedById := 1; m_CreatedBy := None;
          m_EditedNullable := None; m_Edited := ""; m_EditedByNullable := None;
          m_EditedBy := None; m_EditReasonNullable := None; m_EditReason := "";
          m_Flags := FlagsType_zero; m_Links := [] |} |}.

Definition picnic_again : EventType :=
  {| e_Id := 0; e_MicrocosmId := 1; e_Title := "Picnic"; e_WhenNullable := None;
     e_When := "2014-05-05T19:00:00Z"; e_Duration := 120; e_Where := "Hyde Park";
     e_WhereNullable := None; e_Lat := 0; e_Lon := 0; e_North := 0; e_East := 0;
     e_South := 0; e_West := 0; e_Status := ""; e_RSVPLimit := 10;
     e_RSVPAttending := 0; e_RSVPSpaces := 0;
     e_Meta :=
       {| m_Created := 1400000042; m_CreatedById := 1; m_CreatedBy := None;
          m_EditedNullable := None; m_Edited := ""; m_EditedByNullable := None;
          m_EditedBy := None; m_EditReasonNullable := None; m_EditReason := "";
          m_Flags := FlagsType_zero; m_Links := [] |} |}.

Definition set_db_collab (f : string -> Z -> Z * error) (d : Db) : Db :=
  {| db_profiles := db_profiles d; db_profile_seq := db_profile_seq d;
     db_events := db_events d; db_event_seq := db_event_seq d;
     db_flags := db_flags d; db_attendees := db_attendees d;
     db_event_default := db_event_default d; db_fault := db_fault d;
     db_is_deleted := db_is_deleted d; db_comment_count := db_comment_count d;
     db_flag_item_count := db_flag_item_count d;
     db_profile_comment_id := db_profile_comment_id d;
     db_comment_summary := db_comment_summary d;
     db_microcosm_summary := db_microcosm_summary d;
     db_collab := f; db_profile_validate := db_profile_validate d;
     db_user_email := db_user_email d; db_gravatar := db_gravatar d;
     db_attachment_id := db_attachment_id d;
     db_microcosm_title := db_microcosm_title d;
     db_last_comment := db_last_comment d;
     db_profile_ids := db_profile_ids d; db_profile_total := db_profile_total d;
     db_ignores_page := db_ignores_page d; db_events_page := db_events_page d |}.

(** As [w0], but [GetUser] fails. *)
Definition w_getuser_fails : World :=
  set_db (set_db_collab
            (fun name _ =>
               if String.eqb name "GetUser"
               then (StatusNotFound, Some "user not found")
               else (StatusOK, None))
            db0) w0.

(** As [w0], but every commit fails. *)
Definition w_commit_fails : World :=
  set_db (set_db_fault (failing Commit "server closed the connection") db0) w0.

(** A profile about to be created for user 104 on site 1. *)
Definition dave : ProfileType :=
  {| p_Id := 0; p_SiteId := 1; p_UserId := 104; p_Email := "";
     p_ProfileName := "dave"; p_GenderNullable := None; p_Gender := "";
     p_Visible := true; p_StyleId := 0; p_ItemCount := 0; p_CommentCount := 0;
     p_ProfileComment := None; p_Created := 1400000000;
     p_LastActive := 1400000000; p_AvatarUrlNullable := None; p_AvatarUrl := "";
     p_AvatarIdNullable := None; p_AvatarId := 0; p_Links := [] |}.
Section Model.

Variable X : Externals.

(** [h.ItemTypes[name]]; a missing key reads as 0. *)
Definition ItemTypes_get (name : string) : Z :=
  match ItemTypes X !! name with
  | Some i => i
  | None => 0
  end.

(** [fmt.Sprintf(mcProfileKeys[scope], id)] and [fmt.Sprintf(mcEventKeys[scope], id)] *)
Definition mcProfileKeys (s : Scope) (id : Z) : CacheKey :=
  KScoped (ItemTypes_get ItemTypeProfile) s id.
Definition mcEventKeys (s : Scope) (id : Z) : CacheKey :=
  KScoped (ItemTypes_get ItemTypeEvent) s id.

(** *** profiles *)

(** The row [--GetProfileSummary] and [--GetProfile] select:
    [WHERE site_id = $1 AND profile_id = $2]. *)
Definition select_profile (label : string) (siteId id : Z) (d : Db)
  : RowResult ProfileRow :=
  match db_fault d (Sql label id) with
  | Some msg => QueryFailed msg
  | None =>
      match db_profiles d !! id with
      | Some r => if pr_site_id r =? siteId then Row r else ErrNoRows
      | None => ErrNoRows
      end
  end.

Definition profile_links (id siteId : Z) : list LinkType :=
  [GetLink "self" "" ItemTypeProfile id; GetLink "site" "" ItemTypeSite siteId].

(** The scanned row with the nullable avatar columns resolved and the meta
    links attached. *)
Definition summary_of_row (id : Z) (r : ProfileRow) : ProfileSummaryType :=
  {| ps_Id := id;
     ps_SiteId := pr_site_id r;
     ps_UserId := pr_user_id r;
     ps_ProfileName := pr_profile_name r;
     ps_Visible := pr_is_visible r;
     ps_AvatarUrlNullable := pr_avatar_url r;
     ps_AvatarUrl := default "" (pr_avatar_url r);
     ps_AvatarIdNullable := pr_avatar_id r;
     ps_AvatarId := default 0 (pr_avatar_id r);
     ps_Links := profile_links id (pr_site_id r) |}.

Definition GetProfileSummary (siteId id : Z)
  : M (ProfileSummaryType * Z * error) :=
  if id =? 0 then
    ret (ProfileSummaryType_zero, StatusNotFound, Some "Profile not found")
  else
    (* Get from cache if it's available *)
    let mcKey := mcProfileKeys CacheSummary id in
    let* hit := CacheGet as_ProfileSummary mcKey in
    match hit with
    | Some m =>
        if negb (ps_SiteId m =? siteId) then
          ret (ProfileSummaryType_zero, StatusNotFound, Some "Not found")
        else ret (m, StatusOK, None)
    | None =>
        let* err := h_GetConnection in
        match err with
        | Some msg =>
            ret (ProfileSummaryType_zero, StatusInternalServerError, Some msg)
        | None =>
            let* row := gets (fun w => select_profile "--GetProfileSummary" siteId id (db w)) in
            match row with
            | ErrNoRows =>
                ret (ProfileSummaryType_zero, StatusNotFound,
                     Some ("Resource with profile ID " +:+ pretty id +:+ " not found"))
            | QueryFailed msg =>
                ret (ProfileSummaryType_zero, StatusInternalServerError,
                     Some ("Database query failed: " +:+ msg))
            | Row r =>
                let m := summary_of_row id r in
                (* Update cache *)
                CacheSet mcKey (VProfileSummary m) (mcTtl X) ;;
                ret (m, StatusOK, None)
            end
        end
    end.

Definition GetProfile (siteId id : Z) : M (ProfileType * Z * error) :=
  if id =? 0 then
    ret (ProfileType_zero, StatusNotFound, Some "Profile not found")
  else
    let mcKey := mcProfileKeys CacheDetail id in
    let* hit := CacheGet as_Profile mcKey in
    match hit with
    | Some m =>
        if negb (p_SiteId m =? siteId) then
          ret (ProfileType_zero, StatusNotFound, Some "Not found")
        else ret (m, StatusOK, None)
    | None =>
        let* err := h_GetConnection in
        match err with
        | Some msg => ret (ProfileType_zero, StatusInternalServerError, Some msg)
        | None =>
            let* row := gets (fun w => select_profile "--GetProfile" siteId id (db w)) in
            match row with
            | ErrNoRows =>
                ret (ProfileType_zero, StatusNotFound,
                     Some ("Resource with profile ID " +:+ pretty id +:+ " not found"))
            | QueryFailed msg =>
                ret (ProfileType_zero, StatusInternalServerError,
                     Some ("Database query failed: " +:+ msg))
            | Row r =>
                let* itemCount := gets (fun w => db_flag_item_count (db w) siteId id) in
                let* profileCommentId := gets (fun w => db_profile_comment_id (db w) id) in
                let m (comment : option CommentSummaryType) :=
                  {| p_Id := id;
                     p_SiteId := pr_site_id r;
                     p_UserId := pr_user_id r;
                     p_Email := "";
                     p_ProfileName := pr_profile_name r;
                     p_GenderNullable := pr_gender r;
                     p_Gender := default "" (pr_gender r);
                     p_Visible := pr_is_visible r;
                     p_StyleId := 0;
                     p_ItemCount := itemCount;
                     p_CommentCount := pr_comment_count r;
                     p_ProfileComment := comment;
                     p_Created := pr_created r;
                     p_LastActive := pr_last_active r;
                     p_AvatarUrlNullable := pr_avatar_url r;
                     p_AvatarUrl := default "" (pr_avatar_url r);
                     p_AvatarIdNullable := pr_avatar_id r;
                     p_AvatarId := default 0 (pr_avatar_id r);
                     p_Links := profile_links id (pr_site_id r) |} in
                let finish (comment : option CommentSummaryType) :=
                  CacheSet mcKey (VProfile (m comment)) (mcTtl X) ;;
                  ret (m comment, StatusOK, None) in
                if 0 <? profileCommentId then
                  let* res := gets (fun w => db_comment_summary (db w) siteId profileCommentId) in
                  match res with
                  | (_, status, Some msg) => ret (ProfileType_zero, status, Some msg)
                  | (comment, _, None) => finish (Some comment)
                  end
                else finish None
            end
        end
    end.

Definition HandleProfileSummaryRequest (siteId : Z) (seq : nat) (id : Z)
  : M ProfileSummaryRequest :=
  let* (item, status, err) := GetProfileSummary siteId id in
  ret {| Item := item; Status := status; Err := err; Seq := seq |}.

(** [GetProfiles] from the point where the page of ids and the total are
    known (the code after [rows.Close()]). *)
Definition GetProfiles_hydrate (siteId : Z) (ids : list Z)
    (total limit offset : Z) (sched : list nat)
  : M (list ProfileSummaryType * Z * Z * Z * error) :=
  let* resps := fan_out (HandleProfileSummaryRequest siteId) ids sched in
  match gather resps with
  | inl (status, err) => ret ([], 0, 0, status, err)
  | inr ems =>
      let pages := GetPageCount total limit in
      let maxOffset := GetMaxOffset total limit in
      if maxOffset <? offset then
        ret ([], 0, 0, StatusBadRequest, empty_page_error offset)
      else ret (ems, total, pages, StatusOK, None)
  end.

Definition GetProfiles (siteId : Z) (so : ProfileSearchOptions)
    (limit offset : Z) (sched : list nat)
  : M (list ProfileSummaryType * Z * Z * Z * error) :=
  let* err := h_GetConnection in
  match err with
  | Some msg => ret ([], 0, 0, StatusInternalServerError, Some msg)
  | None =>
      let* err := fault (Sql "SELECT COUNT(*)--GetProfiles" siteId) in
      match err with
      | Some _ =>
          ret ([], 0, 0, StatusInternalServerError, Some "Database query failed")
      | None =>
          let* total := gets (fun w => db_profile_total (db w) siteId so limit offset) in
          let* err := fault (Sql "--GetProfiles" siteId) in
          match err with
          | Some _ =>
              ret ([], 0, 0, StatusInternalServerError, Some "Database query failed")
          | None =>
              let* ids := gets (fun w => db_profile_ids (db w) siteId so limit offset) in
              let* err := fault (Sql "--GetProfiles rows.Scan" siteId) in
              match err with
              | Some _ =>
                  ret ([], 0, 0, StatusInternalServerError, Some "Row parsing error")
              | None =>
                  let* err := fault (Sql "--GetProfiles rows.Err" siteId) in
                  match err with
                  | Some _ =>
                      ret ([], 0, 0, StatusInternalServerError, Some "Error fetching rows")
                  | None => GetProfiles_hydrate siteId ids total limit offset sched
                  end
              end
          end
      end
  end.


(** *** ignores *)

Definition set_ig_ItemTypeId (i : Z) (m : IgnoreType) : IgnoreType :=
  {| ig_ProfileId := ig_ProfileId m; ig_ItemTypeId := i;
     ig_ItemType := ig_ItemType m; ig_ItemId := ig_ItemId m;
     ig_Item := ig_Item m |}.
Definition set_ig_ItemType (t : string) (m : IgnoreType) : IgnoreType :=
  {| ig_ProfileId := ig_ProfileId m; ig_ItemTypeId := ig_ItemTypeId m;
     ig_ItemType := t; ig_ItemId := ig_ItemId m; ig_Item := ig_Item m |}.
Definition set_ig_Item (i : option SummaryValue) (m : IgnoreType) : IgnoreType :=
  {| ig_ProfileId := ig_ProfileId m; ig_ItemTypeId := ig_ItemTypeId m;
     ig_ItemType := ig_ItemType m; ig_ItemId := ig_ItemId m; ig_Item := i |}.

(** [(m *IgnoreType) Validate()]; the receiver after the call is returned
    along with the status and error. *)
Definition IgnoreType_Validate (m : IgnoreType) : IgnoreType * Z * error :=
  if ig_ProfileId m <=? 0 then
    (m, StatusBadRequest,
     Some ("profileId ('" +:+ pretty (ig_ProfileId m) +:+
           "') must be a positive integer."))
  else
    match ItemTypes X !! ig_ItemType m with
    | None => (m, StatusBadRequest, Some "You must specify a valid item type")
    | Some itemTypeId =>
        let m := set_ig_ItemTypeId itemTypeId m in
        if ig_ItemId m <=? 0 then
          (m, StatusBadRequest,
           Some "You must specify an Item ID this comment belongs to")
        else (m, StatusOK, None)
    end.

Definition IgnoreType_Update (m : IgnoreType) : M (IgnoreType * Z * error) :=
  let '(m, status, err) := IgnoreType_Validate m in
  match err with
  | Some msg => ret (m, status, Some msg)
  | None =>
      let* tx := h_GetTransaction in
      match tx with
      | inr msg => ret (m, StatusInternalServerError, Some msg)
      | inl tx =>
          (* Lack of error checking: the result of Exec is dropped *)
          let* _ := tx_Exec "--Create Ignore" (ig_ProfileId m) in
          (* [if err == nil]: err is still the nil of GetTransaction *)
          let* _ := tx_Commit tx in
          ret (m, StatusOK, None)
      end
  end.

Definition IgnoreType_Delete (m : IgnoreType) : M (IgnoreType * Z * error) :=
  let '(m, status, err) := IgnoreType_Validate m in
  match err with
  | Some msg => ret (m, status, Some msg)
  | None =>
      let* tx := h_GetTransaction in
      match tx with
      | inr msg => ret (m, StatusInternalServerError, Some msg)
      | inl tx =>
          let* _ := tx_Exec "--Delete Ignore" (ig_ProfileId m) in
          let* _ := tx_Commit tx in
          ret (m, StatusOK, None)
      end
  end.

(** Modelled from the spec: [HandleSummaryContainerRequest] is in a file of
    package [models] that is not among the sources.  Section 4.3, step 1:
    the unit started for position [i] calls the fetcher and tags its result
    with [Seq = i]. *)
Definition HandleSummaryContainerRequest (siteId : Z) (seq : nat)
    (m : IgnoreType) : M SummaryContainerRequest :=
  let* (item, status, err) :=
    GetSummaryContainer X siteId (ig_ItemTypeId m) (ig_ItemId m) (ig_ProfileId m) in
  ret {| Item := item; Status := status; Err := err; Seq := seq |}.

(** The [for rows.Next()] loop of [GetIgnored]: the window total of the last
    row read, and the rows as [IgnoreType] values. *)
Fixpoint GetIgnored_rows (scan_fault : error) (rows : list IgnoreRow)
    (total : Z) (ems : list IgnoreType)
  : (Z * error) + (Z * list IgnoreType) :=
  match rows with
  | [] => inr (total, ems)
  | r :: rows' =>
      match scan_fault with
      | Some _ => inl (StatusInternalServerError, Some "Row parsing error")
      | None =>
          match GetItemTypeFromInt X (ir_item_type_id r) with
          | (_, Some msg) => inl (StatusInternalServerError, Some msg)
          | (itemType, None) =>
              let m := {| ig_ProfileId := ir_profile_id r;
                          ig_ItemTypeId := ir_item_type_id r;
                          ig_ItemType := itemType;
                          ig_ItemId := ir_item_id r;
                          ig_Item := None |} in
              GetIgnored_rows scan_fault rows' (ir_total r) (ems ++ [m])%list
          end
      end
  end.

(** [GetIgnored] after [rows.Close()]. *)
Definition GetIgnored_hydrate (siteId : Z) (ems : list IgnoreType)
    (total limit offset : Z) (sched : list nat)
  : M (list IgnoreType * Z * Z * Z * error) :=
  let pages := GetPageCount total limit in
  let maxOffset := GetMaxOffset total limit in
  if maxOffset <? offset then
    ret ([], 0, 0, StatusBadRequest, empty_page_error offset)
  else
    (* Get the first round of summaries *)
    let* resps := fan_out (HandleSummaryContainerRequest siteId) ems sched in
    match gather resps with
    | inl (status, err) => ret ([], 0, 0, status, err)
    | inr items =>
        (* ems[i].Item = resps[i].Item.Summary; there is one response per row *)
        ret (imap (fun i m => set_ig_Item (items !! i) m) ems,
             total, pages, StatusOK, None)
    end.

Definition GetIgnored (siteId profileId limit offset : Z) (sched : list nat)
  : M (list IgnoreType * Z * Z * Z * error) :=
  let* err := h_GetConnection in
  match err with
  | Some msg => ret ([], 0, 0, StatusInternalServerError, Some msg)
  | None =>
      let* err := fault (Sql "--Get Ignores" profileId) in
      match err with
      | Some _ =>
          ret ([], 0, 0, StatusInternalServerError, Some "Database query failed")
      | None =>
          let* rows := gets (fun w => db_ignores_page (db w) profileId limit offset) in
          let* scan_fault := fault (Sql "--Get Ignores rows.Scan" profileId) in
          match GetIgnored_rows scan_fault rows 0 [] with
          | inl (status, err) => ret ([], 0, 0, status, err)
          | inr (total, ems) =>
              let* err := fault (Sql "--Get Ignores rows.Err" profileId) in
              match err with
              | Some _ =>
                  ret ([], 0, 0, StatusInternalServerError, Some "Error fetching rows")
              | None => GetIgnored_hydrate siteId ems total limit offset sched
              end
          end
      end
  end.

(** *** events *)

Definition EventStatusProposed : string := "proposed".
Definition EventStatusUpcoming : string := "upcoming".

(** [strings.Trim(s, " ")] *)
Fixpoint TrimLeft_space (s : string) : string :=
  match s with
  | String c s' => if Ascii.eqb c (Ascii.ascii_of_nat 32) then TrimLeft_space s' else s
  | EmptyString => s
  end.

Definition Trim_space (s : string) : string :=
  String.rev (TrimLeft_space (String.rev (TrimLeft_space s))).

(** The attendee ids [IsAttending] selects:
    [WHERE event_id = $1 AND state_id = 1]. *)
Definition select_attendees (eventId : Z) (d : Db) : list Z :=
  at_profile_id <$>
    filter (fun r => at_event_id r = eventId /\ at_state_id r = 1) (db_attendees d).

Definition IsAttending (profileId eventId : Z) : M (bool * error) :=
  if (profileId =? 0) || (eventId =? 0) then ret (false, None)
  else
    let key := mcEventKeys CacheProfileIds eventId in
    let* (attendeeIds, ok) := CacheGetInt64Slice key in
    let member (ids : list Z) : bool := existsb (fun i => profileId =? i) ids in
    if ok then ret (member attendeeIds, None)
    else
      let* err := h_GetConnection in
      match err with
      | Some msg => ret (false, Some msg)
      | None =>
          let* err := fault (Sql "SELECT profile_id FROM attendees" eventId) in
          match err with
          | Some msg => ret (false, Some msg)
          | None =>
              let* rows := gets (fun w => select_attendees eventId (db w)) in
              let attendeeIds := (attendeeIds ++ rows)%list in
              CacheSetInt64Slice key attendeeIds (mcTtl X) ;;
              ret (member attendeeIds, None)
          end
      end.

Definition set_e_Attending (b : bool) (m : EventType) : EventType :=
  set_e_Meta (set_m_Flags (set_f_Attending b (m_Flags (e_Meta m))) (e_Meta m)) m.
Definition set_es_Attending (b : bool) (m : EventSummaryType) : EventSummaryType :=
  set_es_Meta (set_m_Flags (set_f_Attending b (m_Flags (es_Meta m))) (es_Meta m)) m.

(** [(m *EventType) GetAttending(profileId)] *)
Definition EventType_GetAttending (m : EventType) (profileId : Z)
  : M (EventType * Z * error) :=
  if profileId =? 0 then ret (m, StatusOK, None)
  else
    let* (attending, err) := IsAttending profileId (e_Id m) in
    match err with
    | Some msg => ret (m, StatusInternalServerError, Some msg)
    | None => ret (set_e_Attending attending m, StatusOK, None)
    end.

(** [(m *EventSummaryType) GetAttending(profileId)] *)
Definition EventSummaryType_GetAttending (m : EventSummaryType) (profileId : Z)
  : M (EventSummaryType * Z * error) :=
  if profileId =? 0 then ret (m, StatusOK, None)
  else
    let* (attending, err) := IsAttending profileId (es_Id m) in
    match err with
    | Some msg => ret (m, StatusInternalServerError, Some msg)
    | None => ret (set_es_Attending attending m, StatusOK, None)
    end.

(** [(m *EventType) FetchProfileSummaries(siteId)] *)
Definition EventType_FetchProfileSummaries (m : EventType) (siteId : Z)
  : M (EventType * Z * error) :=
  let* (profile, status, err) := GetProfileSummary siteId (m_CreatedById (e_Meta m)) in
  match err with
  | Some msg => ret (m, status, Some msg)
  | None =>
      let m := set_e_Meta (set_m_CreatedBy (Some profile) (e_Meta m)) m in
      match m_EditedByNullable (e_Meta m) with
      | Some editedBy =>
          let* (profile, status, err) := GetProfileSummary siteId editedBy in
          match err with
          | Some msg => ret (m, status, Some msg)
          | None =>
              ret (set_e_Meta (set_m_EditedBy (Some profile) (e_Meta m)) m,
                   StatusOK, None)
          end
      | None => ret (m, StatusOK, None)
      end
  end.

(** [(m *EventSummaryType) FetchProfileSummaries(siteId)] *)
Definition EventSummaryType_FetchProfileSummaries (m : EventSummaryType)
    (siteId : Z) : M (EventSummaryType * Z * error) :=
  let* (profile, status, err) := GetProfileSummary siteId (m_CreatedById (es_Meta m)) in
  match err with
  | Some msg => ret (m, status, Some msg)
  | None =>
      let m := set_es_Meta (set_m_CreatedBy (Some profile) (es_Meta m)) m in
      match es_LastComment m with
      | Some lastComment =>
          let* (profile, status, err) :=
            GetProfileSummary siteId (lc_CreatedById lastComment) in
          match err with
          | Some msg => ret (m, status, Some msg)
          | None =>
              ret (set_es_LastComment
                     (Some (set_lc_CreatedBy (Some profile) lastComment)) m,
                   StatusOK, None)
          end
      | None => ret (m, StatusOK, None)
      end
  end.

Definition event_links (d : Db) (id microcosmId : Z) : list LinkType :=
  [GetLink "self" "" ItemTypeEvent id;
   GetLink "microcosm" (db_microcosm_title d microcosmId) ItemTypeMicrocosm microcosmId].

(** The row [GetEvent] selects: the event joined with its [flags] row for
    the site, provided no deleted or moderated flag is set. *)
Definition select_event (id siteId : Z) (d : Db) : RowResult EventRow :=
  match db_fault d (Sql "SELECT FROM events JOIN flags" id) with
  | Some msg => QueryFailed msg
  | None =>
      match db_events d !! id, db_flags d !! (9, id) with
      | Some e, Some f =>
          if (fl_site_id f =? siteId)
             && negb (fl_microcosm_is_deleted f) && negb (fl_microcosm_is_moderated f)
             && negb (fl_parent_is_deleted f) && negb (fl_parent_is_moderated f)
             && negb (fl_item_is_deleted f) && negb (fl_item_is_moderated f)
          then Row e else ErrNoRows
      | _, _ => ErrNoRows
      end
  end.

Definition event_of_row (d : Db) (id : Z) (e : EventRow) : EventType :=
  {| e_Id := id;
     e_MicrocosmId := er_microcosm_id e;
     e_Title := er_title e;
     e_WhenNullable := er_when e;
     e_When := match er_when e with Some t => time_Format X t | None => "" end;
     e_Duration := er_duration e;
     e_Where := default "" (er_where e);
     e_WhereNullable := er_where e;
     e_Lat := er_lat e; e_Lon := er_lon e;
     e_North := er_bounds_north e; e_East := er_bounds_east e;
     e_South := er_bounds_south e; e_West := er_bounds_west e;
     e_Status := er_status e;
     e_RSVPLimit := er_rsvp_limit e;
     e_RSVPAttending := er_rsvp_attending e;
     e_RSVPSpaces := er_rsvp_spaces e;
     e_Meta :=
       {| m_Created := er_created e;
          m_CreatedById := er_created_by e;
          m_CreatedBy := None;
          m_EditedNullable := er_edited e;
          m_Edited := match er_edited e with Some t => time_Format X t | None => "" end;
          m_EditedByNullable := er_edited_by e;
          m_EditedBy := None;
          m_EditReasonNullable := er_edit_reason e;
          m_EditReason := default "" (er_edit_reason e);
          m_Flags :=
            {| f_Sticky := er_is_sticky e; f_Open := er_is_open e;
               f_Visible := er_is_visible e; f_Moderated := er_is_moderated e;
               f_Deleted := er_is_deleted e; f_Attending := false |};
          m_Links := event_links d id (er_microcosm_id e) |} |}.

(** The tail shared by both paths of [GetEvent]: resolve the profiles, then
    the attendance flag; [okStatus] is the status of the success return. *)
Definition GetEvent_finish (m : EventType) (siteId profileId okStatus : Z)
  : M (EventType * Z * error) :=
  let* (m, status, err) := EventType_FetchProfileSummaries m siteId in
  match err with
  | Some msg => ret (EventType_zero, status, Some msg)
  | None =>
      let* (m, status, err) := EventType_GetAttending m profileId in
      match err with
      | Some msg => ret (EventType_zero, status, Some msg)
      | None => ret (m, okStatus, None)
      end
  end.

Definition GetEvent (siteId id profileId : Z) : M (EventType * Z * error) :=
  if id =? 0 then ret (EventType_zero, StatusNotFound, Some "Event not found")
  else
    (* Get from cache if it's available *)
    let mcKey := mcEventKeys CacheDetail id in
    let* hit := CacheGet as_Event mcKey in
    match hit with
    | Some m =>
        (* TODO(buro9) 2014-05-05: We are not verifying that the cached
           event belongs to this siteId *)
        GetEvent_finish m siteId profileId 0      (* [return m, 0, nil] *)
    | None =>
        let* err := h_GetConnection in
        match err with
        | Some msg => ret (EventType_zero, StatusInternalServerError, Some msg)
        | None =>
            let* row := gets (fun w => select_event id siteId (db w)) in
            match row with
            | ErrNoRows => ret (EventType_zero, StatusNotFound, Some "Event not found")
            | QueryFailed _ =>
                ret (EventType_zero, StatusInternalServerError,
                     Some "Database query failed")
            | Row e =>
                let* m := gets (fun w => event_of_row (db w) id e) in
                (* Update cache *)
                CacheSet mcKey (VEvent m) (mcTtl X) ;;
                GetEvent_finish m siteId profileId StatusOK
            end
        end
    end.

(** The row [GetEventSummary] selects:
    [WHERE event_id = $1 AND is_deleted(9, event_id) IS FALSE]. *)
Definition select_event_summary (id : Z) (d : Db) : RowResult EventRow :=
  match db_fault d (Sql "SELECT FROM events" id) with
  | Some msg => QueryFailed msg
  | None =>
      match db_events d !! id with
      | Some e => if db_is_deleted d 9 id then ErrNoRows else Row e
      | None => ErrNoRows
      end
  end.

Definition event_summary_of_row (d : Db) (id : Z) (e : EventRow)
    (lastComment : LastComment) : EventSummaryType :=
  {| es_Id := id;
     es_MicrocosmId := er_microcosm_id e;
     es_Title := er_title e;
     es_WhenNullable := er_when e;
     es_When := match er_when e with Some t => time_Format X t | None => "" end;
     es_Duration := er_duration e;
     es_WhereNullable := er_where e;
     es_Where := default "" (er_where e);
     es_Lat := er_lat e; es_Lon := er_lon e;
     es_North := er_bounds_north e; es_East := er_bounds_east e;
     es_South := er_bounds_south e; es_West := er_bounds_west e;
     es_Status := er_status e;
     es_RSVPLimit := er_rsvp_limit e;
     es_RSVPAttending := er_rsvp_attending e;
     es_RSVPSpaces := er_rsvp_spaces e;
     es_CommentCount := db_comment_count d 9 id;
     es_ViewCount := er_view_count e;
     es_LastComment := if lc_Valid lastComment then Some lastComment else None;
     es_Meta :=
       {| m_Created := er_created e;
          m_CreatedById := er_created_by e;
          m_CreatedBy := None;
          m_EditedNullable := None; m_Edited := "";
          m_EditedByNullable := None; m_EditedBy := None;
          m_EditReasonNullable := None; m_EditReason := "";
          m_Flags :=
            {| f_Sticky := er_is_sticky e; f_Open := er_is_open e;
               f_Visible := er_is_visible e; f_Moderated := er_is_moderated e;
               f_Deleted := er_is_deleted e; f_Attending := false |};
          m_Links := event_links d id (er_microcosm_id e) |} |}.

Definition GetEventSummary_finish (m : EventSummaryType) (siteId profileId : Z)
  : M (EventSummaryType * Z * error) :=
  let* (m, status, err) := EventSummaryType_FetchProfileSummaries m siteId in
  match err with
  | Some msg => ret (EventSummaryType_zero, status, Some msg)
  | None =>
      let* (m, status, err) := EventSummaryType_GetAttending m profileId in
      match err with
      | Some msg => ret (EventSummaryType_zero, status, Some msg)
      | None => ret (m, StatusOK, None)
      end
  end.

Definition GetEventSummary (siteId id profileId : Z)
  : M (EventSummaryType * Z * error) :=
  if id =? 0 then
    ret (EventSummaryType_zero, StatusNotFound, Some "Event not found")
  else
    let mcKey := mcEventKeys CacheSummary id in
    let* hit := CacheGet as_EventSummary mcKey in
    match hit with
    | Some m => GetEventSummary_finish m siteId profileId
    | None =>
        let* err := h_GetConnection in
        match err with
        | Some msg =>
            ret (EventSummaryType_zero, StatusInternalServerError, Some msg)
        | None =>
            let* row := gets (fun w => select_event_summary id (db w)) in
            match row with
            | ErrNoRows =>
                ret (EventSummaryType_zero, StatusInternalServerError,
                     Some ("Event with ID " +:+ pretty id +:+ " not found"))
            | QueryFailed _ =>
                ret (EventSummaryType_zero, StatusInternalServerError,
                     Some "Database query failed")
            | Row e =>
                let* res := gets (fun w =>
                  db_last_comment (db w) (ItemTypes_get ItemTypeEvent) id) in
                match res with
                | (_, status, Some msg) =>
                    ret (EventSummaryType_zero, status,
                         Some ("Error fetching last comment: " +:+ msg))
                | (lastComment, _, None) =>
                    let* m := gets (fun w => event_summary_of_row (db w) id e lastComment) in
                    (* Update cache *)
                    CacheSet mcKey (VEventSummary m) (mcTtl X) ;;
                    GetEventSummary_finish m siteId profileId
                end
            end
        end
    end.

(** The [for rows.Next()] loop of [GetEvents]. *)
Fixpoint GetEvents_rows (scan_fault : error) (siteId profileId : Z)
    (rows : list EventsPageRow) (total : Z) (ems : list EventSummaryType)
  : M ((Z * error) + (Z * list EventSummaryType)) :=
  match rows with
  | [] => ret (inr (total, ems))
  | r :: rows' =>
      match scan_fault with
      | Some msg =>
          ret (inl (StatusInternalServerError, Some ("Row parsing error: " +:+ msg)))
      | None =>
          let* (m, status, err) := GetEventSummary siteId (ep_item_id r) profileId in
          match err with
          | Some msg => ret (inl (status, Some msg))
          | None =>
              let m := set_es_Attending (ep_is_attending r) m in
              GetEvents_rows scan_fault siteId profileId rows' (ep_total r)
                             (ems ++ [m])%list
          end
      end
  end.

(** [GetEvents] after [rows.Close()]. *)
Definition GetEvents_paginate (ems : list EventSummaryType)
    (total limit offset : Z) : list EventSummaryType * Z * Z * Z * error :=
  let pages := GetPageCount total limit in
  let maxOffset := GetMaxOffset total limit in
  if maxOffset <? offset then ([], 0, 0, StatusBadRequest, empty_page_error offset)
  else (ems, total, pages, StatusOK, None).

Definition GetEvents (siteId profileId : Z) (attending : bool) (limit offset : Z)
  : M (list EventSummaryType * Z * Z * Z * error) :=
  let* err := h_GetConnection in
  match err with
  | Some msg => ret ([], 0, 0, StatusInternalServerError, Some msg)
  | None =>
      let* err := fault (Sql "--GetEvents" siteId) in
      match err with
      | Some msg =>
          ret ([], 0, 0, StatusInternalServerError,
               Some ("Database query failed: " +:+ msg))
      | None =>
          let* rows := gets (fun w => db_events_page (db w) siteId profileId attending limit offset) in
          let* scan_fault := fault (Sql "--GetEvents rows.Scan" siteId) in
          let* res := GetEvents_rows scan_fault siteId profileId rows 0 [] in
          match res with
          | inl (status, err) => ret ([], 0, 0, status, err)
          | inr (total, ems) =>
              let* err := fault (Sql "--GetEvents rows.Err" siteId) in
              match err with
              | Some msg =>
                  ret ([], 0, 0, StatusInternalServerError,
                       Some ("Error fetching rows: " +:+ msg))
              | None => ret (GetEvents_paginate ems total limit offset)
              end
          end
      end
  end.

(** *** event mutations *)

(** The part of [(m *EventType) Validate] after the microcosm lookup. *)
Definition EventType_Validate_fields (m : EventType) (exists_ : bool)
  : EventType * Z * error :=
  if exists_ && String.eqb (m_EditReason (e_Meta m)) "" then
    (m, StatusBadRequest, Some "You must provide a reason for the update")
  else
    let m :=
      if exists_
      then set_e_Meta (set_m_EditReason (ShoutToWhisper X (m_EditReason (e_Meta m)))
                                        (e_Meta m)) m
      else m in
    if e_MicrocosmId m <=? 0 then
      (m, StatusBadRequest, Some "You must specify a Microcosm ID")
    else if String.eqb (e_Title m) "" then
      (m, StatusBadRequest, Some "Title is a required field")
    else
      let m := set_e_Title (ShoutToWhisper X (e_Title m)) m in
      let blank := String.eqb (Trim_space (e_When m)) "" in
      (* Default status is 'upcoming' if not specified *)
      let m := set_e_Status
                 (if blank then EventStatusProposed else EventStatusUpcoming) m in
      let parsed : EventType + string :=
        if blank then inl m
        else match time_Parse X (e_When m) with
             | inl eventTimestamp => inl (set_e_WhenNullable (Some eventTimestamp) m)
             | inr msg => inr msg
             end in
      match parsed with
      | inr msg => (m, StatusBadRequest, Some msg)
      | inl m =>
          let m := if e_Duration m <? 0 then set_e_Duration (60 * 1) m else m in
          let m :=
            if negb (String.eqb (e_Where m) "") then
              let where_ := ShoutToWhisper X (e_Where m) in
              set_e_WhereNullable (Some where_) (set_e_Where where_ m)
            else m in
          if e_RSVPLimit m <? 0 then
            (m, StatusBadRequest, Some "RSVPLimit must be 0 (unlimited) or greater")
          else
            let m := set_e_RSVPSpaces (e_RSVPLimit m) m in
            let m := set_e_Meta (set_m_Flags (SetVisible X (m_Flags (e_Meta m)))
                                             (e_Meta m)) m in
            (m, StatusOK, None)
      end.

(** [(m *EventType) Validate(siteId, profileId, exists)] *)
Definition EventType_Validate (m : EventType) (siteId profileId : Z)
    (exists_ : bool) : M (EventType * Z * error) :=
  let m := set_e_Title (SanitiseText X (e_Title m)) m in
  let m := set_e_Where (SanitiseText X (e_Where m)) m in
  let m := set_e_Meta (set_m_EditReason (SanitiseText X (m_EditReason (e_Meta m)))
                                        (e_Meta m)) m in
  (* Does the Microcosm specified exist on this site? *)
  let* res :=
    if exists_ then ret (StatusOK, None)
    else gets (fun w => db_microcosm_summary (db w) siteId (e_MicrocosmId m) profileId) in
  match res with
  | (status, Some msg) => ret (m, status, Some msg)
  | (_, None) => ret (EventType_Validate_fields m exists_)
  end.

(** The fingerprint [EventType.Insert] hashes into its dupe key. *)
Definition dupe_fingerprint (m : EventType) : string :=
  let when := match e_WhenNullable m with Some t => time_String X t | None => "" end in
  let where_ := match e_WhereNullable m with Some s => s | None => "" end in
  pretty (e_MicrocosmId m) +:+
  e_Title m +:+
  when +:+
  where_ +:+
  fmt_b X (e_Lat m) +:+
  fmt_b X (e_Lon m) +:+
  fmt_b X (e_North m) +:+
  fmt_b X (e_East m) +:+
  fmt_b X (e_South m) +:+
  fmt_b X (e_West m) +:+
  e_Status m +:+
  pretty (e_RSVPLimit m) +:+
  pretty (m_CreatedById (e_Meta m)).

Definition dupeKey (m : EventType) : CacheKey :=
  KDupe (Md5sum X (dupe_fingerprint m)).

(** The row [INSERT INTO events (...) VALUES ($1 .. $16)] writes: the
    sixteen listed columns from [m], the others from the column defaults. *)
Definition event_row_of (dflt : EventRow) (m : EventType) : EventRow :=
  {| er_microcosm_id := e_MicrocosmId m;
     er_title := e_Title m;
     er_created := m_Created (e_Meta m);
     er_created_by := m_CreatedById (e_Meta m);
     er_edited := er_edited dflt;
     er_edited_by := er_edited_by dflt;
     er_edit_reason := er_edit_reason dflt;
     er_is_sticky := er_is_sticky dflt;
     er_is_open := er_is_open dflt;
     er_is_visible := er_is_visible dflt;
     er_is_moderated := er_is_moderated dflt;
     er_is_deleted := er_is_deleted dflt;
     er_when := e_WhenNullable m;
     er_duration := e_Duration m;
     er_where := e_WhereNullable m;
     er_lat := e_Lat m; er_lon := e_Lon m;
     er_bounds_north := e_North m; er_bounds_east := e_East m;
     er_bounds_south := e_South m; er_bounds_west := e_West m;
     er_status := e_Status m;
     er_rsvp_limit := e_RSVPLimit m;
     er_rsvp_attending := er_rsvp_attending dflt;
     er_rsvp_spaces := e_RSVPSpaces m;
     er_view_count := er_view_count dflt |}.

(** [tx.QueryRow(INSERT INTO events ... RETURNING event_id).Scan(&insertId)]:
    the id comes from the table's sequence; a key already present is a
    unique violation. *)
Definition tx_insert_event (tx : Tx) (m : EventType) : M ((Z * Tx) + string) :=
  let* e := fault (Sql "INSERT INTO events" (e_MicrocosmId m)) in
  match e with
  | Some msg => ret (inr msg)
  | None =>
      let* insertId := gets (fun w => db_event_seq (db w)) in
      modify (fun w => set_db (set_db_event_seq (insertId + 1) (db w)) w) ;;
      match db_events tx !! insertId with
      | Some _ => ret (inr "duplicate key value violates unique constraint")
      | None =>
          modify (emit (EExec "INSERT INTO events" insertId)) ;;
          ret (inl (insertId,
                    set_db_events
                      (<[insertId := event_row_of (db_event_default tx) m]> (db_events tx))
                      tx))
      end
  end.

(** A collaborator that works inside the caller's transaction and reports
    only an error ([IncrementMicrocosmItemCount], [DecrementMicrocosmItemCount]). *)
Definition tx_collab (name : string) (key : Z) : M error :=
  let* e := fault (Collab name key) in
  match e with
  | Some msg => ret (Some msg)
  | None => modify (emit (ECall name key)) ;; ret None
  end.

Definition EventType_Insert (m : EventType) (siteId profileId : Z)
  : M (EventType * Z * error) :=
  let* (m, status, err) := EventType_Validate m siteId profileId false in
  match err with
  | Some msg => ret (m, status, Some msg)
  | None =>
      let dupeKey := dupeKey m in
      let* (v, ok) := CacheGetInt64 dupeKey in
      if ok then ret (set_e_Id v m, StatusOK, None)
      else
        let* tx := h_GetTransaction in
        match tx with
        | inr msg => ret (m, StatusInternalServerError, Some msg)
        | inl tx =>
            let* r := tx_insert_event tx m in
            match r with
            | inr msg =>
                tx_Rollback ;;
                ret (m, StatusInternalServerError,
                     Some ("Error inserting data and returning ID: " +:+ msg))
            | inl (insertId, tx) =>
                let m := set_e_Id insertId m in
                let* err := tx_collab "IncrementMicrocosmItemCount" (e_MicrocosmId m) in
                match err with
                | Some msg =>
                    tx_Rollback ;; ret (m, StatusInternalServerError, Some msg)
                | None =>
                    let* err := tx_Commit tx in
                    match err with
                    | Some msg =>
                        ret (m, StatusInternalServerError,
                             Some ("Transaction failed: " +:+ msg))
                    | None =>
                        (* 5 minute dupe check *)
                        CacheSetInt64 dupeKey (e_Id m) (60 * 5) ;;
                        PurgeCache (ItemTypes_get ItemTypeEvent) (e_Id m) ;;
                        PurgeCache (ItemTypes_get ItemTypeMicrocosm) (e_MicrocosmId m) ;;
                        ret (m, StatusOK, None)
                    end
                end
            end
        end
  end.

(** [(m *EventType) UpdateAttendees(tx)] *)
Definition EventType_UpdateAttendees (m : EventType) : M (Z * error) :=
  let* err := tx_Exec "UPDATE events SET rsvp_attending" (e_Id m) in
  match err with
  | Some msg =>
      tx_Rollback ;;
      ret (StatusInternalServerError,
           Some ("Update of event attendees failed: " +:+ msg))
  | None => ret (StatusOK, None)
  end.

Definition EventType_Update (m : EventType) (siteId profileId : Z)
  : M (EventType * Z * error) :=
  let* (m, status, err) := EventType_Validate m siteId profileId true in
  match err with
  | Some msg => ret (m, status, Some msg)
  | None =>
      let* tx := h_GetTransaction in
      match tx with
      | inr msg => ret (m, StatusInternalServerError, Some msg)
      | inl tx =>
          let* err := tx_Exec "UPDATE events" (e_Id m) in
          match err with
          | Some msg =>
              tx_Rollback ;;
              ret (m, StatusInternalServerError,
                   Some ("Update of event failed: " +:+ msg))
          | None =>
              (* Recalculate attendees *)
              let* (status, err) := EventType_UpdateAttendees m in
              match err with
              | Some msg => ret (m, status, Some msg)
              | None =>
                  let* err := tx_Commit tx in
                  match err with
                  | Some msg =>
                      ret (m, StatusInternalServerError,
                           Some ("Transaction failed: " +:+ msg))
                  | None =>
                      PurgeCache (ItemTypes_get ItemTypeEvent) (e_Id m) ;;
                      PurgeCache (ItemTypes_get ItemTypeMicrocosm) (e_MicrocosmId m) ;;
                      ret (m, StatusOK, None)
                  end
              end
          end
      end
  end.

Definition set_e_Flags (f : FlagsType) (m : EventType) : EventType :=
  set_e_Meta (set_m_Flags f (e_Meta m)) m.

(** One round of the [for _, patch := range patches] loop of [Patch]. *)
Definition EventType_Patch_one (acProfileId : Z) (patch : PatchType)
    (m : EventType) : M (EventType * Z * error) :=
  let* t := gets now in
  let m := set_e_Meta (set_m_EditedByNullable (Some acProfileId)
                         (set_m_EditedNullable (Some t) (e_Meta m))) m in
  let flags := m_Flags (e_Meta m) in
  let b := pt_Bool patch in
  let reason (what : string) :=
    "Set " +:+ what +:+ " to " +:+ (if b then "true" else "false") in
  let step : option (string * FlagsType * string) :=
    if String.eqb (pt_Path patch) "/meta/flags/sticky" then
      Some ("is_sticky", set_f_Sticky b flags, reason "sticky")
    else if String.eqb (pt_Path patch) "/meta/flags/open" then
      Some ("is_open", set_f_Open b flags, reason "open")
    else if String.eqb (pt_Path patch) "/meta/flags/deleted" then
      Some ("is_deleted", set_f_Deleted b flags, reason "delete")
    else if String.eqb (pt_Path patch) "/meta/flags/moderated" then
      Some ("is_moderated", set_f_Moderated b flags, reason "moderated")
    else None in
  match step with
  | None =>
      ret (m, StatusBadRequest, Some "Unsupported path in patch replace operation")
  | Some (column, flags, editReason) =>
      let m := set_e_Meta (set_m_EditReason editReason (e_Meta (set_e_Flags flags m)))
                          (set_e_Flags flags m) in
      let m := set_e_Flags (SetVisible X (m_Flags (e_Meta m))) m in
      let* err := tx_Exec ("UPDATE events SET " +:+ column) (e_Id m) in
      match err with
      | Some msg =>
          ret (m, StatusInternalServerError, Some ("Update failed: " +:+ msg))
      | None => ret (m, StatusOK, None)
      end
  end.

Fixpoint EventType_Patch_loop (acProfileId : Z) (patches : list PatchType)
    (m : EventType) : M (EventType * Z * error) :=
  match patches with
  | [] => ret (m, StatusOK, None)
  | patch :: rest =>
      let* (m, status, err) := EventType_Patch_one acProfileId patch m in
      match err with
      | Some msg => ret (m, status, Some msg)
      | None => EventType_Patch_loop acProfileId rest m
      end
  end.

Definition EventType_Patch (m : EventType) (acProfileId : Z)
    (patches : list PatchType) : M (EventType * Z * error) :=
  let* tx := h_GetTransaction in
  match tx with
  | inr msg => ret (m, StatusInternalServerError, Some msg)
  | inl tx =>
      let* (m, status, err) := EventType_Patch_loop acProfileId patches m in
      match err with
      | Some msg => tx_Rollback ;; ret (m, status, Some msg)
      | None =>
          let* err := tx_Commit tx in
          match err with
          | Some msg =>
              ret (m, StatusInternalServerError,
                   Some ("Transaction failed: " +:+ msg))
          | None =>
              PurgeCache (ItemTypes_get ItemTypeEvent) (e_Id m) ;;
              PurgeCache (ItemTypes_get ItemTypeMicrocosm) (e_MicrocosmId m) ;;
              ret (m, StatusOK, None)
          end
      end
  end.

Definition EventType_Delete (m : EventType) : M (Z * error) :=
  let* tx := h_GetTransaction in
  match tx with
  | inr msg => ret (StatusInternalServerError, Some msg)
  | inl tx =>
      let* err := tx_Exec "UPDATE events SET is_deleted" (e_Id m) in
      match err with
      | Some msg =>
          tx_Rollback ;;
          ret (StatusInternalServerError, Some ("Delete failed: " +:+ msg))
      | None =>
          let* err := tx_collab "DecrementMicrocosmItemCount" (e_MicrocosmId m) in
          match err with
          | Some msg => tx_Rollback ;; ret (StatusInternalServerError, Some msg)
          | None =>
              let* err := tx_Commit tx in
              match err with
              | Some msg =>
                  ret (StatusInternalServerError,
                       Some ("Transaction failed: " +:+ msg))
              | None =>
                  PurgeCache (ItemTypes_get ItemTypeEvent) (e_Id m) ;;
                  PurgeCache (ItemTypes_get ItemTypeMicrocosm) (e_MicrocosmId m) ;;
                  ret (StatusOK, None)
              end
          end
      end
  end.

(** *** profile mutations *)

(** [(m *ProfileType) Validate(exists)] consults the store (name clashes,
    the user record) and normalises the name; its outcome is supplied by the
    store. *)
Definition ProfileType_Validate (m : ProfileType) (exists_ : bool)
  : M (ProfileType * Z * error) :=
  gets (fun w => db_profile_validate (db w) m exists_).

Definition ProfileType_Update (m : ProfileType) : M (ProfileType * Z * error) :=
  let* (m, status, err) := ProfileType_Validate m true in
  match err with
  | Some msg => ret (m, status, Some msg)
  | None =>
      let* tx := h_GetTransaction in
      match tx with
      | inr msg =>
          ret (m, StatusInternalServerError,
               Some ("Could not start transaction: " +:+ msg))
      | inl tx =>
          let* err := tx_Exec "--Update Profile" (p_Id m) in
          match err with
          | Some msg =>
              tx_Rollback ;;
              ret (m, StatusInternalServerError,
                   Some ("Update of profile failed: " +:+ msg))
          | None =>
              let* err := tx_Commit tx in
              match err with
              | Some msg =>
                  ret (m, StatusInternalServerError,
                       Some ("Transaction failed: " +:+ msg))
              | None =>
                  PurgeCache (ItemTypes_get ItemTypeProfile) (p_Id m) ;;
                  ret (m, StatusOK, None)
              end
          end
      end
  end.

Definition profile_row_of (m : ProfileType) : ProfileRow :=
  {| pr_site_id := p_SiteId m;
     pr_user_id := p_UserId m;
     pr_profile_name := p_ProfileName m;
     pr_gender := p_GenderNullable m;
     pr_is_visible := p_Visible m;
     pr_style_id := p_StyleId m;
     pr_item_count := p_ItemCount m;
     pr_comment_count := p_CommentCount m;
     pr_created := p_Created m;
     pr_last_active := p_LastActive m;
     pr_avatar_url := p_AvatarUrlNullable m;
     pr_avatar_id := p_AvatarIdNullable m |}.

(** [tx.QueryRow(--Create Profile ... RETURNING profile_id).Scan(&insertId)] *)
Definition tx_insert_profile (tx : Tx) (m : ProfileType) : M ((Z * Tx) + string) :=
  let* e := fault (Sql "--Create Profile" (p_UserId m)) in
  match e with
  | Some msg => ret (inr msg)
  | None =>
      let* insertId := gets (fun w => db_profile_seq (db w)) in
      modify (fun w => set_db (set_db_profile_seq (insertId + 1) (db w)) w) ;;
      match db_profiles tx !! insertId with
      | Some _ => ret (inr "duplicate key value violates unique constraint")
      | None =>
          modify (emit (EExec "--Create Profile" insertId)) ;;
          ret (inl (insertId,
                    set_db_profiles (<[insertId := profile_row_of m]> (db_profiles tx)) tx))
      end
  end.

(** A collaborator that reports a status and an error. *)
Definition collab (name : string) (key : Z) : M (Z * error) :=
  let* r := gets (fun w => db_collab (db w) name key) in
  match r with
  | (status, Some msg) => ret (status, Some msg)
  | (status, None) => modify (emit (ECall name key)) ;; ret (status, None)
  end.

Definition UrlGravatar : string := "https://secure.gravatar.com/avatar/".

Definition MakeGravatarUrl (email : string) : string :=
  UrlGravatar +:+ Md5sum X (strings_ToLower X (Trim_space email)) +:+ "?d=identicon".

Definition AttachAvatar (profileId : Z) (fileMetadata : FileMetadataType)
  : M (AttachmentType * Z * error) :=
  let* t := gets now in
  let attachment :=
    {| a_AttachmentId := 0;
       a_AttachmentMetaId := fm_AttachmentMetaId fileMetadata;
       a_FileHash := fm_FileHash fileMetadata;
       a_Created := t;
       a_ItemTypeId := ItemTypes_get ItemTypeProfile;
       a_ItemId := profileId;
       a_ProfileId := profileId |} in
  let* (_, err) := collab "AttachmentType.Insert" profileId in
  match err with
  | Some msg =>
      ret (AttachmentType_zero, StatusInternalServerError,
           Some ("Could not create avatar attachment to profile: " +:+ msg))
  | None =>
      let* id := gets (fun w => db_attachment_id (db w) profileId) in
      ret (set_a_AttachmentId id attachment, StatusOK, None)
  end.

(** [(m *ProfileType) insert(isImport)] *)
Definition ProfileType_insert (m : ProfileType) (isImport : bool)
  : M (ProfileType * Z * error) :=
  let* tx := h_GetTransaction in
  match tx with
  | inr msg =>
      ret (m, StatusInternalServerError,
           Some ("Could not start transaction: " +:+ msg))
  | inl tx =>
      let* r := tx_insert_profile tx m in
      match r with
      | inr msg =>
          tx_Rollback ;;
          ret (m, StatusInternalServerError,
               Some ("Error inserting data and returning ID: " +:+ msg))
      | inl (insertId, tx) =>
          let m := set_p_Id insertId m in
          (* Set options for profile *)
          let* (status, err) := collab "GetProfileOptionsDefaults" (p_SiteId m) in
          match err with
          | Some msg =>
              tx_Rollback ;;
              ret (m, status,
                   Some ("Could not load default profile options: " +:+ msg))
          | None =>
              let* (status, err) := collab "ProfileOptionType.Insert" insertId in
              match err with
              | Some msg =>
                  tx_Rollback ;;
                  ret (m, status,
                       Some ("Could not insert new profile options: " +:+ msg))
              | None =>
                  let* err := tx_Commit tx in
                  match err with
                  | Some msg =>
                      ret (m, StatusInternalServerError,
                           Some ("Transaction failed: " +:+ msg))
                  | None =>
                      (* Fetch gravatar (or default to pattern based on email address) *)
                      let* (_, err) := collab "GetUser" (p_UserId m) in
                      match err with
                      | Some msg =>
                          ret (m, StatusInternalServerError,
                               Some ("No user found for profile: " +:+ msg))
                      | None =>
                          let* email := gets (fun w => db_user_email (db w) (p_UserId m)) in
                          let avatarUrl := MakeGravatarUrl email in
                          (* Construct URL to avatar, update profile with Avatar ID and URL *)
                          let finish (m : ProfileType) (avatarUrl : string) :=
                            let m := set_p_AvatarUrlNullable (Some avatarUrl) m in
                            let* (m, status, err) := ProfileType_Update m in
                            match err with
                            | Some msg =>
                                ret (m, status,
                                     Some ("Could not update profile with avatar: " +:+ msg))
                            | None =>
                                go (EPurge (ItemTypes_get ItemTypeProfile) (p_Id m)) ;;
                                go (ECall "MarkAllAsRead" (p_Id m)) ;;
                                ret (m, StatusOK, None)
                            end in
                          if isImport then finish m avatarUrl
                          else
                            (* Create attachment for avatar and attach it to profile *)
                            let* (_, err) := collab "StoreGravatar" (p_UserId m) in
                            match err with
                            | Some msg =>
                                ret (m, StatusInternalServerError,
                                     Some ("Could not store gravatar for profile: " +:+ msg))
                            | None =>
                                let* fm := gets (fun w => db_gravatar (db w) avatarUrl) in
                                let* (attachment, status, err) := AttachAvatar (p_Id m) fm in
                                match err with
                                | Some msg =>
                                    ret (m, status,
                                         Some ("Could not attach avatar to profile: " +:+ msg))
                                | None =>
                                    let m := set_p_AvatarIdNullable
                                               (Some (a_AttachmentId attachment)) m in
                                    let filePath :=
                                      if negb (String.eqb (fm_FileExt fm) "")
                                      then fm_FileHash fm +:+ "." +:+ fm_FileExt fm
                                      else fm_FileHash fm in
                                    finish m (ApiTypeFile X +:+ "/" +:+ filePath)
                                end
                            end
                      end
                  end
              end
          end
      end
  end.

(** [(m *ProfileType) Insert()] *)
Definition ProfileType_Insert (m : ProfileType) : M (ProfileType * Z * error) :=
  let* (m, status, err) := ProfileType_Validate m false in
  match err with
  | Some msg => ret (m, status, Some msg)
  | None =>
      let* t := gets now in
      ProfileType_insert (set_p_LastActive t (set_p_Created t m)) false
  end.

(** [(m *ProfileType) Delete()] *)
Definition ProfileType_Delete (m : ProfileType) : M (Z * error) :=
  ret (StatusNotImplemented, Some "Delete Profile is not yet implemented").

Definition UpdateLastActive (profileId lastActive : Z) : M (Z * error) :=
  let* err := h_GetConnection in
  match err with
  | Some msg =>
      ret (StatusInternalServerError,
           Some ("Could not get a database connection: " +:+ msg))
  | None =>
      let* err := fault Begin in
      match err with
      | Some msg =>
          ret (StatusInternalServerError,
               Some ("Could not start transaction: " +:+ msg))
      | None =>
          modify (emit EBegin) ;;
          let* tx := gets db in
          let* err := tx_Exec "--UpdateLastActive" profileId in
          match err with
          | Some msg =>
              tx_Rollback ;;
              ret (StatusInternalServerError,
                   Some ("Update of last active failed: " +:+ msg))
          | None =>
              let* err := tx_Commit tx in
              match err with
              | Some msg =>
                  ret (StatusInternalServerError,
                       Some ("Transaction failed: " +:+ msg))
              | None =>
                  PurgeCacheByScope CacheDetail (ItemTypes_get ItemTypeProfile) profileId ;;
                  ret (StatusOK, None)
              end
          end
      end
  end.

(** [db.Exec] outside a transaction: the statement commits on its own. *)
Definition db_Exec (label : string) (key : Z) : M error := tx_Exec label key.

Definition IncrementProfileCommentCount (profileId : Z) : M unit :=
  let* err := h_GetConnection in
  match err with
  | Some _ => ret tt
  | None =>
      let* err := db_Exec "--Update Profile Comment Count +1" profileId in
      match err with
      | Some _ => ret tt
      | None =>
          PurgeCacheByScope CacheDetail (ItemTypes_get ItemTypeProfile) profileId
      end
  end.

Definition DecrementProfileCommentCount (profileId : Z) : M unit :=
  let* err := h_GetConnection in
  match err with
  | Some _ => ret tt
  | None =>
      let* err := db_Exec "--Update Profile Comment Count -1" profileId in
      match err with
      | Some _ => ret tt
      | None =>
          PurgeCacheByScope CacheDetail (ItemTypes_get ItemTypeProfile) profileId
      end
  end.

(** [updateUnreadHuddleCount(tx, profileID)] *)
Definition updateUnreadHuddleCount (profileID : Z) : M unit :=
  let* err := tx_Exec "--updateUnreadHuddleCount" profileID in
  match err with
  | Some _ => ret tt
  | None =>
      PurgeCacheByScope CacheCounts (ItemTypes_get ItemTypeProfile) profileID
  end.

Definition UpdateUnreadHuddleCount (profileID : Z) : M unit :=
  let* tx := h_GetTransaction in
  match tx with
  | inr _ => ret tt
  | inl tx =>
      updateUnreadHuddleCount profileID ;;
      let* _ := tx_Commit tx in
      ret tt
  end.

(** *** what the store alone answers *)

(** The answer of the store for a profile summary, the cache left aside. *)
Definition store_profile_summary (siteId id : Z) (d : Db)
  : ProfileSummaryType * Z * error :=
  match db_fault d GetConnection with
  | Some msg => (ProfileSummaryType_zero, StatusInternalServerError, Some msg)
  | None =>
      match select_profile "--GetProfileSummary" siteId id d with
      | Row r => (summary_of_row id r, StatusOK, None)
      | ErrNoRows =>
          (ProfileSummaryType_zero, StatusNotFound,
           Some ("Resource with profile ID " +:+ pretty id +:+ " not found"))
      | QueryFailed msg =>
          (ProfileSummaryType_zero, StatusInternalServerError,
           Some ("Database query failed: " +:+ msg))
      end
  end.

(** The answer of the store to "does this profile attend this event". *)
Definition store_is_attending (profileId eventId : Z) (d : Db) : bool * error :=
  match db_fault d GetConnection with
  | Some msg => (false, Some msg)
  | None =>
      match db_fault d (Sql "SELECT profile_id FROM attendees" eventId) with
      | Some msg => (false, Some msg)
      | None => (existsb (fun i => profileId =? i) (select_attendees eventId d), None)
      end
  end.

(** Two submissions of "the same event": they agree on every field the
    fingerprint is built from (the status is derived from [When] during
    validation); id, timestamps, duration and edit fields are free. *)
Definition same_submission (m1 m2 : EventType) : Prop :=
  e_MicrocosmId m1 = e_MicrocosmId m2
  /\ e_Title m1 = e_Title m2
  /\ e_When m1 = e_When m2
  /\ e_WhenNullable m1 = e_WhenNullable m2
  /\ e_Where m1 = e_Where m2
  /\ e_WhereNullable m1 = e_WhereNullable m2
  /\ e_Lat m1 = e_Lat m2 /\ e_Lon m1 = e_Lon m2
  /\ e_North m1 = e_North m2 /\ e_East m1 = e_East m2
  /\ e_South m1 = e_South m2 /\ e_West m1 = e_West m2
  /\ e_RSVPLimit m1 = e_RSVPLimit m2
  /\ m_CreatedById (e_Meta m1) = m_CreatedById (e_Meta m2).

(** Whether a new submission (its text fields already sanitised) passes the
    field checks of [Validate], and the fingerprint its validated form hashes
    to, both written as functions of the submitted fields. *)
Definition valid_submission (m : EventType) : bool :=
  negb (e_MicrocosmId m <=? 0)
  && negb (String.eqb (e_Title m) "")
  && (String.eqb (Trim_space (e_When m)) ""
      || match time_Parse X (e_When m) with inl _ => true | inr _ => false end)
  && negb (e_RSVPLimit m <? 0).

Definition submission_fingerprint (m : EventType) : string :=
  let blank := String.eqb (Trim_space (e_When m)) "" in
  let whenNullable :=
    if blank then e_WhenNullable m
    else match time_Parse X (e_When m) with
         | inl t => Some t
         | inr _ => e_WhenNullable m
         end in
  let whereNullable :=
    if String.eqb (e_Where m) "" then e_WhereNullable m
    else Some (ShoutToWhisper X (e_Where m)) in
  pretty (e_MicrocosmId m) +:+
  ShoutToWhisper X (e_Title m) +:+
  match whenNullable with Some t => time_String X t | None => "" end +:+
  match whereNullable with Some s => s | None => "" end +:+
  fmt_b X (e_Lat m) +:+
  fmt_b X (e_Lon m) +:+
  fmt_b X (e_North m) +:+
  fmt_b X (e_East m) +:+
  fmt_b X (e_South m) +:+
  fmt_b X (e_West m) +:+
  (if blank then EventStatusProposed else EventStatusUpcoming) +:+
  pretty (e_RSVPLimit m) +:+
  pretty (m_CreatedById (e_Meta m)).

(** *** effects of one operation *)

(** The effects an operation added to the log. *)
Definition new_effects (w w' : World) : list Effect :=
  drop (length (log w)) (log w').

(** A purge performed by the operation itself (not one handed to [go]). *)
Definition is_purge (e : Effect) : bool :=
  match e with
  | EPurge _ _ | EPurgeScope _ _ _ => true
  | _ => false
  end.

Definition no_purge (tr : list Effect) : Prop :=
  Forall (fun e => is_purge e = false) tr.

(** Either the trace has one successful commit and ends with it followed by
    exactly [after], with no purge before the commit; or it has no
    successful commit and no purge at all. *)
Definition commit_then (after tr : list Effect) : Prop :=
  (exists pre, tr = (pre ++ ECommit :: after)%list
               /\ (ECommit ∉ pre) /\ no_purge pre)
  \/ ((ECommit ∉ tr) /\ no_purge tr).

(** The same for one statement run outside a transaction. *)
Definition statement_then (label : string) (key : Z) (after tr : list Effect)
  : Prop :=
  tr = (EExec label key :: after)%list \/ tr = [].

(** *** vocabulary of the properties *)


(** The typed read of the summary scope. *)
Definition summary_hit (id : Z) (w : World) : option ProfileSummaryType :=
  (CacheGet as_ProfileSummary (mcProfileKeys CacheSummary id) w).1.

(** What purging does to the world. *)
Definition purged (kind id : Z) (w : World) : World :=
  foldr (fun s w' => purge_scope s kind id w') w all_scopes.

(** An effect that is a statement run. *)
Definition is_exec (e : Effect) : Prop := exists label key, e = EExec label key.

(** *** vocabulary of the further properties *)

(** An effect that only writes a cache entry. *)
Definition is_cache_set (e : Effect) : Prop := exists k, e = ECacheSet k.

(** What a read path may do to the world: add cache entries, and nothing
    else. *)
Definition reads_only (w w' : World) : Prop :=
  db w' = db w /\ now w' = now w /\ cache_up w' = cache_up w
  /\ exists l, log w' = (log w ++ l)%list /\ Forall is_cache_set l.

(** The transaction discipline of a trace: a transaction is begun only when
    none is open, ended (committed, failed to commit, or rolled back) only
    when one is open, and none is open at the end. *)
Fixpoint tx_closed (open : bool) (tr : list Effect) : bool :=
  match tr with
  | [] => negb open
  | EBegin :: tr' => negb open && tx_closed true tr'
  | ECommit :: tr' | ECommitFailed :: tr' | ERollback :: tr' =>
      open && tx_closed false tr'
  | _ :: tr' => tx_closed open tr'
  end.

(** The columns [INSERT INTO events] writes, as an event holds them and as an
    event summary holds them. *)
Definition event_columns (m : EventType) :=
  (e_MicrocosmId m, e_Title m, m_Created (e_Meta m), m_CreatedById (e_Meta m),
   e_WhenNullable m, e_Duration m, e_WhereNullable m,
   (e_Lat m, e_Lon m, e_North m, e_East m, e_South m, e_West m),
   e_Status m, e_RSVPLimit m, e_RSVPSpaces m).

Definition event_summary_columns (s : EventSummaryType) :=
  (es_MicrocosmId s, es_Title s, m_Created (es_Meta s), m_CreatedById (es_Meta s),
   es_WhenNullable s, es_Duration s, es_WhereNullable s,
   (es_Lat s, es_Lon s, es_North s, es_East s, es_South s, es_West s),
   es_Status s, es_RSVPLimit s, es_RSVPSpaces s).

(** *** authorisation (models/authorisation.go) *)

Variable Q : Queries.

(** The [PermissionType] that [GetPermission] builds around a scanned row. *)
Definition permission_of_row (ac : AuthContext) (r : PermissionRow)
  : PermissionType :=
  {| pm_CanCreate := gp_can_create r; pm_CanRead := gp_can_read r;
     pm_CanUpdate := gp_can_update r; pm_CanDelete := gp_can_delete r;
     pm_CanCloseOwn := gp_can_close_own r; pm_CanOpenOwn := gp_can_open_own r;
     pm_CanReadOthers := gp_can_read_others r; pm_IsGuest := gp_is_guest r;
     pm_IsBanned := gp_is_banned r; pm_IsOwner := gp_is_owner r;
     pm_IsModerator := gp_is_superuser r; pm_IsSiteOwner := gp_is_site_owner r;
     pm_Context := ac; pm_Valid := true |}.

(** [m := PermissionType{Context: ac, Valid: true}; m.CanRead = true;
    m.IsGuest = true] *)
Definition guest_permission (ac : AuthContext) : PermissionType :=
  {| pm_CanCreate := false; pm_CanRead := true; pm_CanUpdate := false;
     pm_CanDelete := false; pm_CanCloseOwn := false; pm_CanOpenOwn := false;
     pm_CanReadOthers := false; pm_IsGuest := true; pm_IsBanned := false;
     pm_IsOwner := false; pm_IsModerator := false; pm_IsSiteOwner := false;
     pm_Context := ac; pm_Valid := true |}.

(** [GetPermission(ac)].  The deferred [tx.Rollback()] finds the transaction
    already ended on every path, so only the explicit one is an effect. *)
Definition GetPermission (ac : AuthContext) : M PermissionType :=
  if (ac_ProfileId ac =? 0) && (ac_ItemTypeId ac =? ItemTypes_get ItemTypeSite)
  then ret (guest_permission ac)
  else
    let* tx := h_GetTransaction in
    match tx with
    | inr _ => ret PermissionType_zero
    | inl tx =>
        match q_effective_permissions Q (ac_SiteId ac) (ac_MicrocosmId ac)
                (ac_ItemTypeId ac) (ac_ItemId ac) (ac_ProfileId ac) with
        | Row r =>
            let* err := tx_Commit tx in
            match err with
            | Some _ => ret PermissionType_zero
            | None => ret (permission_of_row ac r)
            end
        | ErrNoRows | QueryFailed _ =>
            tx_Rollback ;; ret PermissionType_zero
        end
    end.

(** *** profile ids *)

(** The row [--GetProfileId] selects: [WHERE site_id = $1 AND user_id = $2].
    The statement has no [ORDER BY]; should several rows match, the one
    returned is not determined by the program (here: the first in the order
    of the table). *)
Definition select_profile_id (siteId userId : Z) (d : Db) : RowResult Z :=
  match db_fault d (Sql "--GetProfileId" userId) with
  | Some msg => QueryFailed msg
  | None =>
      match find (fun ir : Z * ProfileRow =>
                    (pr_site_id ir.2 =? siteId) && (pr_user_id ir.2 =? userId))
                 (map_to_list (db_profiles d)) with
      | Some ir => Row ir.1
      | None => ErrNoRows
      end
  end.

(** [GetProfileId(siteId, userId)] *)
Definition GetProfileId (siteId userId : Z) : M (Z * Z * error) :=
  if (siteId =? 0) || (userId =? 0) then ret (0, StatusOK, None)
  else
    let mcKey := KSiteUser siteId userId in
    let* (val, ok) := CacheGetInt64 mcKey in
    if ok then ret (val, StatusOK, None)
    else
      let* err := h_GetConnection in
      match err with
      | Some msg => ret (0, StatusInternalServerError, Some msg)
      | None =>
          let* row := gets (fun w => select_profile_id siteId userId (db w)) in
          match row with
          | ErrNoRows =>
              ret (0, StatusNotFound,
                   Some ("Profile for site (" +:+ pretty siteId +:+
                         ") and user (" +:+ pretty userId +:+ ") not found."))
          | QueryFailed msg =>
              ret (0, StatusInternalServerError,
                   Some ("Database query failed: " +:+ msg))
          | Row profileId =>
              CacheSetInt64 mcKey profileId (mcTtl X) ;;
              ret (profileId, StatusOK, None)
          end
      end.

(** [var reservedProfileNames = map[string]string{}] *)
Definition reservedProfileNames : gmap string string := ∅.

(** [SuggestProfileName(user)] *)
Definition SuggestProfileName (user : UserType) : string :=
  match reservedProfileNames !! u_Email user with
  | Some n => n
  | None => "user" +:+ pretty (u_ID user + 5830)
  end.

(** [strings.Split(s, "@")[0]] *)
Fixpoint before_at (s : string) : string :=
  match s with
  | EmptyString => EmptyString
  | String c s' =>
      if Ascii.eqb c "@"%char then EmptyString else String c (before_at s')
  end.

(** The [ProfileType] that [GetOrCreateProfile] hands to [Insert]. *)
Definition new_profile (site : SiteType) (user : UserType) : ProfileType :=
  {| p_Id := 0; p_SiteId := s_Id site; p_UserId := u_ID user; p_Email := "";
     p_ProfileName :=
       (* Create randomised username unless the profile is for Site ID 1 *)
       if s_Id site =? 1 then before_at (u_Email user)
       else SuggestProfileName user;
     p_GenderNullable := None; p_Gender := "";
     p_Visible := true; p_StyleId := 0; p_ItemCount := 0;
     p_CommentCount := 0; p_ProfileComment := None; p_Created := 0;
     p_LastActive := 0; p_AvatarUrlNullable := None; p_AvatarUrl := "";
     p_AvatarIdNullable := None; p_AvatarId := 0; p_Links := [] |}.

(** [GetOrCreateProfile(site, user)] *)
Definition GetOrCreateProfile (site : SiteType) (user : UserType)
  : M (ProfileType * Z * error) :=
  let* (profileId, status, err) := GetProfileId (s_Id site) (u_ID user) in
  if status =? StatusOK then GetProfile (s_Id site) profileId
  else
    let create :=
      (* Profile not found, so create one *)
      let* (p, status, err) := ProfileType_Insert (new_profile site user) in
      match err with
      | Some msg => ret (ProfileType_zero, status, Some msg)
      | None => ret (p, StatusOK, None)
      end in
    match err with
    | Some msg =>
        if negb (status =? StatusNotFound) then
          ret (ProfileType_zero, StatusInternalServerError,
               Some ("Error fetching profile: " +:+ msg))
        else create
    | None => create
    end.

(** [strings.Replace(s, " ", "_", -1)] *)
Fixpoint replace_spaces (s : string) : string :=
  match s with
  | EmptyString => EmptyString
  | String c s' =>
      String (if Ascii.eqb c " "%char then "_"%char else c) (replace_spaces s')
  end.

(** [(m *ProfileType) Import()] *)
Definition ProfileType_Import (m : ProfileType) : M (ProfileType * Z * error) :=
  (* Microcosm usernames cannot contain spaces *)
  let m := set_p_ProfileName (replace_spaces (p_ProfileName m)) m in
  let* (m, status, err) := ProfileType_Validate m true in
  match err with
  | Some msg => ret (m, status, Some msg)
  | None =>
      (* If the user has never been active, use the date they were created *)
      let m := if p_LastActive m <? p_Created m
               then set_p_LastActive (p_Created m) m else m in
      ProfileType_insert m true
  end.

(** *** profile names *)

(** The [for rows.Next()] loop of [IsProfileNameTaken]: every row is scanned
    into the same two variables. *)
Fixpoint IsProfileNameTaken_rows (scan_fault : error)
    (rows : list (string * bool)) (email : string) (exists_ : bool)
  : string + (string * bool) :=
  match rows with
  | [] => inr (email, exists_)
  | (e, x) :: rows' =>
      match scan_fault with
      | Some msg => inl msg
      | None => IsProfileNameTaken_rows scan_fault rows' e x
      end
  end.

(** [IsProfileNameTaken(siteId, userId, profileName)] *)
Definition IsProfileNameTaken (siteId userId : Z) (profileName : string)
  : M (bool * Z * error) :=
  let profileName := strings_ToLower X profileName in
  let* err := h_GetConnection in
  match err with
  | Some msg => ret (true, StatusInternalServerError, Some msg)
  | None =>
      let* err := fault (Sql "IsProfileNameTaken" userId) in
      match err with
      | Some msg =>
          ret (true, StatusInternalServerError,
               Some ("Database query failed: " +:+ msg))
      | None =>
          let* scan_fault := fault (Sql "IsProfileNameTaken rows.Scan" userId) in
          match IsProfileNameTaken_rows scan_fault
                  (q_name_taken Q siteId userId profileName) "" false with
          | inl msg =>
              ret (true, StatusInternalServerError,
                   Some ("Row parsing error: " +:+ msg))
          | inr (email, exists_) =>
              let* err := fault (Sql "IsProfileNameTaken rows.Err" userId) in
              match err with
              | Some msg =>
                  ret (true, StatusInternalServerError,
                       Some ("Error fetching rows: " +:+ msg))
              | None =>
                  (* Is it already in the database? *)
                  if exists_ then ret (true, StatusOK, None)
                  else
                    (* Is it in the reserved list, but not for the given email? *)
                    if existsb
                         (fun en : string * string =>
                            String.eqb (strings_ToLower X en.2) profileName
                            && negb (String.eqb email en.1))
                         (map_to_list reservedProfileNames)
                    then ret (true, StatusOK, None)
                    else ret (false, StatusOK, None)
              end
          end
      end
  end.

(** *** view counts (models/cron.go) *)

(** The [for rows.Next()] loop of [UpdateViewCounts]: the views in the order
    of the rows, and which kinds of item were seen. *)
Fixpoint UpdateViewCounts_rows (scan_fault : error) (rows : list View)
    (views : list View) (updateConversations updateEvents updatePolls : bool)
  : option (list View * bool * bool * bool) :=
  match rows with
  | [] => Some (views, updateConversations, updateEvents, updatePolls)
  | view :: rows' =>
      match scan_fault with
      | Some _ => None
      | None =>
          let t := v_ItemTypeId view in
          if t =? ItemTypes_get ItemTypeConversation then
            UpdateViewCounts_rows scan_fault rows' (views ++ [view])%list
              true updateEvents updatePolls
          else if t =? ItemTypes_get ItemTypeEvent then
            UpdateViewCounts_rows scan_fault rows' (views ++ [view])%list
              updateConversations true updatePolls
          else if t =? ItemTypes_get ItemTypePoll then
            UpdateViewCounts_rows scan_fault rows' (views ++ [view])%list
              updateConversations updateEvents true
          else
            UpdateViewCounts_rows scan_fault rows' (views ++ [view])%list
              updateConversations updateEvents updatePolls
      end
  end.

(** [if update { _, err = tx.Exec(stmt); ... }] *)
Definition exec_when (update : bool) (label : string) : M error :=
  if update then tx_Exec label 0 else ret None.

(** [for _, view := range views { PurgeCacheByScope(c.CacheItem, ...) }] *)
Fixpoint purge_views (views : list View) : M unit :=
  match views with
  | [] => ret tt
  | view :: rest =>
      PurgeCacheByScope CacheItem (v_ItemTypeId view) (v_ItemId view) ;;
      purge_views rest
  end.

(** [UpdateViewCounts()].  Every early [return] leaves the transaction to the
    deferred [tx.Rollback()]; the result of [tx.Commit()] is not looked at. *)
Definition UpdateViewCounts : M unit :=
  let* tx := h_GetTransaction in
  match tx with
  | inr _ => ret tt
  | inl tx =>
      let* err := fault (Sql "--UpdateViewCounts SELECT" 0) in
      match err with
      | Some _ => tx_Rollback
      | None =>
          let* scan_fault := fault (Sql "--UpdateViewCounts rows.Scan" 0) in
          match UpdateViewCounts_rows scan_fault (q_views Q) [] false false false with
          | None => tx_Rollback
          | Some (views, updateConversations, updateEvents, updatePolls) =>
              let* err := fault (Sql "--UpdateViewCounts rows.Err" 0) in
              match err with
              | Some _ => tx_Rollback
              | None =>
                  if (length views =? 0)%nat then
                    (* No views to update *)
                    tx_Rollback
                  else
                    let* err := exec_when updateConversations
                                  "--UpdateViewCounts UPDATE conversations" in
                    match err with
                    | Some _ => tx_Rollback
                    | None =>
                        let* err := exec_when updateEvents
                                      "--UpdateViewCounts UPDATE events" in
                        match err with
                        | Some _ => tx_Rollback
                        | None =>
                            let* err := exec_when updatePolls
                                          "--UpdateViewCounts UPDATE polls" in
                            match err with
                            | Some _ => tx_Rollback
                            | None =>
                                (* Clear views *)
                                let* err := tx_Exec "TRUNCATE TABLE views" 0 in
                                match err with
                                | Some _ => tx_Rollback
                                | None =>
                                    tx_Commit tx ;;
                                    purge_views views
                                end
                            end
                        end
                    end
              end
          end
      end
  end.

(** The purge [UpdateViewCounts] issues for a view. *)
Definition purge_of_view (v : View) : Effect :=
  EPurgeScope CacheItem (v_ItemTypeId v) (v_ItemId v).

(** What the steps of [ProfileType.insert] that follow its commit leave
    alone: the profiles table, the injected faults, the clock, and the
    cache as far as the site/user keys of [GetProfileId] go. *)
Definition profiles_kept (w w' : World) : Prop :=
  db_profiles (db w') = db_profiles (db w)
  /\ db_fault (db w') = db_fault (db w)
  /\ now w' = now w /\ cache_up w' = cache_up w
  /\ forall a b, cache w' !! KSiteUser a b = cache w !! KSiteUser a b.

(** * Properties *)

(** Unfolds the state-passing plumbing, leaving the tests on the world. *)
Ltac run_M :=
  cbv beta iota zeta delta
    [bind ret gets modify fault h_GetConnection h_GetTransaction
     tx_Exec tx_Commit tx_Rollback tx_collab collab db_Exec go
     CacheGet CacheSet CacheGetInt64 CacheSetInt64
     CacheGetInt64Slice CacheSetInt64Slice PurgeCache PurgeCacheByScope].

(** Computes the fields of an event record under construction. *)
Ltac event_fields :=
  lazy beta iota zeta delta
    [fst snd andb negb
     e_Id e_MicrocosmId e_Title e_WhenNullable e_When e_Duration e_Where
     e_WhereNullable e_Lat e_Lon e_North e_East e_South e_West e_Status
     e_RSVPLimit e_RSVPAttending e_RSVPSpaces e_Meta m_Created
     m_CreatedById m_CreatedBy m_EditedNullable m_Edited m_EditedByNullable
     m_EditedBy m_EditReasonNullable m_EditReason m_Flags m_Links f_Sticky
     f_Open f_Visible f_Moderated f_Deleted f_Attending set_f_Sticky
     set_f_Open set_f_Moderated set_f_Deleted set_f_Attending
     set_m_CreatedBy set_m_EditedNullable set_m_Edited
     set_m_EditedByNullable set_m_EditedBy set_m_EditReason set_m_Flags
     set_m_Links set_e_Id set_e_Title set_e_WhenNullable set_e_When
     set_e_Duration set_e_Where set_e_WhereNullable set_e_Status
     set_e_RSVPSpaces set_e_Meta].

(** Running a sequenced computation runs its first part, then the rest on
    the result and the world the first part leaves. *)
Lemma bind_run {A B} (c : M A) (k : A -> M B) (w : World) :
  bind c k w = let (a, w') := c w in k a w'.
Proof. done. Qed.

(** Case analysis on every injected fault the goal tests. *)
Ltac split_faults :=
  repeat (match goal with
          | |- context [match db_fault (db ?w) ?c with _ => _ end] =>
              destruct (db_fault (db w) c) eqn:?; simpl
          end).

(** ** Sorting by sequence number *)









(** ** Fan-out *)

Lemma fan_out_cons {A B} (unit : nat -> B -> M (Request A)) args i sched a w :
  args !! i = Some a ->
  fan_out unit args (i :: sched) w
  = ((unit i a w).1 :: (fan_out unit args sched (unit i a w).2).1,
     (fan_out unit args sched (unit i a w).2).2).
Proof.
  intros Ha. simpl. rewrite Ha. unfold bind, ret.
  destruct (unit i a w) as [r w1]. simpl.
  by destruct (fan_out unit args sched w1) as [rs w2].
Qed.

Lemma fan_out_skip {A B} (unit : nat -> B -> M (Request A)) args i sched w :
  args !! i = None ->
  fan_out unit args (i :: sched) w = fan_out unit args sched w.
Proof. intros Ha. simpl. by rewrite Ha. Qed.

Section FanOut.
Context {A B : Type} (unit : nat -> B -> M (Request A)).
Hypothesis unit_tags : forall seq a w, Seq (unit seq a w).1 = seq.


(** Every response received was produced by the unit started for the
    position it is tagged with. *)
Lemma fan_out_elem args sched w r :
  r ∈ (fan_out unit args sched w).1 ->
  exists a wi, args !! Seq r = Some a /\ r = (unit (Seq r) a wi).1.
Proof.
  revert w. induction sched as [|i sched IH]; intros w; simpl.
  - intros H. by apply elem_of_nil in H.
  - destruct (args !! i) as [a|] eqn:Ha; [|apply IH].
    unfold bind at 1. destruct (unit i a w) as [r1 w1] eqn:E1.
    unfold bind at 1. destruct (fan_out unit args sched w1) as [rs w2] eqn:E2.
    simpl. intros [->|Hr]%elem_of_cons.
    + assert (Seq r1 = i) as Hi by (by rewrite <-(unit_tags i a w), E1).
      exists a, w. rewrite Hi, E1. done.
    + apply (IH w1). by rewrite E2.
Qed.
End FanOut.

Lemma Handle_tags siteId seq id w :
  Seq (HandleProfileSummaryRequest siteId seq id w).1 = seq.
Proof.
  unfold HandleProfileSummaryRequest, bind.
  destruct (GetProfileSummary siteId id w) as [[[item status] err] w']. done.
Qed.



Lemma first_error_None {A} (resps : list (Request A)) :
  Forall (fun r => Err r = None) resps -> first_error resps = None.
Proof.
  unfold first_error. induction 1 as [|r l Hr Hl IH]; simpl; [done|].
  rewrite Hr. simpl. done.
Qed.

Lemma first_error_Some {A} (resps : list (Request A)) r :
  first_error resps = Some r ->
  exists pre post,
    resps = (pre ++ r :: post)%list
    /\ Forall (fun r' => Err r' = None) pre
    /\ Err r <> None.
Proof.
  unfold first_error. induction resps as [|x l IH]; simpl; [done|].
  destruct (Err x) as [msg|] eqn:E; simpl.
  - intros [= <-]. exists [], l. rewrite E. repeat split; [constructor|done].
  - intros H. destruct (IH H) as (pre & post & -> & Hpre & Hr).
    exists (x :: pre), post. repeat split; [by constructor|done].
Qed.


(** ** Cache bookkeeping *)

Lemma cache_lookup_emit k e w : cache_lookup k (emit e w) = cache_lookup k w.
Proof. done. Qed.

Lemma cache_lookup_store_eq k v ttl w :
  cache_up w = true -> 0 < ttl ->
  cache_lookup k (cache_store k v ttl w) = Some v.
Proof.
  intros Hup Httl. unfold cache_lookup, cache_store. rewrite Hup. simpl.
  rewrite Hup, lookup_insert_eq. simpl.
  destruct (Z.ltb_spec (now w) (now w + ttl)); [done|lia].
Qed.

Lemma cache_lookup_store_ne k k' v ttl w :
  k <> k' ->
  cache_lookup k' (cache_store k v ttl w) = cache_lookup k' w.
Proof.
  intros Hne. unfold cache_lookup, cache_store.
  destruct (cache_up w) eqn:Hup; simpl; rewrite Hup; [|done].
  by rewrite lookup_insert_ne.
Qed.

Lemma cache_up_store k v ttl w : cache_up (cache_store k v ttl w) = cache_up w.
Proof. unfold cache_store. destruct (cache_up w) eqn:E; simpl; congruence. Qed.

Lemma mcProfileKeys_inj s id id' :
  mcProfileKeys s id = mcProfileKeys s id' -> id = id'.
Proof. unfold mcProfileKeys. congruence. Qed.

(** [GetProfileSummary] by cases, with the state passing written out. *)
Lemma GetProfileSummary_unfold siteId id w :
  GetProfileSummary siteId id w =
  if id =? 0 then
    ((ProfileSummaryType_zero, StatusNotFound, Some "Profile not found"), w)
  else
    match summary_hit id w with
    | Some m =>
        if negb (ps_SiteId m =? siteId)
        then ((ProfileSummaryType_zero, StatusNotFound, Some "Not found"), w)
        else ((m, StatusOK, None), w)
    | None =>
        match db_fault (db w) GetConnection with
        | Some msg =>
            ((ProfileSummaryType_zero, StatusInternalServerError, Some msg), w)
        | None =>
            match select_profile "--GetProfileSummary" siteId id (db w) with
            | Row r =>
                ((summary_of_row id r, StatusOK, None),
                 emit (ECacheSet (mcProfileKeys CacheSummary id))
                   (cache_store (mcProfileKeys CacheSummary id)
                      (VProfileSummary (summary_of_row id r)) (mcTtl X) w))
            | ErrNoRows =>
                ((ProfileSummaryType_zero, StatusNotFound,
                  Some ("Resource with profile ID " +:+ pretty id +:+ " not found")), w)
            | QueryFailed msg =>
                ((ProfileSummaryType_zero, StatusInternalServerError,
                  Some ("Database query failed: " +:+ msg)), w)
            end
        end
    end.
Proof.
  unfold GetProfileSummary, summary_hit.
  destruct (id =? 0); [done|].
  unfold bind, CacheGet, h_GetConnection, fault, gets, CacheSet, modify, ret.
  simpl.
  destruct (match cache_lookup _ w with Some v => _ | None => _ end) as [m|].
  - by destruct (negb _).
  - destruct (db_fault (db w) GetConnection); [done|].
    by destruct (select_profile _ siteId id (db w)).
Qed.

Lemma summary_hit_store_eq id m w :
  cache_up w = true -> 0 < mcTtl X ->
  summary_hit id
    (emit (ECacheSet (mcProfileKeys CacheSummary id))
       (cache_store (mcProfileKeys CacheSummary id) (VProfileSummary m) (mcTtl X) w))
  = Some m.
Proof.
  intros Hup Httl. unfold summary_hit, CacheGet, gets. simpl.
  by rewrite cache_lookup_emit, cache_lookup_store_eq.
Qed.

Lemma summary_hit_store_ne id k v w :
  id <> k ->
  summary_hit k
    (emit (ECacheSet (mcProfileKeys CacheSummary id))
       (cache_store (mcProfileKeys CacheSummary id) v (mcTtl X) w))
  = summary_hit k w.
Proof.
  intros Hne. unfold summary_hit, CacheGet, gets. simpl.
  rewrite cache_lookup_emit, cache_lookup_store_ne; [done|].
  intros Heq. by apply mcProfileKeys_inj in Heq.
Qed.

(** A fetch never disturbs an entry that is already readable. *)
Lemma GetProfileSummary_keeps_hits siteId id k m w :
  summary_hit k w = Some m ->
  summary_hit k (GetProfileSummary siteId id w).2 = Some m.
Proof.
  intros Hk. rewrite GetProfileSummary_unfold.
  destruct (id =? 0); [done|].
  destruct (summary_hit id w) as [m'|] eqn:Hid.
  { by destruct (negb _). }
  destruct (db_fault (db w) GetConnection); [done|].
  destruct (select_profile _ siteId id (db w)); try done.
  simpl. rewrite summary_hit_store_ne; [done|].
  intros ->. congruence.
Qed.

(** After a successful fetch the summary is readable from the cache. *)
Lemma GetProfileSummary_caches siteId id m status w :
  cache_up w = true -> 0 < mcTtl X ->
  (GetProfileSummary siteId id w).1 = (m, status, None) ->
  summary_hit id (GetProfileSummary siteId id w).2 = Some m.
Proof.
  intros Hup Httl. rewrite GetProfileSummary_unfold.
  destruct (id =? 0); [done|].
  destruct (summary_hit id w) as [m'|] eqn:Hid.
  { destruct (negb _); [done|]. simpl. by intros [= <- _]. }
  destruct (db_fault (db w) GetConnection); [done|].
  destruct (select_profile _ siteId id (db w)); try done.
  simpl. intros [= <- _]. by apply summary_hit_store_eq.
Qed.

Lemma GetProfileSummary_cache_up siteId id w :
  cache_up (GetProfileSummary siteId id w).2 = cache_up w.
Proof.
  rewrite GetProfileSummary_unfold.
  destruct (id =? 0); [done|].
  destruct (summary_hit id w) as [m'|]; [by destruct (negb _)|].
  destruct (db_fault (db w) GetConnection); [done|].
  destruct (select_profile _ siteId id (db w)); try done.
  simpl. apply cache_up_store.
Qed.

Lemma Handle_world siteId seq id w :
  (HandleProfileSummaryRequest siteId seq id w).2 = (GetProfileSummary siteId id w).2.
Proof.
  unfold HandleProfileSummaryRequest, bind.
  destruct (GetProfileSummary siteId id w) as [[[item status] err] w']. done.
Qed.

Lemma Handle_result siteId seq id w :
  (GetProfileSummary siteId id w).1
  = (Item (HandleProfileSummaryRequest siteId seq id w).1,
     Status (HandleProfileSummaryRequest siteId seq id w).1,
     Err (HandleProfileSummaryRequest siteId seq id w).1).
Proof.
  unfold HandleProfileSummaryRequest, bind.
  destruct (GetProfileSummary siteId id w) as [[[item status] err] w']. done.
Qed.

(** Every unit that succeeded has its summary in the cache once all units
    have reported, whatever the other units did. *)
Lemma fan_out_keeps_hits siteId ids sched w k m :
  summary_hit k w = Some m ->
  summary_hit k (fan_out (HandleProfileSummaryRequest siteId) ids sched w).2
  = Some m.
Proof.
  revert w. induction sched as [|i sched IH]; intros w Hk; [done|].
  destruct (ids !! i) as [a|] eqn:Ha.
  - rewrite (fan_out_cons _ _ _ _ a) by done. simpl.
    apply IH. rewrite Handle_world. by apply GetProfileSummary_keeps_hits.
  - rewrite fan_out_skip by done. by apply IH.
Qed.

Lemma fan_out_summaries_cached siteId ids sched w :
  cache_up w = true -> 0 < mcTtl X ->
  forall r id,
    r ∈ (fan_out (HandleProfileSummaryRequest siteId) ids sched w).1 ->
    Err r = None -> ids !! Seq r = Some id ->
    summary_hit id (fan_out (HandleProfileSummaryRequest siteId) ids sched w).2
    = Some (Item r).
Proof.
  intros Hup Httl. revert w Hup.
  induction sched as [|i sched IH]; intros w Hup r id.
  - intros Hr. by apply elem_of_nil in Hr.
  - destruct (ids !! i) as [a|] eqn:Ha.
    + rewrite (fan_out_cons _ _ _ _ a) by done. simpl.
      intros [->|Hr]%elem_of_cons Herr Hid.
      * rewrite Handle_tags, Ha in Hid. injection Hid as <-.
        apply fan_out_keeps_hits. rewrite Handle_world.
        eapply GetProfileSummary_caches; [done..|].
        rewrite <-Herr. apply Handle_result.
      * apply IH; [|done..].
        by rewrite Handle_world, GetProfileSummary_cache_up.
    + rewrite fan_out_skip by done. by apply IH.
Qed.

(** ** The gather phase *)

Lemma GetProfiles_hydrate_unfold siteId ids total limit offset sched w :
  GetProfiles_hydrate siteId ids total limit offset sched w =
  (match gather (fan_out (HandleProfileSummaryRequest siteId) ids sched w).1 with
   | inl (status, err) => ([], 0, 0, status, err)
   | inr ems =>
       if GetMaxOffset total limit <? offset
       then ([], 0, 0, StatusBadRequest, empty_page_error offset)
       else (ems, total, GetPageCount total limit, StatusOK, None)
   end,
   (fan_out (HandleProfileSummaryRequest siteId) ids sched w).2).
Proof.
  unfold GetProfiles_hydrate, bind.
  destruct (fan_out _ ids sched w) as [resps w']. simpl.
  destruct (gather resps) as [[status err]|ems]; [done|].
  by destruct (GetMaxOffset total limit <? offset).
Qed.

Lemma GetIgnored_hydrate_unfold siteId ems total limit offset sched w :
  offset <= GetMaxOffset total limit ->
  GetIgnored_hydrate siteId ems total limit offset sched w =
  (match gather (fan_out (HandleSummaryContainerRequest siteId) ems sched w).1 with
   | inl (status, err) => ([], 0, 0, status, err)
   | inr items =>
       (imap (fun i m => set_ig_Item (items !! i) m) ems,
        total, GetPageCount total limit, StatusOK, None)
   end,
   (fan_out (HandleSummaryContainerRequest siteId) ems sched w).2).
Proof.
  intros Hoff. unfold GetIgnored_hydrate.
  destruct (Z.ltb_spec (GetMaxOffset total limit) offset); [lia|].
  unfold bind. destruct (fan_out _ ems sched w) as [resps w']. simpl.
  by destruct (gather resps) as [[status err]|items].
Qed.

Lemma first_error_app {A} (pre post : list (Request A)) r :
  Forall (fun r' => Err r' = None) pre ->
  Err r <> None ->
  first_error (pre ++ r :: post) = Some r.
Proof.
  intros Hpre Hr. unfold first_error.
  induction Hpre as [|x pre Hx Hpre IH]; simpl.
  - destruct (Err r) eqn:E; [done|congruence].
  - by rewrite Hx.
Qed.

Lemma gather_first_received {A} (resps pre post : list (Request A)) r :
  resps = (pre ++ r :: post)%list ->
  Forall (fun r' => Err r' = None) pre ->
  Err r <> None ->
  gather resps = inl (Status r, Err r).
Proof.
  intros -> Hpre Hr. unfold gather. by rewrite first_error_app.
Qed.

Lemma first_error_exists {A} (resps : list (Request A)) :
  Exists (fun r => Err r <> None) resps ->
  exists r, first_error resps = Some r.
Proof.
  unfold first_error. induction 1 as [x l Hx|x l Hl IH]; simpl.
  - destruct (Err x); [eauto|congruence].
  - destruct (failed (Err x)); eauto.
Qed.

(** C6 (as amended).  In the gather phase of [GetProfiles] and of
    [GetIgnored] the error scan runs over the responses in the order they
    were received, before the sort by [Seq]: when units fail, the status and
    error surfaced for the whole page are those of the failed response
    received first, whatever its sequence number. *)
Theorem error_scan_is_in_arrival_order
    (siteId : Z) (sched : list nat) (total limit offset : Z) (w : World) :
  (forall (ids : list Z) (pre post : list ProfileSummaryRequest) r,
      (fan_out (HandleProfileSummaryRequest siteId) ids sched w).1
        = (pre ++ r :: post)%list ->
      Forall (fun x => Err x = None) pre ->
      Err r <> None ->
      (GetProfiles_hydrate siteId ids total limit offset sched w).1
        = ([], 0, 0, Status r, Err r))
  /\ (forall (rows : list IgnoreType) (pre post : list SummaryContainerRequest) r,
      offset <= GetMaxOffset total limit ->
      (fan_out (HandleSummaryContainerRequest siteId) rows sched w).1
        = (pre ++ r :: post)%list ->
      Forall (fun x => Err x = None) pre ->
      Err r <> None ->
      (GetIgnored_hydrate siteId rows total limit offset sched w).1
        = ([], 0, 0, Status r, Err r)).
Proof.
  split.
  - intros ids pre post r Hp Hpre Hr.
    rewrite GetProfiles_hydrate_unfold. simpl.
    by rewrite (gather_first_received _ pre post r Hp Hpre Hr).
  - intros rows pre post r Hoff Hi Hpre Hr.
    rewrite GetIgnored_hydrate_unfold by done. simpl.
    by rewrite (gather_first_received _ pre post r Hi Hpre Hr).
Qed.

(** C2.  If at least one aggregation unit reports an error, [GetProfiles]
    and [GetIgnored] return an empty list, zero total and pages, and the
    status and error of a failed unit -- never a partial page.  The world
    they leave behind is the one in which every unit has run to completion:
    in particular each profile unit that succeeded has its summary in the
    cache. *)
Theorem failed_unit_fails_whole_page
    (siteId : Z) (sched : list nat) (total limit offset : Z) (w : World) :
  (forall ids : list Z,
      Exists (fun r => Err r <> None)
             (fan_out (HandleProfileSummaryRequest siteId) ids sched w).1 ->
      (exists r,
          r ∈ (fan_out (HandleProfileSummaryRequest siteId) ids sched w).1
          /\ Err r <> None
          /\ (GetProfiles_hydrate siteId ids total limit offset sched w).1
             = ([], 0, 0, Status r, Err r))
      /\ (GetProfiles_hydrate siteId ids total limit offset sched w).2
         = (fan_out (HandleProfileSummaryRequest siteId) ids sched w).2
      /\ (cache_up w = true -> 0 < mcTtl X ->
          forall r id,
            r ∈ (fan_out (HandleProfileSummaryRequest siteId) ids sched w).1 ->
            Err r = None -> ids !! Seq r = Some id ->
            summary_hit id
              (GetProfiles_hydrate siteId ids total limit offset sched w).2
            = Some (Item r)))
  /\ (forall rows : list IgnoreType,
      offset <= GetMaxOffset total limit ->
      Exists (fun r => Err r <> None)
             (fan_out (HandleSummaryContainerRequest siteId) rows sched w).1 ->
      (exists r,
          r ∈ (fan_out (HandleSummaryContainerRequest siteId) rows sched w).1
          /\ Err r <> None
          /\ (GetIgnored_hydrate siteId rows total limit offset sched w).1
             = ([], 0, 0, Status r, Err r))
      /\ (GetIgnored_hydrate siteId rows total limit offset sched w).2
         = (fan_out (HandleSummaryContainerRequest siteId) rows sched w).2).
Proof.
  split.
  - intros ids Hp. rewrite GetProfiles_hydrate_unfold. simpl.
    split; [|split; [done|]].
    + destruct (first_error_exists _ Hp) as [r Hr].
      destruct (first_error_Some _ _ Hr) as (pre & post & Heq & Hpre & Herr).
      exists r. split; [|split; [done|]].
      * rewrite Heq. apply elem_of_app. right. by left.
      * by rewrite (gather_first_received _ pre post r Heq Hpre Herr).
    + intros Hup Httl. by apply fan_out_summaries_cached.
  - intros rows Hoff Hi. rewrite GetIgnored_hydrate_unfold by done. simpl.
    split; [|done].
    destruct (first_error_exists _ Hi) as [r Hr].
    destruct (first_error_Some _ _ Hr) as (pre & post & Heq & Hpre & Herr).
    exists r. split; [|split; [done|]].
    + rewrite Heq. apply elem_of_app. right. by left.
    + by rewrite (gather_first_received _ pre post r Heq Hpre Herr).
Qed.

(** ** Paging *)

Lemma GetPageCount_ceil total limit :
  0 <= total -> 0 < limit ->
  (GetPageCount total limit - 1) * limit < total <= GetPageCount total limit * limit.
Proof.
  intros Ht Hl. unfold GetPageCount.
  pose proof (Z.div_mod (total + limit - 1) limit ltac:(lia)) as Hdm.
  pose proof (Z.mod_pos_bound (total + limit - 1) limit Hl) as Hb.
  nia.
Qed.

(** C5.  For every non-negative total and positive limit the page count is
    the ceiling of total/limit (the least number of pages of [limit] rows
    that hold [total] rows) and the maximal offset is
    [max 0 ((pages-1)*limit)].  Once the rows of a page have been fetched
    without error, [GetEvents], [GetProfiles] and [GetIgnored] fail with
    status 400 and the "would return an empty page" error when
    [offset > maxOffset], and succeed when [offset = maxOffset].  For
    total 25 and limit 10 there are 3 pages and the maximal offset is 20. *)
Theorem paginator_ceiling_and_offset_check
    (total limit offset : Z) (siteId : Z) (sched : list nat) (w : World) :
  0 <= total -> 0 < limit ->
  ((GetPageCount total limit - 1) * limit < total
   /\ total <= GetPageCount total limit * limit)
  /\ GetMaxOffset total limit = Z.max 0 ((GetPageCount total limit - 1) * limit)
  /\ (forall ems : list EventSummaryType,
        (GetMaxOffset total limit < offset ->
         GetEvents_paginate ems total limit offset
         = ([], 0, 0, StatusBadRequest, empty_page_error offset))
        /\ (offset = GetMaxOffset total limit ->
            GetEvents_paginate ems total limit offset
            = (ems, total, GetPageCount total limit, StatusOK, None)))
  /\ (forall ids ems,
        gather (fan_out (HandleProfileSummaryRequest siteId) ids sched w).1 = inr ems ->
        (GetMaxOffset total limit < offset ->
         (GetProfiles_hydrate siteId ids total limit offset sched w).1
         = ([], 0, 0, StatusBadRequest, empty_page_error offset))
        /\ (offset = GetMaxOffset total limit ->
            (GetProfiles_hydrate siteId ids total limit offset sched w).1
            = (ems, total, GetPageCount total limit, StatusOK, None)))
  /\ (forall rows : list IgnoreType,
        (GetMaxOffset total limit < offset ->
         (GetIgnored_hydrate siteId rows total limit offset sched w).1
         = ([], 0, 0, StatusBadRequest, empty_page_error offset))
        /\ (forall items,
            offset = GetMaxOffset total limit ->
            gather (fan_out (HandleSummaryContainerRequest siteId) rows sched w).1
              = inr items ->
            (GetIgnored_hydrate siteId rows total limit offset sched w).1
            = (imap (fun i m => set_ig_Item (items !! i) m) rows,
               total, GetPageCount total limit, StatusOK, None)))
  /\ GetPageCount 25 10 = 3 /\ GetMaxOffset 25 10 = 20.
Proof.
  intros Ht Hl.
  split; [apply GetPageCount_ceil; lia|].
  split; [done|].
  split; [|split; [|split; [|done]]].
  - intros ems. unfold GetEvents_paginate. split.
    + intros Hgt. destruct (Z.ltb_spec (GetMaxOffset total limit) offset); [done|lia].
    + intros ->. by rewrite Z.ltb_irrefl.
  - intros ids ems Hg. rewrite GetProfiles_hydrate_unfold. simpl. rewrite Hg. split.
    + intros Hgt. destruct (Z.ltb_spec (GetMaxOffset total limit) offset); [done|lia].
    + intros ->. by rewrite Z.ltb_irrefl.
  - intros rows. split.
    + intros Hgt. unfold GetIgnored_hydrate.
      destruct (Z.ltb_spec (GetMaxOffset total limit) offset); [done|lia].
    + intros items -> Hg. rewrite GetIgnored_hydrate_unfold by lia. simpl.
      by rewrite Hg.
Qed.

(** ** Ignores *)

(** C10.  Once the fields of an ignore pass validation and a transaction is
    obtained, [IgnoreType.Update] and [IgnoreType.Delete] return
    [(StatusOK, nil)] whatever the INSERT or DELETE statement and the commit
    report: a failed statement leaves no trace in the result, the commit is
    attempted all the same and its outcome is dropped too. *)
Theorem ignore_update_delete_always_OK (m : IgnoreType) (w : World) :
  (IgnoreType_Validate m).2 = None ->
  db_fault (db w) GetTransaction = None ->
  let m' := (IgnoreType_Validate m).1.1 in
  let ran (label : string) : list Effect :=
    match db_fault (db w) (Sql label (ig_ProfileId m')) with
    | Some _ => []
    | None => [EExec label (ig_ProfileId m')]
    end in
  let committed : Effect :=
    match db_fault (db w) Commit with
    | Some _ => ECommitFailed
    | None => ECommit
    end in
  (IgnoreType_Update m w).1 = (m', StatusOK, None)
  /\ (IgnoreType_Delete m w).1 = (m', StatusOK, None)
  /\ log (IgnoreType_Update m w).2
     = (log w ++ EBegin :: ran "--Create Ignore" ++ [committed])%list
  /\ log (IgnoreType_Delete m w).2
     = (log w ++ EBegin :: ran "--Delete Ignore" ++ [committed])%list.
Proof.
  intros Hv Htx. simpl.
  unfold IgnoreType_Update, IgnoreType_Delete.
  destruct (IgnoreType_Validate m) as [[m' status] err]. simpl in *. subst err.
  run_M. simpl. rewrite Htx. simpl.
  split_faults; rewrite <-?app_assoc; done.
Qed.

(** ** Fail-open cache reads *)

(** The ways a typed read comes back empty: the service is unreachable, the
    key is absent, the entry has expired, or it holds another shape. *)
Lemma typed_read_fails_iff {A} (proj : CacheValue -> option A) k w :
  (CacheGet proj k w).1 = None <->
  cache_up w = false
  \/ cache w !! k = None
  \/ exists e, cache w !! k = Some e
       /\ (ce_expires e <= now w \/ proj (ce_value e) = None).
Proof.
  unfold CacheGet, gets, cache_lookup. simpl.
  destruct (cache_up w); [|naive_solver].
  destruct (cache w !! k) as [e|]; [|naive_solver].
  destruct (Z.ltb_spec (now w) (ce_expires e)).
  - split.
    + intros Hp. right. right. exists e. naive_solver.
    + intros [?|[?|(e' & [= <-] & [?|?])]]; try done. lia.
  - split; [|done]. intros _. right. right. exists e. split; [done|]. left. lia.
Qed.

(** C9.  A cache read that does not produce a value of the requested type
    -- for whatever reason -- never becomes an error of the fetcher:
    [GetProfileSummary] and [IsAttending] then return exactly what the store
    answers and, when the store answered, write that answer to the cache. *)
Theorem cache_read_failure_is_a_miss
    (siteId id profileId eventId : Z) (w : World) :
  (id <> 0 ->
   (CacheGet as_ProfileSummary (mcProfileKeys CacheSummary id) w).1 = None ->
   (GetProfileSummary siteId id w).1 = store_profile_summary siteId id (db w)
   /\ (GetProfileSummary siteId id w).2
      = match store_profile_summary siteId id (db w) with
        | (m, _, None) =>
            emit (ECacheSet (mcProfileKeys CacheSummary id))
              (cache_store (mcProfileKeys CacheSummary id)
                 (VProfileSummary m) (mcTtl X) w)
        | (_, _, Some _) => w
        end)
  /\ (profileId <> 0 -> eventId <> 0 ->
      (CacheGet as_Int64Slice (mcEventKeys CacheProfileIds eventId) w).1 = None ->
      (IsAttending profileId eventId w).1 = store_is_attending profileId eventId (db w)
      /\ (IsAttending profileId eventId w).2
         = match store_is_attending profileId eventId (db w) with
           | (_, None) =>
               emit (ECacheSet (mcEventKeys CacheProfileIds eventId))
                 (cache_store (mcEventKeys CacheProfileIds eventId)
                    (VInt64Slice (select_attendees eventId (db w))) (mcTtl X) w)
           | (_, Some _) => w
           end).
Proof.
  split.
  - intros Hid Hmiss. rewrite GetProfileSummary_unfold.
    destruct (Z.eqb_spec id 0); [done|].
    unfold summary_hit. rewrite Hmiss. unfold store_profile_summary.
    destruct (db_fault (db w) GetConnection); [done|].
    by destruct (select_profile _ siteId id (db w)).
  - intros Hp He Hmiss. unfold IsAttending, store_is_attending.
    destruct (Z.eqb_spec profileId 0); [done|].
    destruct (Z.eqb_spec eventId 0); [done|]. simpl.
    unfold CacheGet, gets in Hmiss. simpl in Hmiss.
    run_M. rewrite Hmiss. simpl.
    destruct (db_fault (db w) GetConnection); [done|].
    by destruct (db_fault (db w) (Sql _ eventId)).
Qed.

(** ** Duplicate suppression *)

Lemma EventType_Validate_world m siteId profileId exists_ w :
  (EventType_Validate m siteId profileId exists_ w).2 = w.
Proof.
  unfold EventType_Validate. run_M.
  destruct exists_; simpl.
  - done.
  - by destruct (db_microcosm_summary _ _ _ _) as [status [msg|]].
Qed.

Lemma dupeKey_set_e_Id v m : dupeKey (set_e_Id v m) = dupeKey m.
Proof. done. Qed.

(** The field checks and the fingerprint depend on the submitted fields
    only. *)
Lemma EventType_Validate_fields_spec m :
  match EventType_Validate_fields m false with
  | (mv, _, None) =>
      valid_submission m = true /\ dupe_fingerprint mv = submission_fingerprint m
  | (_, _, Some _) => valid_submission m = false
  end.
Proof.
  destruct m as [id mid title whenN when dur where_ whereN ? ? ? ? ? ? st lim
                 att spaces []].
  unfold EventType_Validate_fields, valid_submission, submission_fingerprint,
    dupe_fingerprint.
  event_fields.
  destruct (mid <=? 0); event_fields; [reflexivity|].
  destruct (String.eqb title ""); event_fields; [reflexivity|].
  destruct (String.eqb (Trim_space when) ""); event_fields;
    [|destruct (time_Parse X when); event_fields; [|reflexivity]];
    destruct (dur <? 0); event_fields;
    destruct (String.eqb where_ ""); event_fields;
    destruct (lim <? 0); event_fields;
    cbn [orb andb negb]; first [reflexivity | split; reflexivity].
Qed.

Lemma same_submission_spec m1 m2 :
  same_submission m1 m2 ->
  valid_submission m1 = valid_submission m2
  /\ submission_fingerprint m1 = submission_fingerprint m2.
Proof.
  intros (H1 & H2 & H3 & H4 & H5 & H6 & H7 & H8 & H9 & H10 & H11 & H12 & H13 & H14).
  unfold valid_submission, submission_fingerprint.
  by rewrite H1, H2, H3, H4, H5, H6, H7, H8, H9, H10, H11, H12, H13, H14.
Qed.

Lemma EventType_Validate_unfold m siteId profileId w :
  (EventType_Validate m siteId profileId false w).1
  = let m' :=
      set_e_Meta (set_m_EditReason (SanitiseText X (m_EditReason (e_Meta m)))
                    (e_Meta m))
        (set_e_Where (SanitiseText X (e_Where m))
           (set_e_Title (SanitiseText X (e_Title m)) m)) in
    match db_microcosm_summary (db w) siteId (e_MicrocosmId m) profileId with
    | (status, Some msg) => (m', status, Some msg)
    | (_, None) => EventType_Validate_fields m' false
    end.
Proof.
  unfold EventType_Validate. run_M. simpl.
  by destruct (db_microcosm_summary _ _ _ _) as [status [msg|]].
Qed.

(** Sanitising title, place and edit reason a second time (as the field
    checks see them) is accounted for in the two functions above. *)
Lemma sanitised_submission m :
  let m' :=
    set_e_Meta (set_m_EditReason (SanitiseText X (m_EditReason (e_Meta m)))
                  (e_Meta m))
      (set_e_Where (SanitiseText X (e_Where m))
         (set_e_Title (SanitiseText X (e_Title m)) m)) in
  e_MicrocosmId m' = e_MicrocosmId m
  /\ e_Title m' = SanitiseText X (e_Title m)
  /\ e_Where m' = SanitiseText X (e_Where m)
  /\ e_When m' = e_When m /\ e_WhenNullable m' = e_WhenNullable m
  /\ e_WhereNullable m' = e_WhereNullable m
  /\ e_Lat m' = e_Lat m /\ e_Lon m' = e_Lon m
  /\ e_North m' = e_North m /\ e_East m' = e_East m
  /\ e_South m' = e_South m /\ e_West m' = e_West m
  /\ e_RSVPLimit m' = e_RSVPLimit m
  /\ m_CreatedById (e_Meta m') = m_CreatedById (e_Meta m).
Proof. by destruct m as [? ? ? ? ? ? ? ? ? ? ? ? ? ? ? ? ? ? []]. Qed.

(** Validation of a new event reads the world only through the microcosm
    lookup, and two submissions of the same event validate alike. *)
Lemma EventType_Validate_same m1 m2 siteId profileId w w' mv1 status1 :
  same_submission m1 m2 ->
  db_microcosm_summary (db w') = db_microcosm_summary (db w) ->
  (EventType_Validate m1 siteId profileId false w).1 = (mv1, status1, None) ->
  exists mv2 status2,
    (EventType_Validate m2 siteId profileId false w').1 = (mv2, status2, None)
    /\ dupe_fingerprint mv2 = dupe_fingerprint mv1.
Proof.
  intros Hsame Hdb. rewrite !EventType_Validate_unfold. cbv zeta.
  assert (Hsame' : same_submission
            (set_e_Meta (set_m_EditReason (SanitiseText X (m_EditReason (e_Meta m1)))
                           (e_Meta m1))
               (set_e_Where (SanitiseText X (e_Where m1))
                  (set_e_Title (SanitiseText X (e_Title m1)) m1)))
            (set_e_Meta (set_m_EditReason (SanitiseText X (m_EditReason (e_Meta m2)))
                           (e_Meta m2))
               (set_e_Where (SanitiseText X (e_Where m2))
                  (set_e_Title (SanitiseText X (e_Title m2)) m2)))).
  { pose proof (sanitised_submission m1) as S1.
    pose proof (sanitised_submission m2) as S2.
    cbv zeta in S1, S2.
    destruct S1 as (A1 & A2 & A3 & A4 & A5 & A6 & A7 & A8 & A9 & A10 & A11 & A12 & A13 & A14).
    destruct S2 as (B1 & B2 & B3 & B4 & B5 & B6 & B7 & B8 & B9 & B10 & B11 & B12 & B13 & B14).
    destruct Hsame as (H1 & H2 & H3 & H4 & H5 & H6 & H7 & H8 & H9 & H10 & H11 & H12 & H13 & H14).
    unfold same_submission.
    rewrite A1, A2, A3, A4, A5, A6, A7, A8, A9, A10, A11, A12, A13, A14.
    rewrite B1, B2, B3, B4, B5, B6, B7, B8, B9, B10, B11, B12, B13, B14.
    rewrite H1, H2, H3, H4, H5, H6, H7, H8, H9, H10, H11, H12, H13, H14.
    repeat split. }
  destruct Hsame as (H1 & _). rewrite Hdb, <-H1.
  destruct (db_microcosm_summary (db w) siteId (e_MicrocosmId m1) profileId)
    as [status [msg|]]; [discriminate|].
  destruct (same_submission_spec _ _ Hsame') as [Hvalid Hfp].
  match goal with
  | |- EventType_Validate_fields ?a false = _ -> exists _ _, EventType_Validate_fields ?b false = _ /\ _ =>
      pose proof (EventType_Validate_fields_spec a) as Sa;
      pose proof (EventType_Validate_fields_spec b) as Sb;
      destruct (EventType_Validate_fields a false) as [[ma sa] [ea|]];
      destruct (EventType_Validate_fields b false) as [[mb sb] [eb|]]
  end; try discriminate.
  - destruct Sa as [Sa _]. congruence.
  - intros [= <- _]. destruct Sa as [_ Sa], Sb as [_ Sb].
    exists mb, sb. split; [done|]. congruence.
Qed.

Lemma purge_scope_facts s kind id w :
  cache_up (purge_scope s kind id w) = cache_up w
  /\ now (purge_scope s kind id w) = now w
  /\ db (purge_scope s kind id w) = db w
  /\ log (purge_scope s kind id w) = log w
  /\ (forall fp, cache (purge_scope s kind id w) !! KDupe fp = cache w !! KDupe fp).
Proof.
  unfold purge_scope. destruct (cache_up w) eqn:Hup; simpl; rewrite ?Hup.
  - repeat split; try done. intros fp. by rewrite lookup_delete_ne.
  - done.
Qed.

Lemma purged_facts kind id w :
  cache_up (purged kind id w) = cache_up w
  /\ now (purged kind id w) = now w
  /\ db (purged kind id w) = db w
  /\ log (purged kind id w) = log w
  /\ (forall fp, cache (purged kind id w) !! KDupe fp = cache w !! KDupe fp).
Proof.
  unfold purged, all_scopes, purge_scope. simpl.
  destruct (cache_up w) eqn:Hup; simpl; rewrite ?Hup; simpl; rewrite ?Hup;
    simpl; rewrite ?Hup; simpl; rewrite ?Hup; simpl; rewrite ?Hup; simpl.
  - repeat split; try done. intros fp. by rewrite !lookup_delete_ne.
  - done.
Qed.

(** The effects of a first, successful submission, read back from its
    result. *)
Lemma EventType_Insert_created m siteId profileId w m' w1 :
  EventType_Insert m siteId profileId w = ((m', StatusOK, None), w1) ->
  (CacheGet as_Int64 (dupeKey m') w).1 = None ->
  exists mv status,
    (EventType_Validate m siteId profileId false w).1 = (mv, status, None)
    /\ m' = set_e_Id (db_event_seq (db w)) mv
    /\ db_events (db w) !! db_event_seq (db w) = None
    /\ db_events (db w1)
       = <[db_event_seq (db w) := event_row_of (db_event_default (db w)) mv]>
           (db_events (db w))
    /\ db_microcosm_summary (db w1) = db_microcosm_summary (db w)
    /\ cache_up w1 = cache_up w
    /\ now w1 = now w
    /\ (cache_up w = true ->
        cache w1 !! dupeKey m'
        = Some {| ce_value := VInt64 (e_Id m'); ce_expires := now w + 300 |})
    /\ log w1
       = (log w ++
          [EBegin;
           EExec "INSERT INTO events" (e_Id m');
           ECall "IncrementMicrocosmItemCount" (e_MicrocosmId m');
           ECommit;
           ECacheSet (dupeKey m');
           EPurge (ItemTypes_get ItemTypeEvent) (e_Id m');
           EPurge (ItemTypes_get ItemTypeMicrocosm) (e_MicrocosmId m')])%list.
Proof.
  unfold EventType_Insert. unfold bind at 1.
  pose proof (EventType_Validate_world m siteId profileId false w) as Hw.
  destruct (EventType_Validate m siteId profileId false w) as [[[mv st] err] wv].
  simpl in Hw. subst wv.
  destruct err as [msg|]; [by intros [=]|].
  unfold tx_insert_event. run_M. simpl.
  destruct (match cache_lookup (dupeKey mv) w with
            | Some v => as_Int64 v
            | None => None
            end) as [v|] eqn:Hhit.
  { intros [= <- <-] Hmiss. unfold CacheGet, gets in Hmiss. simpl in Hmiss.
    rewrite dupeKey_set_e_Id in Hmiss. congruence. }
  destruct (db_fault (db w) GetTransaction) eqn:Htx; simpl; [by intros [=]|].
  destruct (db_fault (db w) (Sql "INSERT INTO events" (e_MicrocosmId mv)))
    eqn:Hins; simpl; [by intros [=]|].
  destruct (db_events (db w) !! db_event_seq (db w)) eqn:Hfree; simpl;
    [by intros [=]|].
  destruct (db_fault (db w) (Collab "IncrementMicrocosmItemCount" (e_MicrocosmId mv)))
    eqn:Hinc; simpl; [by intros [=]|].
  destruct (db_fault (db w) Commit) eqn:Hcommit; simpl; [by intros [=]|].
  intros [= <- <-] _.
  exists mv, st. split; [done|]. split; [done|]. split; [done|].
  repeat match goal with
         | |- context [purge_scope ?s ?k ?i ?w'] =>
             let H := fresh "Hp" in
             pose proof (purge_scope_facts s k i w') as H;
             generalize dependent (purge_scope s k i w'); intros
         | H0 : context [purge_scope ?s ?k ?i ?w'] |- _ =>
             let H := fresh "Hp" in
             pose proof (purge_scope_facts s k i w') as H;
             generalize dependent (purge_scope s k i w'); intros
         end.
  destruct_and!. unfold cache_store in *. simpl in *.
  assert (Hdb : db w1
                = with_seqs (set_db_event_seq (db_event_seq (db w) + 1) (db w))
                    (set_db_events
                       (<[db_event_seq (db w) :=
                            event_row_of (db_event_default (db w)) mv]>
                          (db_events (db w)))
                       (db w))).
  { destruct (cache_up w) eqn:Hcu; simpl in *; congruence. }
  repeat split.
  - by rewrite Hdb.
  - by rewrite Hdb.
  - destruct (cache_up w) eqn:Hcu; simpl in *; congruence.
  - destruct (cache_up w) eqn:Hcu; simpl in *; congruence.
  - intros Hup. rewrite Hup in *. simpl in *.
    rewrite dupeKey_set_e_Id. unfold dupeKey in *.
    repeat match goal with H : forall fp, _ |- _ => rewrite H; clear H end.
    rewrite lookup_insert_eq. do 3 f_equal.
  - destruct (cache_up w) eqn:Hcu; simpl in *;
      repeat match goal with H : log _ = _ |- _ => rewrite H; clear H end;
      simpl; rewrite <-!app_assoc; done.
Qed.

(** C4.  Take a first call of [EventType.Insert] that succeeds on a
    fingerprint not yet remembered, with the cache reachable.  It inserts
    one row under a fresh id and, right after the commit, remembers the
    fingerprint with a ttl of 300 seconds.  A second call with the same
    semantically significant fields, made before that ttl has run out in a
    world that still holds the remembered entry, returns [StatusOK] with the
    same event id and leaves the world exactly as it found it: no
    transaction is opened, no row is inserted. *)
Theorem duplicate_insert_is_suppressed
    (m1 m2 m1' : EventType) (siteId profileId : Z) (w w1 w2 : World) :
  cache_up w = true ->
  EventType_Insert m1 siteId profileId w = ((m1', StatusOK, None), w1) ->
  (CacheGet as_Int64 (dupeKey m1') w).1 = None ->
  same_submission m1 m2 ->
  cache_up w2 = true ->
  cache w2 !! dupeKey m1' = cache w1 !! dupeKey m1' ->
  db_microcosm_summary (db w2) = db_microcosm_summary (db w1) ->
  now w2 < now w + 300 ->
  db_events (db w) !! e_Id m1' = None
  /\ (exists row, db_events (db w1) = <[e_Id m1' := row]> (db_events (db w)))
  /\ size (db_events (db w1)) = S (size (db_events (db w)))
  /\ cache w1 !! dupeKey m1'
     = Some {| ce_value := VInt64 (e_Id m1'); ce_expires := now w + 60 * 5 |}
  /\ log w1
     = (log w ++
        [EBegin;
         EExec "INSERT INTO events" (e_Id m1');
         ECall "IncrementMicrocosmItemCount" (e_MicrocosmId m1');
         ECommit;
         ECacheSet (dupeKey m1');
         EPurge (ItemTypes_get ItemTypeEvent) (e_Id m1');
         EPurge (ItemTypes_get ItemTypeMicrocosm) (e_MicrocosmId m1')])%list
  /\ exists m2',
       EventType_Insert m2 siteId profileId w2 = ((m2', StatusOK, None), w2)
       /\ e_Id m2' = e_Id m1'.
Proof.
  intros Hup H1 Hmiss Hsame Hup2 Hkept Hmc2 Ht2.
  destruct (EventType_Insert_created _ _ _ _ _ _ H1 Hmiss)
    as (mv & st & Hv & -> & Hfree & Hrows & Hmc & Hup1 & Hnow1 & Hcache & Hlog).
  specialize (Hcache Hup).
  split; [done|]. split; [eauto|].
  split; [rewrite Hrows; by apply map_size_insert_None|].
  split; [done|]. split; [done|].
  rewrite Hmc in Hmc2.
  destruct (EventType_Validate_same m1 m2 siteId profileId w w2 mv st
              Hsame Hmc2 Hv) as (mv2 & st2 & Hv2 & Hfp).
  assert (Hkey : dupeKey mv2 = dupeKey (set_e_Id (db_event_seq (db w)) mv)).
  { rewrite dupeKey_set_e_Id. unfold dupeKey. by rewrite Hfp. }
  exists (set_e_Id (db_event_seq (db w)) mv2). split; [|done].
  unfold EventType_Insert. unfold bind at 1.
  pose proof (EventType_Validate_world m2 siteId profileId false w2) as Hw.
  destruct (EventType_Validate m2 siteId profileId false w2)
    as [[[mv2' st2'] err] wv].
  simpl in Hw, Hv2. subst wv. injection Hv2 as -> -> ->.
  run_M. unfold cache_lookup. simpl. rewrite Hup2, Hkey, Hkept, Hcache. simpl.
  destruct (Z.ltb_spec (now w2) (now w + 300)); [done|lia].
Qed.

(** ** Purge after commit *)

Lemma new_effects_app w w' l :
  log w' = (log w ++ l)%list -> new_effects w w' = l.
Proof. intros H. unfold new_effects. rewrite H. apply drop_app_length. Qed.

Lemma new_effects_same w w' : log w' = log w -> new_effects w w' = [].
Proof. intros H. unfold new_effects. rewrite H. apply drop_all. Qed.

Lemma commit_then_none after tr :
  ECommit ∉ tr -> no_purge tr -> commit_then after tr.
Proof. intros. right. done. Qed.

Lemma commit_then_some after pre :
  ECommit ∉ pre -> no_purge pre ->
  commit_then after (pre ++ ECommit :: after).
Proof. intros. left. exists pre. done. Qed.

(** Settles [commit_then] on an explicit trace. *)
Ltac solve_trace :=
  first
    [ apply commit_then_none;
      [ rewrite ?elem_of_cons, ?elem_of_nil; intuition discriminate
      | repeat constructor ]
    | match goal with
      | |- commit_then ?after ?tr =>
          let pre := eval simpl in (take (length tr - S (length after)) tr) in
          change tr with (pre ++ ECommit :: after)%list;
          apply commit_then_some;
          [ rewrite ?elem_of_cons, ?elem_of_nil; intuition discriminate
          | repeat constructor ]
      end ].

Lemma PurgeCache_run kind id w :
  PurgeCache kind id w = (tt, emit (EPurge kind id) (purged kind id w)).
Proof. done. Qed.

Lemma log_purged kind id w : log (purged kind id w) = log w.
Proof. apply purged_facts. Qed.

Lemma db_purged kind id w : db (purged kind id w) = db w.
Proof. apply purged_facts. Qed.

Lemma log_emit e w : log (emit e w) = (log w ++ [e])%list.
Proof. done. Qed.

Lemma log_purge_scope s kind id w : log (purge_scope s kind id w) = log w.
Proof. unfold purge_scope. by destruct (cache_up w). Qed.

Lemma log_cache_store k v ttl w : log (cache_store k v ttl w) = log w.
Proof. unfold cache_store. by destruct (cache_up w). Qed.

(** Reads the log of a world built by the primitives off its construction. *)
Ltac log_norm :=
  simpl;
  repeat (progress
            (rewrite ?log_emit, ?log_purged, ?log_purge_scope,
               ?log_cache_store; simpl)).

(** Brings the log of the final world into the form [log w ++ trace]. *)
Ltac trace_of_run :=
  first
    [ rewrite new_effects_same; [| simpl; reflexivity ]
    | erewrite new_effects_app;
      [| log_norm; rewrite <-?app_assoc; simpl; reflexivity ] ].

Lemma ProfileType_Update_trace m w :
  commit_then
    [EPurge (ItemTypes_get ItemTypeProfile) (p_Id (ProfileType_Update m w).1.1.1)]
    (new_effects w (ProfileType_Update m w).2)
  /\ ((ProfileType_Update m w).1.2 <> None ->
      ECommit ∉ new_effects w (ProfileType_Update m w).2).
Proof.
  unfold ProfileType_Update, ProfileType_Validate.
  cbv beta iota zeta delta
    [bind ret gets modify fault h_GetConnection h_GetTransaction
     tx_Exec tx_Commit tx_Rollback].
  destruct (db_profile_validate (db w) m true) as [[mv st] [msg|]]; simpl.
  { split; [trace_of_run; solve_trace|]. intros _. trace_of_run. by intros ?%elem_of_nil. }
  rewrite ?PurgeCache_run.
  split_faults; rewrite ?PurgeCache_run; simpl;
    (split; [trace_of_run; solve_trace|]);
    try (intros _; trace_of_run;
         rewrite ?elem_of_cons, ?elem_of_nil; intuition discriminate);
    intros H; by destruct H.
Qed.

Lemma UpdateLastActive_trace profileId lastActive w :
  commit_then
    [EPurgeScope CacheDetail (ItemTypes_get ItemTypeProfile) profileId]
    (new_effects w (UpdateLastActive profileId lastActive w).2)
  /\ ((UpdateLastActive profileId lastActive w).1.2 <> None ->
      ECommit ∉ new_effects w (UpdateLastActive profileId lastActive w).2).
Proof.
  unfold UpdateLastActive. run_M. simpl.
  split_faults;
    (split; [trace_of_run; solve_trace|]);
    try (intros _; trace_of_run;
         rewrite ?elem_of_cons, ?elem_of_nil; intuition discriminate);
    intros H; by destruct H.
Qed.

Lemma EventType_Insert_trace m siteId profileId w :
  commit_then
    [ECacheSet (dupeKey (EventType_Insert m siteId profileId w).1.1.1);
     EPurge (ItemTypes_get ItemTypeEvent)
            (e_Id (EventType_Insert m siteId profileId w).1.1.1);
     EPurge (ItemTypes_get ItemTypeMicrocosm)
            (e_MicrocosmId (EventType_Insert m siteId profileId w).1.1.1)]
    (new_effects w (EventType_Insert m siteId profileId w).2)
  /\ ((EventType_Insert m siteId profileId w).1.2 <> None ->
      ECommit ∉ new_effects w (EventType_Insert m siteId profileId w).2).
Proof.
  unfold EventType_Insert. rewrite bind_run.
  pose proof (EventType_Validate_world m siteId profileId false w) as Hw.
  destruct (EventType_Validate m siteId profileId false w) as [[[mv st] err] wv].
  simpl in Hw. subst wv.
  destruct err as [msg|].
  { split; [trace_of_run; solve_trace|]. intros _. trace_of_run. by intros ?%elem_of_nil. }
  cbv beta iota zeta delta
    [bind ret gets modify fault h_GetConnection h_GetTransaction
     tx_Exec tx_Commit tx_Rollback tx_collab tx_insert_event
     CacheGet CacheSet CacheGetInt64 CacheSetInt64].
  simpl.
  destruct (match cache_lookup (dupeKey mv) w with
            | Some v => as_Int64 v
            | None => None
            end) as [v|]; simpl.
  { split; [trace_of_run; solve_trace|]. intros H. by destruct H. }
  destruct (db_fault (db w) GetTransaction); simpl.
  { split; [trace_of_run; solve_trace|]. intros _. trace_of_run. by intros ?%elem_of_nil. }
  destruct (db_fault (db w) (Sql "INSERT INTO events" (e_MicrocosmId mv))); simpl.
  { split; [trace_of_run; solve_trace|]. intros _. trace_of_run.
    rewrite ?elem_of_cons, ?elem_of_nil; intuition discriminate. }
  destruct (db_events (db w) !! db_event_seq (db w)); simpl.
  { split; [trace_of_run; solve_trace|]. intros _. trace_of_run.
    rewrite ?elem_of_cons, ?elem_of_nil; intuition discriminate. }
  destruct (db_fault (db w) (Collab "IncrementMicrocosmItemCount" (e_MicrocosmId mv)));
    simpl.
  { split; [trace_of_run; solve_trace|]. intros _. trace_of_run.
    rewrite ?elem_of_cons, ?elem_of_nil; intuition discriminate. }
  destruct (db_fault (db w) Commit); simpl.
  { split; [trace_of_run; solve_trace|]. intros _. trace_of_run.
    rewrite ?elem_of_cons, ?elem_of_nil; intuition discriminate. }
  rewrite ?PurgeCache_run. simpl.
  split; [trace_of_run; solve_trace|]. intros H. by destruct H.
Qed.

Lemma EventType_Update_trace m siteId profileId w :
  commit_then
    [EPurge (ItemTypes_get ItemTypeEvent)
            (e_Id (EventType_Update m siteId profileId w).1.1.1);
     EPurge (ItemTypes_get ItemTypeMicrocosm)
            (e_MicrocosmId (EventType_Update m siteId profileId w).1.1.1)]
    (new_effects w (EventType_Update m siteId profileId w).2)
  /\ ((EventType_Update m siteId profileId w).1.2 <> None ->
      ECommit ∉ new_effects w (EventType_Update m siteId profileId w).2).
Proof.
  unfold EventType_Update. rewrite bind_run.
  pose proof (EventType_Validate_world m siteId profileId true w) as Hw.
  destruct (EventType_Validate m siteId profileId true w) as [[[mv st] err] wv].
  simpl in Hw. subst wv.
  destruct err as [msg|].
  { split; [trace_of_run; solve_trace|]. intros _. trace_of_run. by intros ?%elem_of_nil. }
  unfold EventType_UpdateAttendees.
  cbv beta iota zeta delta
    [bind ret gets modify fault h_GetConnection h_GetTransaction
     tx_Exec tx_Commit tx_Rollback tx_collab].
  simpl.
  split_faults; rewrite ?PurgeCache_run; simpl;
    (split; [trace_of_run; solve_trace|]);
    try (intros _; trace_of_run;
         rewrite ?elem_of_cons, ?elem_of_nil; intuition discriminate);
    intros H; by destruct H.
Qed.

Lemma EventType_Delete_trace m w :
  commit_then
    [EPurge (ItemTypes_get ItemTypeEvent) (e_Id m);
     EPurge (ItemTypes_get ItemTypeMicrocosm) (e_MicrocosmId m)]
    (new_effects w (EventType_Delete m w).2)
  /\ ((EventType_Delete m w).1.2 <> None ->
      ECommit ∉ new_effects w (EventType_Delete m w).2).
Proof.
  unfold EventType_Delete.
  cbv beta iota zeta delta
    [bind ret gets modify fault h_GetConnection h_GetTransaction
     tx_Exec tx_Commit tx_Rollback tx_collab].
  simpl.
  split_faults; rewrite ?PurgeCache_run; simpl;
    (split; [trace_of_run; solve_trace|]);
    try (intros _; trace_of_run;
         rewrite ?elem_of_cons, ?elem_of_nil; intuition discriminate);
    intros H; by destruct H.
Qed.

(** The patch loop only runs statements; it neither commits nor purges, and
    it leaves the store and the identity of the event alone. *)
Lemma EventType_Patch_loop_trace acProfileId patches m w :
  exists l,
    log (EventType_Patch_loop acProfileId patches m w).2 = (log w ++ l)%list
    /\ Forall is_exec l
    /\ db (EventType_Patch_loop acProfileId patches m w).2 = db w
    /\ e_Id (EventType_Patch_loop acProfileId patches m w).1.1.1 = e_Id m
    /\ e_MicrocosmId (EventType_Patch_loop acProfileId patches m w).1.1.1
       = e_MicrocosmId m.
Proof.
  revert m w. induction patches as [|patch rest IH]; intros m w.
  - exists []. simpl. by rewrite app_nil_r.
  - simpl. rewrite bind_run.
    assert (Hone : exists l1,
               log (EventType_Patch_one acProfileId patch m w).2 = (log w ++ l1)%list
               /\ Forall is_exec l1
               /\ db (EventType_Patch_one acProfileId patch m w).2 = db w
               /\ e_Id (EventType_Patch_one acProfileId patch m w).1.1.1 = e_Id m
               /\ e_MicrocosmId (EventType_Patch_one acProfileId patch m w).1.1.1
                  = e_MicrocosmId m).
    { unfold EventType_Patch_one. run_M. simpl.
      repeat (match goal with
              | |- context [if String.eqb ?a ?b then _ else _] =>
                  destruct (String.eqb a b); simpl
              end);
        split_faults;
        first [ exists []; simpl; rewrite app_nil_r; done
              | eexists [_]; simpl; repeat split;
                repeat constructor; unfold is_exec; eauto ]. }
    destruct (EventType_Patch_one acProfileId patch m w) as [[[m1 st] err] w1].
    destruct Hone as (l1 & Hl1 & Hex1 & Hdb1 & Hid1 & Hmc1). simpl in *.
    destruct err as [msg|]; simpl.
    + exists l1. done.
    + destruct (IH m1 w1) as (l2 & Hl2 & Hex2 & Hdb2 & Hid2 & Hmc2).
      exists (l1 ++ l2)%list. rewrite Hl2, Hl1, Hdb2, Hid2, Hmc2.
      rewrite app_assoc. repeat split; try done. by apply Forall_app.
Qed.

Lemma is_exec_not_commit l : Forall is_exec l -> ECommit ∉ l.
Proof.
  intros Hl Hin. rewrite Forall_forall in Hl.
  destruct (Hl _ Hin) as (? & ? & [=]).
Qed.

Lemma is_exec_no_purge l : Forall is_exec l -> no_purge l.
Proof.
  unfold no_purge. intros Hl. eapply Forall_impl; [exact Hl|].
  by intros e (? & ? & ->).
Qed.

Lemma EventType_Patch_trace m acProfileId patches w :
  commit_then
    [EPurge (ItemTypes_get ItemTypeEvent) (e_Id m);
     EPurge (ItemTypes_get ItemTypeMicrocosm) (e_MicrocosmId m)]
    (new_effects w (EventType_Patch m acProfileId patches w).2)
  /\ ((EventType_Patch m acProfileId patches w).1.2 <> None ->
      ECommit ∉ new_effects w (EventType_Patch m acProfileId patches w).2).
Proof.
  unfold EventType_Patch. rewrite bind_run.
  unfold h_GetTransaction. run_M. simpl.
  destruct (db_fault (db w) GetTransaction); simpl.
  { split; [trace_of_run; solve_trace|]. intros _. trace_of_run. by intros ?%elem_of_nil. }
  destruct (EventType_Patch_loop_trace acProfileId patches m (emit EBegin w))
    as (l & Hl & Hex & Hdb & Hid & Hmc).
  destruct (EventType_Patch_loop acProfileId patches m (emit EBegin w))
    as [[[m1 st] err] w1].
  simpl in *. subst.
  pose proof (is_exec_not_commit l Hex) as Hnc.
  pose proof (is_exec_no_purge l Hex) as Hnp.
  destruct err as [msg|]; simpl.
  - split.
    + erewrite new_effects_app
        by (simpl; rewrite Hl; rewrite <-!app_assoc; simpl; reflexivity).
      apply commit_then_none.
      * rewrite elem_of_cons, elem_of_app, list_elem_of_singleton.
        intuition discriminate.
      * constructor; [done|]. apply Forall_app. split; [done|by repeat constructor].
    + intros _.
      erewrite new_effects_app
        by (simpl; rewrite Hl; rewrite <-!app_assoc; simpl; reflexivity).
      rewrite elem_of_cons, elem_of_app, list_elem_of_singleton.
        intuition discriminate.
  - rewrite Hdb. destruct (db_fault (db w) Commit); simpl.
    + split.
      * erewrite new_effects_app
          by (simpl; rewrite Hl; rewrite <-!app_assoc; simpl; reflexivity).
        apply commit_then_none.
        -- rewrite elem_of_cons, elem_of_app, list_elem_of_singleton.
        intuition discriminate.
        -- constructor; [done|]. apply Forall_app.
           split; [done|by repeat constructor].
      * intros _.
        erewrite new_effects_app
          by (simpl; rewrite Hl; rewrite <-!app_assoc; simpl; reflexivity).
        rewrite elem_of_cons, elem_of_app, list_elem_of_singleton.
        intuition discriminate.
    + rewrite ?PurgeCache_run. simpl. rewrite Hid, Hmc. split; [|intros H; by destruct H].
      erewrite new_effects_app
        by (log_norm; rewrite Hl; rewrite <-!app_assoc; simpl; reflexivity).
      change (EBegin :: l ++ ECommit :: ?after)%list
        with ((EBegin :: l) ++ ECommit :: after)%list.
      apply commit_then_some.
      * rewrite elem_of_cons. by intros [[=]|?].
      * constructor; done.
Qed.

Lemma CommentCount_trace profileId w :
  statement_then "--Update Profile Comment Count +1" profileId
    [EPurgeScope CacheDetail (ItemTypes_get ItemTypeProfile) profileId]
    (new_effects w (IncrementProfileCommentCount profileId w).2)
  /\ statement_then "--Update Profile Comment Count -1" profileId
       [EPurgeScope CacheDetail (ItemTypes_get ItemTypeProfile) profileId]
       (new_effects w (DecrementProfileCommentCount profileId w).2).
Proof.
  unfold IncrementProfileCommentCount, DecrementProfileCommentCount.
  run_M. simpl. unfold statement_then.
  split_faults; split; trace_of_run; auto.
Qed.

Lemma commit_then_iff after tr :
  commit_then after tr ->
  Exists (fun e => is_purge e = true) after ->
  (ECommit ∈ tr <-> Exists (fun e => is_purge e = true) tr).
Proof.
  intros [(pre & -> & Hnc & Hnp)|[Hnc Hnp]] Hafter.
  - split; intros _.
    + apply Exists_app. right. by apply Exists_cons_tl.
    + apply elem_of_app. right. by left.
  - split; [done|]. intros Hex. exfalso.
    apply Exists_exists in Hex as (e & He & Hp).
    unfold no_purge in Hnp. rewrite Forall_forall in Hnp.
    specialize (Hnp e He). congruence.
Qed.

(** C7 (as amended).  [ProfileType.Update], [UpdateLastActive],
    [EventType.Insert], [EventType.Update], [EventType.Patch] and
    [EventType.Delete] purge the entity's cache entries if and only if their
    transaction commits successfully, and they do it right after the commit
    ([EventType.Insert] first remembers the dupe key, then purges): the
    effects of a call either end with the successful commit followed by the
    purge, with no purge before it, or contain neither a successful commit
    nor a purge.  A call that returns an error has not committed, hence not
    purged.  The two comment-count updates run one statement outside a
    transaction and purge the detail scope exactly when that statement
    succeeded. *)
Theorem purge_follows_commit (w : World) :
  (forall m : ProfileType,
      commit_then
        [EPurge (ItemTypes_get ItemTypeProfile) (p_Id (ProfileType_Update m w).1.1.1)]
        (new_effects w (ProfileType_Update m w).2)
      /\ (ECommit ∈ new_effects w (ProfileType_Update m w).2
          <-> Exists (fun e => is_purge e = true)
                     (new_effects w (ProfileType_Update m w).2))
      /\ ((ProfileType_Update m w).1.2 <> None ->
          ECommit ∉ new_effects w (ProfileType_Update m w).2))
  /\ (forall profileId lastActive : Z,
      commit_then
        [EPurgeScope CacheDetail (ItemTypes_get ItemTypeProfile) profileId]
        (new_effects w (UpdateLastActive profileId lastActive w).2)
      /\ (ECommit ∈ new_effects w (UpdateLastActive profileId lastActive w).2
          <-> Exists (fun e => is_purge e = true)
                     (new_effects w (UpdateLastActive profileId lastActive w).2))
      /\ ((UpdateLastActive profileId lastActive w).1.2 <> None ->
          ECommit ∉ new_effects w (UpdateLastActive profileId lastActive w).2))
  /\ (forall (m : EventType) (siteId profileId : Z),
      commit_then
        [ECacheSet (dupeKey (EventType_Insert m siteId profileId w).1.1.1);
         EPurge (ItemTypes_get ItemTypeEvent)
                (e_Id (EventType_Insert m siteId profileId w).1.1.1);
         EPurge (ItemTypes_get ItemTypeMicrocosm)
                (e_MicrocosmId (EventType_Insert m siteId profileId w).1.1.1)]
        (new_effects w (EventType_Insert m siteId profileId w).2)
      /\ (ECommit ∈ new_effects w (EventType_Insert m siteId profileId w).2
          <-> Exists (fun e => is_purge e = true)
                     (new_effects w (EventType_Insert m siteId profileId w).2))
      /\ ((EventType_Insert m siteId profileId w).1.2 <> None ->
          ECommit ∉ new_effects w (EventType_Insert m siteId profileId w).2))
  /\ (forall (m : EventType) (siteId profileId : Z),
      commit_then
        [EPurge (ItemTypes_get ItemTypeEvent)
                (e_Id (EventType_Update m siteId profileId w).1.1.1);
         EPurge (ItemTypes_get ItemTypeMicrocosm)
                (e_MicrocosmId (EventType_Update m siteId profileId w).1.1.1)]
        (new_effects w (EventType_Update m siteId profileId w).2)
      /\ (ECommit ∈ new_effects w (EventType_Update m siteId profileId w).2
          <-> Exists (fun e => is_purge e = true)
                     (new_effects w (EventType_Update m siteId profileId w).2))
      /\ ((EventType_Update m siteId profileId w).1.2 <> None ->
          ECommit ∉ new_effects w (EventType_Update m siteId profileId w).2))
  /\ (forall (m : EventType) (acProfileId : Z) (patches : list PatchType),
      commit_then
        [EPurge (ItemTypes_get ItemTypeEvent) (e_Id m);
         EPurge (ItemTypes_get ItemTypeMicrocosm) (e_MicrocosmId m)]
        (new_effects w (EventType_Patch m acProfileId patches w).2)
      /\ (ECommit ∈ new_effects w (EventType_Patch m acProfileId patches w).2
          <-> Exists (fun e => is_purge e = true)
                     (new_effects w (EventType_Patch m acProfileId patches w).2))
      /\ ((EventType_Patch m acProfileId patches w).1.2 <> None ->
          ECommit ∉ new_effects w (EventType_Patch m acProfileId patches w).2))
  /\ (forall m : EventType,
      commit_then
        [EPurge (ItemTypes_get ItemTypeEvent) (e_Id m);
         EPurge (ItemTypes_get ItemTypeMicrocosm) (e_MicrocosmId m)]
        (new_effects w (EventType_Delete m w).2)
      /\ (ECommit ∈ new_effects w (EventType_Delete m w).2
          <-> Exists (fun e => is_purge e = true)
                     (new_effects w (EventType_Delete m w).2))
      /\ ((EventType_Delete m w).1.2 <> None ->
          ECommit ∉ new_effects w (EventType_Delete m w).2))
  /\ (forall profileId : Z,
      statement_then "--Update Profile Comment Count +1" profileId
        [EPurgeScope CacheDetail (ItemTypes_get ItemTypeProfile) profileId]
        (new_effects w (IncrementProfileCommentCount profileId w).2)
      /\ statement_then "--Update Profile Comment Count -1" profileId
           [EPurgeScope CacheDetail (ItemTypes_get ItemTypeProfile) profileId]
           (new_effects w (DecrementProfileCommentCount profileId w).2)).
Proof.
  repeat split;
    first
      [ apply ProfileType_Update_trace
      | apply UpdateLastActive_trace
      | apply EventType_Insert_trace
      | apply EventType_Update_trace
      | apply EventType_Patch_trace
      | apply EventType_Delete_trace
      | apply CommentCount_trace
      | apply (commit_then_iff _ _ (proj1 (ProfileType_Update_trace _ _)));
        repeat constructor
      | apply (commit_then_iff _ _ (proj1 (UpdateLastActive_trace _ _ _)));
        repeat constructor
      | apply (commit_then_iff _ _ (proj1 (EventType_Insert_trace _ _ _ _)));
        apply Exists_cons_tl; repeat constructor
      | apply (commit_then_iff _ _ (proj1 (EventType_Update_trace _ _ _ _)));
        repeat constructor
      | apply (commit_then_iff _ _ (proj1 (EventType_Patch_trace _ _ _ _)));
        repeat constructor
      | apply (commit_then_iff _ _ (proj1 (EventType_Delete_trace _ _)));
        repeat constructor ].
Qed.

(** * Further properties of the model layer *)

(** ** Reading profiles *)

Lemma GetProfileSummary_site siteId id w m status :
  (GetProfileSummary siteId id w).1 = (m, status, None) ->
  ps_SiteId m = siteId /\ status = StatusOK /\ id <> 0.
Proof.
  rewrite GetProfileSummary_unfold.
  destruct (Z.eqb_spec id 0); [done|].
  destruct (summary_hit id w) as [m'|].
  { destruct (Z.eqb_spec (ps_SiteId m') siteId); simpl; [|done].
    by intros [= <- <-]. }
  destruct (db_fault (db w) GetConnection); [done|].
  unfold select_profile.
  destruct (db_fault (db w) (Sql _ id)); [done|].
  destruct (db_profiles (db w) !! id) as [r|]; [|done].
  destruct (Z.eqb_spec (pr_site_id r) siteId); [|done].
  simpl. by intros [= <- <-].
Qed.

(** X1.  Whatever the cache and the store hold, a profile or profile summary
    that [GetProfile] or [GetProfileSummary] returns without error belongs
    to the site that was asked for, and comes with status 200. *)
Theorem profile_reads_stay_in_site (siteId id : Z) (w : World) :
  (forall m status,
      (GetProfileSummary siteId id w).1 = (m, status, None) ->
      ps_SiteId m = siteId /\ status = StatusOK)
  /\ (forall m status,
      (GetProfile siteId id w).1 = (m, status, None) ->
      p_SiteId m = siteId /\ status = StatusOK).
Proof.
  split.
  - intros m status H. by destruct (GetProfileSummary_site _ _ _ _ _ H) as (? & ? & _).
  - intros m status. unfold GetProfile.
    destruct (Z.eqb_spec id 0); [done|].
    run_M. simpl.
    destruct (match cache_lookup _ w with Some v => as_Profile v | None => None end)
      as [m'|].
    { destruct (Z.eqb_spec (p_SiteId m') siteId); simpl; [|done].
      by intros [= <- <-]. }
    destruct (db_fault (db w) GetConnection); [done|]. simpl.
    unfold select_profile.
    destruct (db_fault (db w) (Sql _ id)); [done|].
    destruct (db_profiles (db w) !! id) as [r|]; [|done].
    destruct (Z.eqb_spec (pr_site_id r) siteId); [|done]. simpl.
    destruct (0 <? db_profile_comment_id (db w) id); simpl.
    + destruct (db_comment_summary _ _ _) as [[c st] [msg|]]; [done|].
      simpl. by intros [= <- <-].
    + by intros [= <- <-].
Qed.

(** X2.  Once [GetProfileSummary] has answered without error and the cache
    is reachable with a positive ttl, asking again at once gives the same
    summary with status 200 and changes nothing, whatever has become of the
    store in the meantime: the second answer comes from the cache alone. *)
Theorem GetProfileSummary_again_is_served_from_cache
    (siteId id : Z) (w : World) (m : ProfileSummaryType) (status : Z) (d : Db) :
  cache_up w = true -> 0 < mcTtl X ->
  (GetProfileSummary siteId id w).1 = (m, status, None) ->
  GetProfileSummary siteId id (set_db d (GetProfileSummary siteId id w).2)
  = ((m, StatusOK, None), set_db d (GetProfileSummary siteId id w).2).
Proof.
  intros Hup Httl H.
  destruct (GetProfileSummary_site _ _ _ _ _ H) as (Hsite & _ & Hid).
  pose proof (GetProfileSummary_caches _ _ _ _ _ Hup Httl H) as Hhit.
  rewrite GetProfileSummary_unfold.
  destruct (Z.eqb_spec id 0); [done|].
  change (summary_hit id (set_db d (GetProfileSummary siteId id w).2))
    with (summary_hit id (GetProfileSummary siteId id w).2).
  rewrite Hhit, Hsite, Z.eqb_refl. done.
Qed.

(** ** Read paths never write the store *)

Lemma reads_only_refl w : reads_only w w.
Proof.
  split; [done|]. split; [done|]. split; [done|].
  exists []. by rewrite app_nil_r.
Qed.

Lemma reads_only_trans w1 w2 w3 :
  reads_only w1 w2 -> reads_only w2 w3 -> reads_only w1 w3.
Proof.
  intros (Hd1 & Hn1 & Hu1 & l1 & Hl1 & Hf1) (Hd2 & Hn2 & Hu2 & l2 & Hl2 & Hf2).
  split; [congruence|]. split; [congruence|]. split; [congruence|].
  exists (l1 ++ l2)%list. split; [by rewrite Hl2, Hl1, app_assoc|by apply Forall_app].
Qed.

Lemma reads_only_store k v ttl w :
  reads_only w (emit (ECacheSet k) (cache_store k v ttl w)).
Proof.
  unfold reads_only, cache_store.
  destruct (cache_up w) eqn:Hup; simpl; rewrite ?Hup;
    (split; [done|]; split; [done|]; split; [done|];
     exists [ECacheSet k]; split; [done|]; repeat constructor; by exists k).
Qed.

Create HintDb reads.
#[local] Hint Resolve reads_only_refl reads_only_store : reads.

Lemma GetProfileSummary_reads_only siteId id w :
  reads_only w (GetProfileSummary siteId id w).2.
Proof.
  rewrite GetProfileSummary_unfold.
  destruct (id =? 0); [auto with reads|].
  destruct (summary_hit id w) as [m'|]; [destruct (negb _); auto with reads|].
  destruct (db_fault (db w) GetConnection); [auto with reads|].
  destruct (select_profile _ siteId id (db w)); simpl; auto with reads.
Qed.

Lemma GetProfile_reads_only siteId id w :
  reads_only w (GetProfile siteId id w).2.
Proof.
  unfold GetProfile. destruct (id =? 0); [apply reads_only_refl|].
  run_M. simpl.
  destruct (match cache_lookup _ w with Some v => as_Profile v | None => None end)
    as [m'|]; [destruct (negb _); apply reads_only_refl|].
  destruct (db_fault (db w) GetConnection); [apply reads_only_refl|]. simpl.
  destruct (select_profile _ siteId id (db w)); simpl; try apply reads_only_refl.
  destruct (0 <? db_profile_comment_id (db w) id); simpl.
  - destruct (db_comment_summary _ _ _) as [[c st] [msg|]]; simpl;
      auto with reads.
  - auto with reads.
Qed.

Lemma IsAttending_reads_only profileId eventId w :
  reads_only w (IsAttending profileId eventId w).2.
Proof.
  unfold IsAttending.
  destruct ((profileId =? 0) || (eventId =? 0)); [apply reads_only_refl|].
  run_M. simpl.
  destruct (match cache_lookup _ w with Some v => as_Int64Slice v | None => None end)
    as [l|]; simpl; [apply reads_only_refl|].
  destruct (db_fault (db w) GetConnection); [apply reads_only_refl|]. simpl.
  destruct (db_fault (db w) (Sql _ eventId)); simpl; auto with reads.
Qed.

Lemma EventType_GetAttending_reads_only m profileId w :
  reads_only w (EventType_GetAttending m profileId w).2.
Proof.
  unfold EventType_GetAttending.
  destruct (profileId =? 0); [apply reads_only_refl|].
  rewrite bind_run.
  pose proof (IsAttending_reads_only profileId (e_Id m) w) as H.
  destruct (IsAttending profileId (e_Id m) w) as [[a [msg|]] w1]; exact H.
Qed.

Lemma EventSummaryType_GetAttending_reads_only m profileId w :
  reads_only w (EventSummaryType_GetAttending m profileId w).2.
Proof.
  unfold EventSummaryType_GetAttending.
  destruct (profileId =? 0); [apply reads_only_refl|].
  rewrite bind_run.
  pose proof (IsAttending_reads_only profileId (es_Id m) w) as H.
  destruct (IsAttending profileId (es_Id m) w) as [[a [msg|]] w1]; exact H.
Qed.

Lemma EventType_FetchProfileSummaries_reads_only m siteId w :
  reads_only w (EventType_FetchProfileSummaries m siteId w).2.
Proof.
  unfold EventType_FetchProfileSummaries. rewrite bind_run.
  pose proof (GetProfileSummary_reads_only siteId (m_CreatedById (e_Meta m)) w) as H1.
  destruct (GetProfileSummary siteId (m_CreatedById (e_Meta m)) w)
    as [[[p st] [msg|]] w1]; [exact H1|].
  simpl in *.
  destruct (m_EditedByNullable (e_Meta m)) as [editedBy|]; [|exact H1].
  rewrite bind_run.
  pose proof (GetProfileSummary_reads_only siteId editedBy w1) as H2.
  destruct (GetProfileSummary siteId editedBy w1) as [[[p2 st2] [msg|]] w2];
    simpl in *; by eapply reads_only_trans.
Qed.

Lemma EventSummaryType_FetchProfileSummaries_reads_only m siteId w :
  reads_only w (EventSummaryType_FetchProfileSummaries m siteId w).2.
Proof.
  unfold EventSummaryType_FetchProfileSummaries. rewrite bind_run.
  pose proof (GetProfileSummary_reads_only siteId (m_CreatedById (es_Meta m)) w) as H1.
  destruct (GetProfileSummary siteId (m_CreatedById (es_Meta m)) w)
    as [[[p st] [msg|]] w1]; [exact H1|].
  simpl in *.
  destruct (es_LastComment m) as [lc|]; [|exact H1].
  rewrite bind_run.
  pose proof (GetProfileSummary_reads_only siteId (lc_CreatedById lc) w1) as H2.
  destruct (GetProfileSummary siteId (lc_CreatedById lc) w1) as [[[p2 st2] [msg|]] w2];
    simpl in *; by eapply reads_only_trans.
Qed.

Lemma GetEvent_finish_reads_only m siteId profileId okStatus w :
  reads_only w (GetEvent_finish m siteId profileId okStatus w).2.
Proof.
  unfold GetEvent_finish. rewrite bind_run.
  pose proof (EventType_FetchProfileSummaries_reads_only m siteId w) as H1.
  destruct (EventType_FetchProfileSummaries m siteId w) as [[[m1 st] [msg|]] w1];
    [exact H1|].
  rewrite bind_run.
  pose proof (EventType_GetAttending_reads_only m1 profileId w1) as H2.
  destruct (EventType_GetAttending m1 profileId w1) as [[[m2 st2] [msg|]] w2];
    simpl in *; by eapply reads_only_trans.
Qed.

Lemma GetEventSummary_finish_reads_only m siteId profileId w :
  reads_only w (GetEventSummary_finish m siteId profileId w).2.
Proof.
  unfold GetEventSummary_finish. rewrite bind_run.
  pose proof (EventSummaryType_FetchProfileSummaries_reads_only m siteId w) as H1.
  destruct (EventSummaryType_FetchProfileSummaries m siteId w)
    as [[[m1 st] [msg|]] w1]; [exact H1|].
  rewrite bind_run.
  pose proof (EventSummaryType_GetAttending_reads_only m1 profileId w1) as H2.
  destruct (EventSummaryType_GetAttending m1 profileId w1) as [[[m2 st2] [msg|]] w2];
    simpl in *; by eapply reads_only_trans.
Qed.

Lemma GetEvent_reads_only siteId id profileId w :
  reads_only w (GetEvent siteId id profileId w).2.
Proof.
  unfold GetEvent. destruct (id =? 0); [apply reads_only_refl|].
  rewrite bind_run. unfold CacheGet at 1, gets at 1.
  destruct (match cache_lookup _ w with Some v => as_Event v | None => None end)
    as [m|]; [apply GetEvent_finish_reads_only|].
  rewrite bind_run. unfold h_GetConnection, fault, gets at 1.
  destruct (db_fault (db w) GetConnection); [apply reads_only_refl|].
  rewrite bind_run. unfold gets at 1.
  destruct (select_event id siteId (db w)) as [e| |msg]; try apply reads_only_refl.
  rewrite bind_run. unfold gets at 1.
  rewrite bind_run. unfold CacheSet, modify.
  eapply reads_only_trans; [apply reads_only_store|apply GetEvent_finish_reads_only].
Qed.

Lemma GetEventSummary_reads_only siteId id profileId w :
  reads_only w (GetEventSummary siteId id profileId w).2.
Proof.
  unfold GetEventSummary. destruct (id =? 0); [apply reads_only_refl|].
  rewrite bind_run. unfold CacheGet at 1, gets at 1.
  destruct (match cache_lookup _ w with Some v => as_EventSummary v | None => None end)
    as [m|]; [apply GetEventSummary_finish_reads_only|].
  rewrite bind_run. unfold h_GetConnection, fault, gets at 1.
  destruct (db_fault (db w) GetConnection); [apply reads_only_refl|].
  rewrite bind_run. unfold gets at 1.
  destruct (select_event_summary id (db w)) as [e| |msg]; try apply reads_only_refl.
  rewrite bind_run. unfold gets at 1.
  destruct (db_last_comment (db w) (ItemTypes_get ItemTypeEvent) id)
    as [[lc st] [msg|]]; [apply reads_only_refl|].
  rewrite bind_run. unfold gets at 1.
  rewrite bind_run. unfold CacheSet, modify.
  eapply reads_only_trans; [apply reads_only_store|apply GetEventSummary_finish_reads_only].
Qed.

Lemma GetEvents_rows_reads_only scan_fault siteId profileId rows total ems w :
  reads_only w (GetEvents_rows scan_fault siteId profileId rows total ems w).2.
Proof.
  revert total ems w. induction rows as [|r rows IH]; intros total ems w.
  - apply reads_only_refl.
  - simpl. destruct scan_fault as [msg|]; [apply reads_only_refl|].
    rewrite bind_run.
    pose proof (GetEventSummary_reads_only siteId (ep_item_id r) profileId w) as H1.
    destruct (GetEventSummary siteId (ep_item_id r) profileId w)
      as [[[m st] [msg|]] w1]; [exact H1|].
    eapply reads_only_trans; [exact H1|apply IH].
Qed.

Lemma GetEvents_reads_only siteId profileId attending limit offset w :
  reads_only w (GetEvents siteId profileId attending limit offset w).2.
Proof.
  unfold GetEvents.
  rewrite bind_run. unfold h_GetConnection, fault, gets at 1.
  destruct (db_fault (db w) GetConnection); [apply reads_only_refl|].
  rewrite bind_run. unfold gets at 1.
  destruct (db_fault (db w) (Sql "--GetEvents" siteId)); [apply reads_only_refl|].
  rewrite bind_run. unfold gets at 1.
  rewrite bind_run. unfold gets at 1.
  rewrite bind_run.
  pose proof (GetEvents_rows_reads_only
                (db_fault (db w) (Sql "--GetEvents rows.Scan" siteId))
                siteId profileId
                (db_events_page (db w) siteId profileId attending limit offset)
                0 [] w) as H1.
  destruct (GetEvents_rows _ siteId profileId _ 0 [] w) as [[[st err]|[total ems]] w1];
    [exact H1|].
  rewrite bind_run. unfold fault, gets.
  by destruct (db_fault (db w1) (Sql "--GetEvents rows.Err" siteId)).
Qed.

Lemma fan_out_summaries_reads_only siteId ids sched w :
  reads_only w (fan_out (HandleProfileSummaryRequest siteId) ids sched w).2.
Proof.
  revert w. induction sched as [|i sched IH]; intros w; [apply reads_only_refl|].
  destruct (ids !! i) as [a|] eqn:Ha.
  - rewrite (fan_out_cons _ _ _ _ a) by done. simpl.
    eapply reads_only_trans; [|apply IH].
    rewrite Handle_world. apply GetProfileSummary_reads_only.
  - rewrite fan_out_skip by done. apply IH.
Qed.

Lemma GetProfiles_reads_only siteId so limit offset sched w :
  reads_only w (GetProfiles siteId so limit offset sched w).2.
Proof.
  unfold GetProfiles. run_M. simpl.
  split_faults; try apply reads_only_refl.
  rewrite GetProfiles_hydrate_unfold. simpl. apply fan_out_summaries_reads_only.
Qed.

(** X3.  The read paths never write to the store and never open a
    transaction: [GetProfileSummary], [GetProfile], [IsAttending],
    [GetEvent], [GetEventSummary], [GetEvents] and [GetProfiles] leave the
    database, the clock and the reachability of the cache as they found
    them, and the only effects they add are writes of cache entries. *)
Theorem read_paths_only_fill_the_cache (w : World) :
  (forall siteId id, reads_only w (GetProfileSummary siteId id w).2)
  /\ (forall siteId id, reads_only w (GetProfile siteId id w).2)
  /\ (forall profileId eventId, reads_only w (IsAttending profileId eventId w).2)
  /\ (forall siteId id profileId, reads_only w (GetEvent siteId id profileId w).2)
  /\ (forall siteId id profileId,
        reads_only w (GetEventSummary siteId id profileId w).2)
  /\ (forall siteId profileId attending limit offset,
        reads_only w (GetEvents siteId profileId attending limit offset w).2)
  /\ (forall siteId so limit offset sched,
        reads_only w (GetProfiles siteId so limit offset sched w).2).
Proof.
  split; [intros; apply GetProfileSummary_reads_only|].
  split; [intros; apply GetProfile_reads_only|].
  split; [intros; apply IsAttending_reads_only|].
  split; [intros; apply GetEvent_reads_only|].
  split; [intros; apply GetEventSummary_reads_only|].
  split; [intros; apply GetEvents_reads_only|].
  intros; apply GetProfiles_reads_only.
Qed.

(** ** Reading events *)

Lemma GetEvent_finish_status m siteId profileId okStatus w m' st :
  (GetEvent_finish m siteId profileId okStatus w).1 = (m', st, None) ->
  st = okStatus.
Proof.
  unfold GetEvent_finish. rewrite bind_run.
  destruct (EventType_FetchProfileSummaries m siteId w) as [[[m1 st1] [msg|]] w1];
    [done|].
  rewrite bind_run.
  destruct (EventType_GetAttending m1 profileId w1) as [[[m2 st2] [msg|]] w2];
    [done|].
  simpl. by intros [= _ <-].
Qed.

(** X4.  The status [GetEvent] returns with an event tells where the event
    came from: 200 when it was read from the store, 0 when it was found in
    the cache (the hit path ends in [return m, 0, nil]). *)
Theorem GetEvent_status_tells_hit_from_miss
    (siteId id profileId : Z) (w : World) (m : EventType) (status : Z) :
  (GetEvent siteId id profileId w).1 = (m, status, None) ->
  status = match (CacheGet as_Event (mcEventKeys CacheDetail id) w).1 with
           | Some _ => 0
           | None => StatusOK
           end.
Proof.
  unfold GetEvent. destruct (id =? 0); [done|].
  rewrite bind_run. unfold CacheGet, gets. simpl.
  destruct (match cache_lookup _ w with Some v => as_Event v | None => None end)
    as [m0|]; [apply GetEvent_finish_status|].
  rewrite bind_run. unfold h_GetConnection, fault, gets. simpl.
  destruct (db_fault (db w) GetConnection); [done|].
  rewrite bind_run. simpl.
  destruct (select_event id siteId (db w)) as [e| |msg]; try done.
  rewrite !bind_run. unfold modify. apply GetEvent_finish_status.
Qed.

Lemma GetEvents_rows_failed sf siteId profileId rows total ems w st err :
  (GetEvents_rows sf siteId profileId rows total ems w).1 = inl (st, err) ->
  err <> None.
Proof.
  revert total ems w. induction rows as [|r rows IH]; intros total ems w; [done|].
  simpl. destruct sf as [msg|]; [by intros [= _ <-]|].
  rewrite bind_run.
  destruct (GetEventSummary siteId (ep_item_id r) profileId w)
    as [[[m st'] [msg|]] w1]; [by intros [= _ <-]|].
  apply IH.
Qed.

Lemma GetIgnored_rows_failed sf rows total ems st err :
  GetIgnored_rows sf rows total ems = inl (st, err) -> err <> None.
Proof.
  revert total ems. induction rows as [|r rows IH]; intros total ems; [done|].
  simpl. destruct sf as [msg|]; [by intros [= _ <-]|].
  destruct (GetItemTypeFromInt X (ir_item_type_id r)) as [t [msg|]];
    [by intros [= _ <-]|].
  apply IH.
Qed.

Lemma GetEvents_rows_ok sf siteId profileId rows total ems w total' ems' :
  (GetEvents_rows sf siteId profileId rows total ems w).1 = inr (total', ems') ->
  exists new,
    ems' = (ems ++ new)%list
    /\ length new = length rows
    /\ (forall i r m, rows !! i = Some r -> new !! i = Some m ->
          f_Attending (m_Flags (es_Meta m)) = ep_is_attending r)
    /\ total' = default total (ep_total <$> last rows).
Proof.
  revert total ems w. induction rows as [|r rows IH]; intros total ems w.
  - simpl. intros [= <- <-]. exists []. by rewrite app_nil_r.
  - simpl. destruct sf as [msg|]; [done|].
    rewrite bind_run.
    destruct (GetEventSummary siteId (ep_item_id r) profileId w)
      as [[[m st] [msg|]] w1]; [done|].
    intros H. apply IH in H as (new & -> & Hlen & Hatt & Htot).
    exists (set_es_Attending (ep_is_attending r) m :: new).
    split; [by rewrite <-app_assoc|].
    split; [simpl; congruence|].
    split.
    + intros [|i] r' m'; simpl.
      * by intros [= <-] [= <-].
      * apply Hatt.
    + rewrite Htot, last_cons. by destruct (last rows).
Qed.

(** X5.  A page [GetEvents] returns without error has one summary per row
    of the page query, in the order of the rows; the attending flag of each
    summary is the one the page query computed for its row (it replaces the
    flag [GetEventSummary] had set); the total is the window count of the
    last row (0 for an empty page), and the offset lies inside the page
    range. *)
Theorem GetEvents_page_follows_its_rows
    (siteId profileId : Z) (attending : bool) (limit offset : Z) (w : World)
    (ems : list EventSummaryType) (total pages status : Z) :
  (GetEvents siteId profileId attending limit offset w).1
    = (ems, total, pages, status, None) ->
  let rows := db_events_page (db w) siteId profileId attending limit offset in
  status = StatusOK
  /\ length ems = length rows
  /\ (forall i r m, rows !! i = Some r -> ems !! i = Some m ->
        f_Attending (m_Flags (es_Meta m)) = ep_is_attending r)
  /\ total = default 0 (ep_total <$> last rows)
  /\ pages = GetPageCount total limit
  /\ offset <= GetMaxOffset total limit.
Proof.
  unfold GetEvents.
  rewrite bind_run. unfold h_GetConnection, fault, gets at 1.
  destruct (db_fault (db w) GetConnection); [done|].
  rewrite bind_run. unfold gets at 1.
  destruct (db_fault (db w) (Sql "--GetEvents" siteId)); [done|].
  rewrite bind_run. unfold gets at 1.
  rewrite bind_run. unfold gets at 1.
  rewrite bind_run.
  pose proof (GetEvents_rows_ok
                (db_fault (db w) (Sql "--GetEvents rows.Scan" siteId))
                siteId profileId
                (db_events_page (db w) siteId profileId attending limit offset)
                0 [] w) as Hrows.
  pose proof (GetEvents_rows_failed
                (db_fault (db w) (Sql "--GetEvents rows.Scan" siteId))
                siteId profileId
                (db_events_page (db w) siteId profileId attending limit offset)
                0 [] w) as Hfail.
  destruct (GetEvents_rows _ siteId profileId _ 0 [] w) as [[[st err]|[total' ems']] w1].
  { specialize (Hfail st err eq_refl). simpl. by intros [= _ _ _ _ ->]. }
  destruct (Hrows total' ems' eq_refl) as (new & -> & Hlen & Hatt & ->).
  rewrite bind_run. unfold fault, gets.
  destruct (db_fault (db w1) (Sql "--GetEvents rows.Err" siteId)); [done|].
  simpl. unfold GetEvents_paginate.
  destruct (Z.ltb_spec (GetMaxOffset (default 0 (ep_total <$> last
             (db_events_page (db w) siteId profileId attending limit offset))) limit)
             offset); [done|].
  intros [= <- <- <- <-]. done.
Qed.

Lemma GetProfileSummary_error_status siteId id w m status msg :
  (GetProfileSummary siteId id w).1 = (m, status, Some msg) ->
  status = StatusNotFound \/ status = StatusInternalServerError.
Proof.
  rewrite GetProfileSummary_unfold.
  destruct (id =? 0); [intros [= _ <- _]; by left|].
  destruct (summary_hit id w) as [m'|].
  { destruct (negb _); [intros [= _ <- _]; by left|done]. }
  destruct (db_fault (db w) GetConnection); [intros [= _ <- _]; by right|].
  destruct (select_profile _ siteId id (db w)); [done| |];
    intros [= _ <- _]; [by left|by right].
Qed.

(** X6.  The list functions never hand out a partial page: whenever
    [GetProfiles], [GetEvents] or [GetIgnored] returns an error, the list is
    empty and total and pages are 0, whichever step failed; and a result
    without error comes with status 200.  For [GetProfiles] an error never
    comes with status 200. *)
Theorem list_reads_are_all_or_nothing (w : World) :
  (forall siteId so limit offset sched ems total pages status err,
      (GetProfiles siteId so limit offset sched w).1
        = (ems, total, pages, status, err) ->
      match err with
      | Some _ => ems = [] /\ total = 0 /\ pages = 0 /\ status <> StatusOK
      | None => status = StatusOK
      end)
  /\ (forall siteId profileId attending limit offset ems total pages status err,
      (GetEvents siteId profileId attending limit offset w).1
        = (ems, total, pages, status, err) ->
      match err with
      | Some _ => ems = [] /\ total = 0 /\ pages = 0
      | None => status = StatusOK
      end)
  /\ (forall siteId profileId limit offset sched ems total pages status err,
      (GetIgnored siteId profileId limit offset sched w).1
        = (ems, total, pages, status, err) ->
      match err with
      | Some _ => ems = [] /\ total = 0 /\ pages = 0
      | None => status = StatusOK
      end).
Proof.
  split; [|split].
  - intros siteId so limit offset sched ems total pages status err.
    unfold GetProfiles. run_M. simpl.
    split_faults; try (by intros [= <- <- <- <- <-]).
    rewrite GetProfiles_hydrate_unfold. simpl.
    unfold gather.
    destruct (first_error _) as [r|] eqn:Hfirst.
    + intros [= <- <- <- <- <-].
      destruct (first_error_Some _ _ Hfirst) as (pre & post & Heq & _ & Herr).
      destruct (Err r) as [msg|] eqn:Hr; [|done].
      repeat split.
      assert (Hin : r ∈ (fan_out (HandleProfileSummaryRequest siteId)
                           (db_profile_ids (db w) siteId so limit offset) sched w).1).
      { rewrite Heq. apply elem_of_app. right. by left. }
      destruct (fan_out_elem _ (Handle_tags siteId) _ _ _ _ Hin)
        as (a & wi & _ & Hrw).
      pose proof (Handle_result siteId (Seq r) a wi) as Hres.
      change ProfileSummaryRequest with (Request ProfileSummaryType) in Hres.
      rewrite <-Hrw, Hr in Hres.
      destruct (GetProfileSummary_error_status _ _ _ _ _ _ Hres) as [->| ->];
        done.
    + destruct (GetMaxOffset _ limit <? offset);
        intros [= <- <- <- <- <-]; done.
  - intros siteId profileId attending limit offset ems total pages status err.
    unfold GetEvents.
    rewrite bind_run. unfold h_GetConnection, fault, gets at 1.
    destruct (db_fault (db w) GetConnection); [by intros [= <- <- <- <- <-]|].
    rewrite bind_run. unfold gets at 1.
    destruct (db_fault (db w) (Sql "--GetEvents" siteId));
      [by intros [= <- <- <- <- <-]|].
    rewrite bind_run. unfold gets at 1.
    rewrite bind_run. unfold gets at 1.
    rewrite bind_run.
    pose proof (GetEvents_rows_failed
                  (db_fault (db w) (Sql "--GetEvents rows.Scan" siteId))
                  siteId profileId
                  (db_events_page (db w) siteId profileId attending limit offset)
                  0 [] w) as Hfail.
    destruct (GetEvents_rows _ siteId profileId _ 0 [] w)
      as [[[st e]|[total' ems']] w1].
    + specialize (Hfail st e eq_refl). simpl.
      intros [= <- <- <- <- <-]. by destruct e.
    + rewrite bind_run. unfold fault, gets.
      destruct (db_fault (db w1) (Sql "--GetEvents rows.Err" siteId));
        [by intros [= <- <- <- <- <-]|].
      simpl. unfold GetEvents_paginate.
      destruct (GetMaxOffset total' limit <? offset);
        intros [= <- <- <- <- <-]; done.
  - intros siteId profileId limit offset sched ems total pages status err.
    unfold GetIgnored. run_M. simpl.
    destruct (db_fault (db w) GetConnection); [by intros [= <- <- <- <- <-]|].
    destruct (db_fault (db w) (Sql "--Get Ignores" profileId));
      [by intros [= <- <- <- <- <-]|].
    pose proof (GetIgnored_rows_failed
                  (db_fault (db w) (Sql "--Get Ignores rows.Scan" profileId))
                  (db_ignores_page (db w) profileId limit offset) 0 []) as Hfail.
    destruct (GetIgnored_rows _ _ 0 []) as [[st e]|[total' ems']].
    + specialize (Hfail st e eq_refl).
      intros [= <- <- <- <- <-]. by destruct e.
    + destruct (db_fault (db w) (Sql "--Get Ignores rows.Err" profileId));
        [by intros [= <- <- <- <- <-]|].
      unfold GetIgnored_hydrate.
      destruct (GetMaxOffset total' limit <? offset);
        [by intros [= <- <- <- <- <-]|].
      rewrite bind_run.
      destruct (fan_out _ ems' sched w) as [resps w1].
      unfold gather.
      destruct (first_error resps) as [r|] eqn:Hfirst.
      * destruct (first_error_Some _ _ Hfirst) as (_ & _ & _ & _ & Herr).
        intros [= <- <- <- <- <-]. by destruct (Err r).
      * by intros [= <- <- <- <- <-].
Qed.

(** ** Validating an event *)

Lemma EventType_Validate_fields_ok m ex mv st :
  EventType_Validate_fields m ex = (mv, st, None) ->
  st = StatusOK
  /\ e_Id mv = e_Id m
  /\ e_MicrocosmId mv = e_MicrocosmId m /\ 0 < e_MicrocosmId m
  /\ e_Title m <> "" /\ e_Title mv = ShoutToWhisper X (e_Title m)
  /\ e_RSVPLimit mv = e_RSVPLimit m /\ 0 <= e_RSVPLimit m
  /\ e_RSVPSpaces mv = e_RSVPLimit m
  /\ e_Duration mv = (if e_Duration m <? 0 then 60 else e_Duration m)
  /\ (((Trim_space (e_When m) =? "")%string = true
       /\ e_Status mv = EventStatusProposed
       /\ e_WhenNullable mv = e_WhenNullable m)
      \/ ((Trim_space (e_When m) =? "")%string = false
          /\ e_Status mv = EventStatusUpcoming
          /\ exists t, time_Parse X (e_When m) = inl t
                       /\ e_WhenNullable mv = Some t))
  /\ m_Flags (e_Meta mv) = SetVisible X (m_Flags (e_Meta m))
  /\ (ex = true -> m_EditReason (e_Meta m) <> "").
Proof.
  destruct m as [id mid title whenN when dur where_ whereN ? ? ? ? ? ? st0 lim
                 att spaces [? ? ? ? ? ? ? ? reason flags ?]].
  unfold EventType_Validate_fields. event_fields.
  assert (Hreason : ex = true -> (reason =? "")%string = false -> reason <> "").
  { intros _ H. by apply String.eqb_neq. }
  destruct ex; simpl andb;
    [destruct (String.eqb reason "") eqn:Hr; event_fields; [done|]|];
    (destruct (Z.leb_spec mid 0); event_fields; [done|]);
    (destruct (String.eqb title "") eqn:Ht; event_fields; [done|]);
    apply String.eqb_neq in Ht;
    (destruct (String.eqb (Trim_space when) "") eqn:Hw; event_fields;
     [|destruct (time_Parse X when) as [t|] eqn:Hp; event_fields; [|done]]);
    destruct (dur <? 0); event_fields;
    destruct (String.eqb where_ ""); event_fields;
    (destruct (Z.ltb_spec lim 0); event_fields; [done|]);
    intros [= <- <-]; event_fields;
    (split; [done|]); (split; [done|]); (split; [done|]); (split; [lia|]);
    (split; [done|]); (split; [done|]); (split; [done|]); (split; [lia|]);
    (split; [done|]); (split; [done|]);
    (split; [first [by left | right; split; [done|]; split; [done|]; by exists t]|]);
    (split; [done|]); first [done | intros _; by apply Hreason].
Qed.

(** X7.  What a successful [EventType.Validate] guarantees about the event
    it leaves behind: status 200; a positive microcosm id and a non-empty
    title; an RSVP limit of at least 0 with as many spaces as the limit; a
    duration that is the submitted one unless that was negative, in which
    case it is 60 (a duration of 0 stays 0); status "proposed" with the stored
    time untouched when [When] is blank, else status "upcoming" with the
    stored time parsed from [When]; and, for an update, a non-empty edit
    reason.  The id and the microcosm of the event are never changed. *)
Theorem EventType_Validate_postconditions
    (m : EventType) (siteId profileId : Z) (exists_ : bool) (w : World)
    (mv : EventType) (status : Z) :
  (EventType_Validate m siteId profileId exists_ w).1 = (mv, status, None) ->
  status = StatusOK
  /\ e_Id mv = e_Id m
  /\ e_MicrocosmId mv = e_MicrocosmId m /\ 0 < e_MicrocosmId mv
  /\ SanitiseText X (e_Title m) <> ""
  /\ 0 <= e_RSVPLimit mv /\ e_RSVPLimit mv = e_RSVPLimit m
  /\ e_RSVPSpaces mv = e_RSVPLimit mv
  /\ e_Duration mv = (if e_Duration m <? 0 then 60 else e_Duration m)
  /\ 0 <= e_Duration mv
  /\ (((Trim_space (e_When m) =? "")%string = true
       /\ e_Status mv = EventStatusProposed
       /\ e_WhenNullable mv = e_WhenNullable m)
      \/ ((Trim_space (e_When m) =? "")%string = false
          /\ e_Status mv = EventStatusUpcoming
          /\ exists t, time_Parse X (e_When m) = inl t
                       /\ e_WhenNullable mv = Some t))
  /\ (exists_ = true -> SanitiseText X (m_EditReason (e_Meta m)) <> "").
Proof.
  unfold EventType_Validate. run_M.
  set (m' := set_e_Meta _ (set_e_Where _ (set_e_Title _ m))).
  assert (Hm' : e_Id m' = e_Id m /\ e_MicrocosmId m' = e_MicrocosmId m
                /\ e_Title m' = SanitiseText X (e_Title m)
                /\ e_RSVPLimit m' = e_RSVPLimit m
                /\ e_Duration m' = e_Duration m
                /\ e_When m' = e_When m
                /\ e_WhenNullable m' = e_WhenNullable m
                /\ m_EditReason (e_Meta m')
                   = SanitiseText X (m_EditReason (e_Meta m))).
  { subst m'. by destruct m as [? ? ? ? ? ? ? ? ? ? ? ? ? ? ? ? ? ? []]. }
  destruct Hm' as (E1 & E2 & E3 & E4 & E5 & E6 & E7 & E8).
  assert (Hfields :
            EventType_Validate_fields m' exists_ = (mv, status, None) ->
            status = StatusOK
            /\ e_Id mv = e_Id m
            /\ e_MicrocosmId mv = e_MicrocosmId m /\ 0 < e_MicrocosmId mv
            /\ SanitiseText X (e_Title m) <> ""
            /\ 0 <= e_RSVPLimit mv /\ e_RSVPLimit mv = e_RSVPLimit m
            /\ e_RSVPSpaces mv = e_RSVPLimit mv
            /\ e_Duration mv = (if e_Duration m <? 0 then 60 else e_Duration m)
            /\ 0 <= e_Duration mv
            /\ (((Trim_space (e_When m) =? "")%string = true
                 /\ e_Status mv = EventStatusProposed
                 /\ e_WhenNullable mv = e_WhenNullable m)
                \/ ((Trim_space (e_When m) =? "")%string = false
                    /\ e_Status mv = EventStatusUpcoming
                    /\ exists t, time_Parse X (e_When m) = inl t
                                 /\ e_WhenNullable mv = Some t))
            /\ (exists_ = true -> SanitiseText X (m_EditReason (e_Meta m)) <> "")).
  { intros H.
    destruct (EventType_Validate_fields_ok _ _ _ _ H)
      as (H1 & H2 & H3 & H4 & H5 & H6 & H7 & H8 & H9 & H10 & H11 & H12 & H13).
    rewrite E1 in H2. rewrite E2 in H3, H4. rewrite E3 in H5.
    rewrite E4 in H7, H8, H9. rewrite E5 in H10. rewrite E6, E7 in H11.
    rewrite E8 in H13.
    split; [done|]. split; [done|]. split; [done|]. split; [lia|].
    split; [done|]. split; [lia|]. split; [done|]. split; [congruence|].
    split; [done|]. split; [rewrite H10; destruct (Z.ltb_spec (e_Duration m) 0); lia|].
    split; [done|]. done. }
  clearbody m'. destruct exists_.
  - intros H. apply Hfields. exact H.
  - cbv beta iota.
    destruct (db_microcosm_summary (db w) siteId (e_MicrocosmId m') profileId)
      as [st [msg|]]; [done|]. intros H. apply Hfields. exact H.
Qed.

(** X8.  An event that fails validation is turned down before anything
    happens: [EventType.Insert] and [EventType.Update] return the status and
    error of [Validate] and leave the world untouched (no transaction, no
    cache access).  In particular an update whose edit reason is empty once
    sanitised is answered with status 400. *)
Theorem rejected_event_has_no_effect
    (m : EventType) (siteId profileId : Z) (w : World) :
  (forall mv st msg,
      (EventType_Validate m siteId profileId false w).1 = (mv, st, Some msg) ->
      EventType_Insert m siteId profileId w = ((mv, st, Some msg), w))
  /\ (forall mv st msg,
      (EventType_Validate m siteId profileId true w).1 = (mv, st, Some msg) ->
      EventType_Update m siteId profileId w = ((mv, st, Some msg), w))
  /\ (SanitiseText X (m_EditReason (e_Meta m)) = "" ->
      (EventType_Update m siteId profileId w).1.1.2 = StatusBadRequest
      /\ (EventType_Update m siteId profileId w).1.2
         = Some "You must provide a reason for the update"
      /\ (EventType_Update m siteId profileId w).2 = w).
Proof.
  split; [|split].
  - intros mv st msg. unfold EventType_Insert. rewrite bind_run.
    pose proof (EventType_Validate_world m siteId profileId false w) as Hw.
    destruct (EventType_Validate m siteId profileId false w) as [[[mv' st'] err] wv].
    simpl in *. subst wv. by intros [= -> -> ->].
  - intros mv st msg. unfold EventType_Update. rewrite bind_run.
    pose proof (EventType_Validate_world m siteId profileId true w) as Hw.
    destruct (EventType_Validate m siteId profileId true w) as [[[mv' st'] err] wv].
    simpl in *. subst wv. by intros [= -> -> ->].
  - intros Hblank. unfold EventType_Update. rewrite bind_run.
    unfold EventType_Validate. run_M.
    unfold EventType_Validate_fields.
    replace (m_EditReason (e_Meta (set_e_Meta _ _)))
      with (SanitiseText X (m_EditReason (e_Meta m)))
      by (by destruct m as [? ? ? ? ? ? ? ? ? ? ? ? ? ? ? ? ? ? []]).
    rewrite Hblank. done.
Qed.

(** ** Validating an ignore *)

(** X9.  [IgnoreType.Validate] accepts an ignore exactly when its profile id
    and item id are positive and its item type is a key of [h.ItemTypes]; it
    then sets the item type id from that map, whatever id the caller had
    supplied.  A rejected ignore is answered with status 400, and
    [Update] and [Delete] then leave the world untouched. *)
Theorem IgnoreType_Validate_accepts_iff (m : IgnoreType) :
  ((IgnoreType_Validate m).2 = None
   <-> 0 < ig_ProfileId m /\ is_Some (ItemTypes X !! ig_ItemType m)
       /\ 0 < ig_ItemId m)
  /\ ((IgnoreType_Validate m).2 = None ->
      (IgnoreType_Validate m).1
      = (set_ig_ItemTypeId (ItemTypes_get (ig_ItemType m)) m, StatusOK))
  /\ (forall msg w,
      (IgnoreType_Validate m).2 = Some msg ->
      (IgnoreType_Validate m).1.2 = StatusBadRequest
      /\ IgnoreType_Update m w = (IgnoreType_Validate m, w)
      /\ IgnoreType_Delete m w = (IgnoreType_Validate m, w)).
Proof.
  unfold IgnoreType_Update, IgnoreType_Delete, IgnoreType_Validate, ItemTypes_get.
  destruct (Z.leb_spec (ig_ProfileId m) 0).
  { split; [split; [done|lia]|]. split; [done|]. done. }
  destruct (ItemTypes X !! ig_ItemType m) as [t|] eqn:Ht.
  2:{ split; [split; [done|]|].
      - intros (_ & [? ?] & _). done.
      - split; [done|]. done. }
  simpl. destruct (Z.leb_spec (ig_ItemId m) 0).
  { split; [split; [done|lia]|]. split; [done|]. done. }
  split; [split; [|done]|].
  - intros _. split; [lia|]. split; [by eexists|lia].
  - split; [done|]. done.
Qed.

(** ** Creating an event *)

(** [EventType.Insert] by cases, with the state passing written out. *)
Lemma EventType_Insert_unfold m siteId profileId w :
  EventType_Insert m siteId profileId w =
  match (EventType_Validate m siteId profileId false w).1 with
  | (mv, st, Some msg) => ((mv, st, Some msg), w)
  | (mv, st, None) =>
    match (CacheGet as_Int64 (dupeKey mv) w).1 with
    | Some v => ((set_e_Id v mv, StatusOK, None), w)
    | None =>
      match db_fault (db w) GetTransaction with
      | Some msg => ((mv, StatusInternalServerError, Some msg), w)
      | None =>
        match db_fault (db w) (Sql "INSERT INTO events" (e_MicrocosmId mv)) with
        | Some msg =>
            ((mv, StatusInternalServerError,
              Some ("Error inserting data and returning ID: " +:+ msg)),
             emit ERollback (emit EBegin w))
        | None =>
          let id := db_event_seq (db w) in
          let w1 := set_db (set_db_event_seq (id + 1) (db w)) (emit EBegin w) in
          match db_events (db w) !! id with
          | Some _ =>
              ((mv, StatusInternalServerError,
                Some ("Error inserting data and returning ID: " +:+
                      "duplicate key value violates unique constraint")),
               emit ERollback w1)
          | None =>
            let m' := set_e_Id id mv in
            let w2 := emit (EExec "INSERT INTO events" id) w1 in
            match db_fault (db w)
                    (Collab "IncrementMicrocosmItemCount" (e_MicrocosmId mv)) with
            | Some msg => ((m', StatusInternalServerError, Some msg), emit ERollback w2)
            | None =>
              let w3 :=
                emit (ECall "IncrementMicrocosmItemCount" (e_MicrocosmId mv)) w2 in
              match db_fault (db w) Commit with
              | Some msg =>
                  ((m', StatusInternalServerError,
                    Some ("Transaction failed: " +:+ msg)),
                   emit ECommitFailed w3)
              | None =>
                  let tx :=
                    set_db_events
                      (<[id := event_row_of (db_event_default (db w)) mv]>
                         (db_events (db w)))
                      (db w) in
                  ((m', StatusOK, None),
                   emit (EPurge (ItemTypes_get ItemTypeMicrocosm) (e_MicrocosmId mv))
                     (purged (ItemTypes_get ItemTypeMicrocosm) (e_MicrocosmId mv)
                        (emit (EPurge (ItemTypes_get ItemTypeEvent) id)
                           (purged (ItemTypes_get ItemTypeEvent) id
                              (emit (ECacheSet (dupeKey mv))
                                 (cache_store (dupeKey mv) (VInt64 id) (60 * 5)
                                    (emit ECommit
                                       (set_db (with_seqs (db w3) tx) w3))))))))
              end
            end
          end
        end
      end
    end
  end.
Proof.
  unfold EventType_Insert. rewrite bind_run.
  pose proof (EventType_Validate_world m siteId profileId false w) as Hw.
  destruct (EventType_Validate m siteId profileId false w) as [[[mv st] err] wv].
  simpl in Hw. subst wv. cbv beta iota delta [fst].
  destruct err as [msg|]; [done|].
  unfold tx_insert_event. run_M. unfold purged. cbv beta iota delta [fst snd].
  destruct (match cache_lookup (dupeKey mv) w with
            | Some v => as_Int64 v
            | None => None
            end) as [v|]; [done|].
  cbv beta iota.
  destruct (db_fault (db w) GetTransaction); [done|].
  cbn [db emit set_log set_db db_fault set_db_event_seq].
  destruct (db_fault (db w) (Sql "INSERT INTO events" (e_MicrocosmId mv)));
    [done|].
  cbn [db emit set_log set_db db_fault set_db_event_seq db_event_seq db_events].
  destruct (db_events (db w) !! db_event_seq (db w)); [done|].
  cbn [db emit set_log set_db db_fault set_db_event_seq db_event_seq db_events
       e_MicrocosmId set_e_Id].
  destruct (db_fault (db w)
              (Collab "IncrementMicrocosmItemCount" (e_MicrocosmId mv))); [done|].
  cbn [db emit set_log set_db db_fault set_db_event_seq db_event_seq db_events].
  destruct (db_fault (db w) Commit); done.
Qed.

Lemma db_emit e w : db (emit e w) = db w.
Proof. done. Qed.

Lemma db_cache_store k v ttl w : db (cache_store k v ttl w) = db w.
Proof. unfold cache_store. by destruct (cache_up w). Qed.

Lemma db_purge_scope s kind id w : db (purge_scope s kind id w) = db w.
Proof. unfold purge_scope. by destruct (cache_up w). Qed.

(** Reads the store of a world built by the primitives off its
    construction. *)
Ltac db_norm :=
  repeat (progress
            (rewrite ?db_emit, ?db_purged, ?db_purge_scope, ?db_cache_store;
             cbn [db set_db])).

(** X10.  [EventType.Insert] changes the events table by at most one row:
    when it returns an error the table is as before (whatever was done
    inside the transaction is not committed); when it succeeds the table is
    either as before (the submission was recognised as a duplicate) or has
    gained one row under the returned id, which was free before, carrying
    the title and microcosm of the returned event. *)
Theorem EventType_Insert_adds_at_most_one_row
    (m : EventType) (siteId profileId : Z) (w : World) :
  let r := EventType_Insert m siteId profileId w in
  match r.1.2 with
  | Some _ => db_events (db r.2) = db_events (db w)
  | None =>
      db_events (db r.2) = db_events (db w)
      \/ (db_events (db w) !! e_Id r.1.1.1 = None
          /\ exists row,
               db_events (db r.2) = <[e_Id r.1.1.1 := row]> (db_events (db w))
               /\ er_title row = e_Title r.1.1.1
               /\ er_microcosm_id row = e_MicrocosmId r.1.1.1)
  end.
Proof.
  cbv zeta. rewrite EventType_Insert_unfold.
  destruct (EventType_Validate m siteId profileId false w).1 as [[mv st] [msg|]];
    [done|].
  destruct (CacheGet as_Int64 (dupeKey mv) w).1 as [v|]; [by left|].
  destruct (db_fault (db w) GetTransaction); [done|].
  destruct (db_fault (db w) (Sql "INSERT INTO events" (e_MicrocosmId mv))); [done|].
  cbv zeta.
  destruct (db_events (db w) !! db_event_seq (db w)) eqn:Hfree; [done|].
  destruct (db_fault (db w) (Collab _ (e_MicrocosmId mv))); [done|].
  destruct (db_fault (db w) Commit); [done|].
  right. cbn [fst snd]. db_norm.
  split; [done|].
  exists (event_row_of (db_event_default (db w)) mv).
  split; [done|]. by destruct mv.
Qed.

(** X11.  Without a usable memory of the fingerprint -- the cache cannot be
    reached, holds nothing under the dupe key, or holds an entry that has
    expired -- [EventType.Insert] of a valid event goes to the store: when
    every step of the transaction succeeds it returns status 200 with the
    next id of the sequence, stores the row under that id and advances the
    sequence.  So the same submission creates a second event once the five
    minutes are over, or at any time while the cache is down. *)
Theorem EventType_Insert_without_memory_creates
    (m : EventType) (siteId profileId : Z) (w : World) (mv : EventType) (st : Z) :
  (EventType_Validate m siteId profileId false w).1 = (mv, st, None) ->
  (cache_up w = false
   \/ cache w !! dupeKey mv = None
   \/ exists e, cache w !! dupeKey mv = Some e /\ ce_expires e <= now w) ->
  db_fault (db w) GetTransaction = None ->
  db_fault (db w) (Sql "INSERT INTO events" (e_MicrocosmId mv)) = None ->
  db_fault (db w) (Collab "IncrementMicrocosmItemCount" (e_MicrocosmId mv)) = None ->
  db_fault (db w) Commit = None ->
  db_events (db w) !! db_event_seq (db w) = None ->
  let r := EventType_Insert m siteId profileId w in
  r.1 = (set_e_Id (db_event_seq (db w)) mv, StatusOK, None)
  /\ db_events (db r.2)
     = <[db_event_seq (db w) := event_row_of (db_event_default (db w)) mv]>
         (db_events (db w))
  /\ db_event_seq (db r.2) = db_event_seq (db w) + 1.
Proof.
  intros Hv Hmem Htx Hins Hinc Hcommit Hfree. cbv zeta.
  rewrite EventType_Insert_unfold, Hv.
  assert (Hmiss : (CacheGet as_Int64 (dupeKey mv) w).1 = None).
  { apply typed_read_fails_iff.
    destruct Hmem as [?|[?|(e & ? & ?)]]; [by left|by right; left|].
    right. right. exists e. split; [done|]. by left. }
  rewrite Hmiss, Htx, Hins. cbv zeta. rewrite Hfree, Hinc, Hcommit.
  cbn [fst snd]. db_norm. done.
Qed.

(** ** Where the offset is checked *)

(** X12.  An offset beyond the last page is answered with status 400 by
    both [GetIgnored] and [GetProfiles], but at different points:
    [GetIgnored] checks the offset before it fetches any summary and leaves
    the world untouched, while [GetProfiles] first runs every unit -- the
    world it leaves is the one after the whole fan-out, with the summaries
    that were fetched in the cache -- and only then rejects the offset. *)
Theorem offset_checked_before_or_after_the_fetch
    (siteId total limit offset : Z) (sched : list nat) (w : World) :
  GetMaxOffset total limit < offset ->
  (forall rows,
      GetIgnored_hydrate siteId rows total limit offset sched w
      = (([], 0, 0, StatusBadRequest, empty_page_error offset), w))
  /\ (forall ids,
      Forall (fun r => Err r = None)
             (fan_out (HandleProfileSummaryRequest siteId) ids sched w).1 ->
      GetProfiles_hydrate siteId ids total limit offset sched w
      = (([], 0, 0, StatusBadRequest, empty_page_error offset),
         (fan_out (HandleProfileSummaryRequest siteId) ids sched w).2)
      /\ (cache_up w = true -> 0 < mcTtl X ->
          forall r id,
            r ∈ (fan_out (HandleProfileSummaryRequest siteId) ids sched w).1 ->
            ids !! Seq r = Some id ->
            summary_hit id
              (GetProfiles_hydrate siteId ids total limit offset sched w).2
            = Some (Item r))).
Proof.
  intros Hoff. split.
  - intros rows. unfold GetIgnored_hydrate.
    by destruct (Z.ltb_spec (GetMaxOffset total limit) offset); [|lia].
  - intros ids Hok. rewrite GetProfiles_hydrate_unfold.
    unfold gather. rewrite first_error_None by done.
    destruct (Z.ltb_spec (GetMaxOffset total limit) offset); [|lia].
    split; [done|]. intros Hup Httl r id Hr Hid. simpl.
    apply fan_out_summaries_cached; try done.
    rewrite Forall_forall in Hok. by apply Hok.
Qed.

(** ** Reading back what was inserted *)

Lemma cache_lookup_purge_scope_None k s kind id w :
  cache_lookup k w = None -> cache_lookup k (purge_scope s kind id w) = None.
Proof.
  unfold cache_lookup, purge_scope.
  destruct (cache_up w) eqn:Hup; simpl; rewrite Hup; [|done].
  destruct (decide (k = KScoped kind s id)) as [->|Hne].
  - by rewrite lookup_delete_eq.
  - by rewrite lookup_delete_ne.
Qed.

Lemma cache_lookup_purge_scope_eq s kind id w :
  cache_lookup (KScoped kind s id) (purge_scope s kind id w) = None.
Proof.
  unfold cache_lookup, purge_scope.
  destruct (cache_up w) eqn:Hup; simpl; rewrite Hup; [|done].
  by rewrite lookup_delete_eq.
Qed.

Lemma cache_lookup_purged_None k kind id w :
  cache_lookup k w = None -> cache_lookup k (purged kind id w) = None.
Proof.
  intros H. unfold purged, all_scopes. simpl.
  by repeat apply cache_lookup_purge_scope_None.
Qed.

Lemma cache_lookup_purged_eq s kind id w :
  cache_lookup (KScoped kind s id) (purged kind id w) = None.
Proof.
  unfold purged, all_scopes. simpl.
  destruct s;
    repeat first [ apply cache_lookup_purge_scope_eq
                 | apply cache_lookup_purge_scope_None ].
Qed.

Lemma FetchProfileSummaries_keeps_columns m siteId w s st :
  (EventSummaryType_FetchProfileSummaries m siteId w).1 = (s, st, None) ->
  es_Id s = es_Id m /\ event_summary_columns s = event_summary_columns m.
Proof.
  unfold EventSummaryType_FetchProfileSummaries. rewrite bind_run.
  destruct (GetProfileSummary siteId (m_CreatedById (es_Meta m)) w)
    as [[[p st1] [msg|]] w1]; [done|].
  cbn [es_LastComment set_es_Meta].
  destruct (es_LastComment m) as [lc|].
  - rewrite bind_run.
    destruct (GetProfileSummary siteId (lc_CreatedById lc) w1)
      as [[[p2 st2] [msg|]] w2]; [done|].
    simpl. by intros [= <- _].
  - simpl. by intros [= <- _].
Qed.

Lemma GetAttending_keeps_columns m profileId w s st :
  (EventSummaryType_GetAttending m profileId w).1 = (s, st, None) ->
  es_Id s = es_Id m /\ event_summary_columns s = event_summary_columns m.
Proof.
  unfold EventSummaryType_GetAttending.
  destruct (profileId =? 0); [simpl; by intros [= <- _]|].
  rewrite bind_run.
  destruct (IsAttending profileId (es_Id m) w) as [[a [msg|]] w1]; [done|].
  simpl. by intros [= <- _].
Qed.

Lemma GetEventSummary_finish_keeps_columns m siteId profileId w s st :
  (GetEventSummary_finish m siteId profileId w).1 = (s, st, None) ->
  es_Id s = es_Id m /\ event_summary_columns s = event_summary_columns m.
Proof.
  unfold GetEventSummary_finish. rewrite bind_run.
  pose proof (FetchProfileSummaries_keeps_columns m siteId w) as H1.
  destruct (EventSummaryType_FetchProfileSummaries m siteId w)
    as [[[m1 st1] [msg|]] w1]; [done|].
  destruct (H1 m1 st1 eq_refl) as [E1 E2].
  rewrite bind_run.
  pose proof (GetAttending_keeps_columns m1 profileId w1) as H2.
  destruct (EventSummaryType_GetAttending m1 profileId w1)
    as [[[m2 st2] [msg|]] w2]; [done|].
  destruct (H2 m2 st2 eq_refl) as [E3 E4].
  simpl. intros [= <- _]. split; congruence.
Qed.

(** X13.  What [EventType.Insert] stored is what [GetEventSummary] reads
    back.  After an insert that created a row, the summary scope of the new
    event is not in the cache (the insert purged it), so a summary
    [GetEventSummary] returns for the new id, for any site and viewer, comes
    from the stored row: it carries that id and exactly the sixteen columns
    of the event that was inserted. *)
Theorem inserted_event_reads_back
    (m m' : EventType) (siteId profileId : Z) (w w1 : World)
    (siteId' profileId' : Z) (s : EventSummaryType) (status : Z) :
  EventType_Insert m siteId profileId w = ((m', StatusOK, None), w1) ->
  (CacheGet as_Int64 (dupeKey m') w).1 = None ->
  (GetEventSummary siteId' (e_Id m') profileId' w1).1 = (s, status, None) ->
  es_Id s = e_Id m' /\ event_summary_columns s = event_columns m'.
Proof.
  intros Hins Hmiss.
  destruct (EventType_Insert_created _ _ _ _ _ _ Hins Hmiss)
    as (mv & st & Hv & -> & Hfree & Hrows & _).
  rewrite dupeKey_set_e_Id in Hmiss.
  rewrite EventType_Insert_unfold, Hv, Hmiss in Hins.
  destruct (db_fault (db w) GetTransaction); [done|].
  destruct (db_fault (db w) (Sql "INSERT INTO events" (e_MicrocosmId mv))); [done|].
  cbv zeta in Hins. rewrite Hfree in Hins.
  destruct (db_fault (db w) (Collab _ (e_MicrocosmId mv))); [done|].
  destruct (db_fault (db w) Commit); [done|].
  injection Hins as <-.
  set (id := db_event_seq (db w)) in *.
  match goal with |- context [GetEventSummary _ _ _ ?W] => set (w1 := W) end.
  assert (Hcache : cache_lookup (mcEventKeys CacheSummary id) w1 = None).
  { subst w1. rewrite cache_lookup_emit.
    apply cache_lookup_purged_None. rewrite cache_lookup_emit.
    apply cache_lookup_purged_eq. }
  assert (Hdb : db_events (db w1) !! id
                = Some (event_row_of (db_event_default (db w)) mv)).
  { subst w1. db_norm. cbn. by rewrite lookup_insert_eq. }
  assert (Hdflt : forall c, db_fault (db w1) c = db_fault (db w) c).
  { intros c. subst w1. db_norm. done. }
  clearbody w1.
  unfold GetEventSummary. cbn [e_Id set_e_Id].
  destruct (id =? 0); [done|].
  rewrite bind_run. unfold CacheGet, gets. cbn [fst snd]. rewrite Hcache.
  rewrite bind_run. unfold h_GetConnection, fault, gets. cbn [fst snd].
  destruct (db_fault (db w1) GetConnection); [done|].
  rewrite bind_run. cbn [fst snd].
  unfold select_event_summary. rewrite Hdb.
  destruct (db_fault (db w1) (Sql "SELECT FROM events" id)); [done|].
  destruct (db_is_deleted (db w1) 9 id); [done|].
  rewrite bind_run. cbn [fst snd].
  destruct (db_last_comment (db w1) (ItemTypes_get ItemTypeEvent) id)
    as [[lc stl] [msg|]]; [done|].
  rewrite !bind_run. unfold modify. cbn [fst snd].
  intros H. apply GetEventSummary_finish_keeps_columns in H as [E1 E2].
  split; [done|]. rewrite E2. by destruct mv as [? ? ? ? ? ? ? ? ? ? ? ? ? ? ? ? ? ? []].
Qed.

(** ** Events and the site of their creator *)

Lemma set_es_Attending_CreatedBy b m :
  m_CreatedBy (es_Meta (set_es_Attending b m)) = m_CreatedBy (es_Meta m).
Proof. done. Qed.

Lemma set_e_Attending_CreatedBy b m :
  m_CreatedBy (e_Meta (set_e_Attending b m)) = m_CreatedBy (e_Meta m).
Proof. done. Qed.

Lemma GetEventSummary_finish_creator m siteId profileId w s st :
  (GetEventSummary_finish m siteId profileId w).1 = (s, st, None) ->
  exists p, m_CreatedBy (es_Meta s) = Some p /\ ps_SiteId p = siteId.
Proof.
  unfold GetEventSummary_finish. rewrite bind_run.
  unfold EventSummaryType_FetchProfileSummaries. rewrite bind_run.
  pose proof (GetProfileSummary_site siteId (m_CreatedById (es_Meta m)) w) as Hp.
  destruct (GetProfileSummary siteId (m_CreatedById (es_Meta m)) w)
    as [[[p st1] [msg|]] w1]; [done|].
  destruct (Hp p st1 eq_refl) as (Hsite & _).
  cbn [es_LastComment set_es_Meta].
  assert (Hatt : forall m1 w2,
            m_CreatedBy (es_Meta m1) = Some p ->
            (bind (EventSummaryType_GetAttending m1 profileId)
               (fun pat : EventSummaryType * Z * error =>
                  match pat with
                  | (m0, status, Some msg) =>
                      ret (EventSummaryType_zero, status, Some msg)
                  | (m0, status, None) => ret (m0, StatusOK, None)
                  end) w2).1 = (s, st, None) ->
            exists p0, m_CreatedBy (es_Meta s) = Some p0 /\ ps_SiteId p0 = siteId).
  { intros m1 w2 Hm1. rewrite bind_run. unfold EventSummaryType_GetAttending.
    destruct (profileId =? 0).
    - simpl. intros [= <- _]. eauto.
    - rewrite bind_run.
      destruct (IsAttending profileId (es_Id m1) w2) as [[a [msg|]] w3]; [done|].
      simpl. intros [= <- _]. eauto. }
  destruct (es_LastComment m) as [lc|].
  - rewrite bind_run.
    destruct (GetProfileSummary siteId (lc_CreatedById lc) w1)
      as [[[p2 st2] [msg|]] w2]; [done|].
    unfold ret at 1. cbv beta iota. apply Hatt. done.
  - unfold ret at 1. cbv beta iota. apply Hatt. done.
Qed.

Lemma GetEvent_finish_creator m siteId profileId okStatus w m' st :
  (GetEvent_finish m siteId profileId okStatus w).1 = (m', st, None) ->
  exists p, m_CreatedBy (e_Meta m') = Some p /\ ps_SiteId p = siteId.
Proof.
  unfold GetEvent_finish. rewrite bind_run.
  unfold EventType_FetchProfileSummaries. rewrite bind_run.
  pose proof (GetProfileSummary_site siteId (m_CreatedById (e_Meta m)) w) as Hp.
  destruct (GetProfileSummary siteId (m_CreatedById (e_Meta m)) w)
    as [[[p st1] [msg|]] w1]; [done|].
  destruct (Hp p st1 eq_refl) as (Hsite & _).
  cbn [m_EditedByNullable e_Meta set_e_Meta set_m_CreatedBy].
  assert (Hatt : forall m1 w2,
            m_CreatedBy (e_Meta m1) = Some p ->
            (bind (EventType_GetAttending m1 profileId)
               (fun pat : EventType * Z * error =>
                  match pat with
                  | (m0, status, Some msg) => ret (EventType_zero, status, Some msg)
                  | (m0, status, None) => ret (m0, okStatus, None)
                  end) w2).1 = (m', st, None) ->
            exists p0, m_CreatedBy (e_Meta m') = Some p0 /\ ps_SiteId p0 = siteId).
  { intros m1 w2 Hm1. rewrite bind_run. unfold EventType_GetAttending.
    destruct (profileId =? 0).
    - simpl. intros [= <- _]. eauto.
    - rewrite bind_run.
      destruct (IsAttending profileId (e_Id m1) w2) as [[a [msg|]] w3]; [done|].
      simpl. intros [= <- _]. eauto. }
  destruct (m_EditedByNullable (e_Meta m)) as [editedBy|].
  - rewrite bind_run.
    destruct (GetProfileSummary siteId editedBy w1)
      as [[[p2 st2] [msg|]] w2]; [done|].
    unfold ret at 1. cbv beta iota. apply Hatt. done.
  - unfold ret at 1. cbv beta iota. apply Hatt. done.
Qed.

(** X14.  Neither [GetEvent] nor [GetEventSummary] compares an event with
    the site it is asked for; what ties their answer to the site is the
    creator: an event or event summary is only returned once the profile of
    its creator has been resolved by [GetProfileSummary] for the requested
    site, so the creator attached to any returned event is a profile of that
    site. *)
Theorem returned_event_has_creator_in_site
    (siteId id profileId : Z) (w : World) :
  (forall m status,
      (GetEvent siteId id profileId w).1 = (m, status, None) ->
      exists p, m_CreatedBy (e_Meta m) = Some p /\ ps_SiteId p = siteId)
  /\ (forall s status,
      (GetEventSummary siteId id profileId w).1 = (s, status, None) ->
      exists p, m_CreatedBy (es_Meta s) = Some p /\ ps_SiteId p = siteId).
Proof.
  split.
  - intros m status. unfold GetEvent. destruct (id =? 0); [done|].
    rewrite bind_run. unfold CacheGet, gets. cbn [fst snd].
    destruct (match cache_lookup _ w with Some v => as_Event v | None => None end)
      as [m0|]; [apply GetEvent_finish_creator|].
    rewrite bind_run. unfold h_GetConnection, fault, gets. cbn [fst snd].
    destruct (db_fault (db w) GetConnection); [done|].
    rewrite bind_run. cbn [fst snd].
    destruct (select_event id siteId (db w)) as [e| |msg]; try done.
    rewrite !bind_run. unfold modify. apply GetEvent_finish_creator.
  - intros s status. unfold GetEventSummary. destruct (id =? 0); [done|].
    rewrite bind_run. unfold CacheGet, gets. cbn [fst snd].
    destruct (match cache_lookup _ w with Some v => as_EventSummary v | None => None end)
      as [m0|]; [apply GetEventSummary_finish_creator|].
    rewrite bind_run. unfold h_GetConnection, fault, gets. cbn [fst snd].
    destruct (db_fault (db w) GetConnection); [done|].
    rewrite bind_run. cbn [fst snd].
    destruct (select_event_summary id (db w)) as [e| |msg]; try done.
    rewrite bind_run. cbn [fst snd].
    destruct (db_last_comment (db w) (ItemTypes_get ItemTypeEvent) id)
      as [[lc stl] [msg|]]; [done|].
    rewrite !bind_run. unfold modify. apply GetEventSummary_finish_creator.
Qed.

(** ** Creating a profile *)

Lemma collab_run name key w :
  collab name key w =
  match db_collab (db w) name key with
  | (st, Some msg) => ((st, Some msg), w)
  | (st, None) => ((st, None), emit (ECall name key) w)
  end.
Proof.
  unfold collab. run_M. by destruct (db_collab (db w) name key) as [st [msg|]].
Qed.

Lemma h_GetTransaction_run w :
  h_GetTransaction w =
  match db_fault (db w) GetTransaction with
  | Some msg => (inr msg, w)
  | None => (inl (db w), emit EBegin w)
  end.
Proof. unfold h_GetTransaction. run_M. by destruct (db_fault (db w) GetTransaction). Qed.

Lemma tx_Commit_run tx w :
  tx_Commit tx w =
  match db_fault (db w) Commit with
  | Some msg => (Some msg, emit ECommitFailed w)
  | None => (None, emit ECommit (set_db (with_seqs (db w) tx) w))
  end.
Proof. unfold tx_Commit. run_M. by destruct (db_fault (db w) Commit). Qed.

Lemma tx_insert_profile_run tx m w :
  tx_insert_profile tx m w =
  match db_fault (db w) (Sql "--Create Profile" (p_UserId m)) with
  | Some msg => (inr msg, w)
  | None =>
      let id := db_profile_seq (db w) in
      let w1 := set_db (set_db_profile_seq (id + 1) (db w)) w in
      match db_profiles tx !! id with
      | Some _ => (inr "duplicate key value violates unique constraint", w1)
      | None =>
          (inl (id, set_db_profiles (<[id := profile_row_of m]> (db_profiles tx)) tx),
           emit (EExec "--Create Profile" id) w1)
      end
  end.
Proof.
  unfold tx_insert_profile. run_M.
  destruct (db_fault (db w) (Sql "--Create Profile" (p_UserId m))); [done|].
  cbv beta iota. by destruct (db_profiles tx !! db_profile_seq (db w)).
Qed.

(** Closes a branch whose trace holds no commit. *)
Ltac no_commit_branch :=
  let Hin := fresh "Hin" in
  intros Hin; exfalso; revert Hin;
  cbv beta iota delta [bind ret modify tx_Rollback];
  trace_of_run; rewrite ?elem_of_cons, ?elem_of_nil; intuition discriminate.

Lemma profiles_kept_refl w : profiles_kept w w.
Proof. done. Qed.

Lemma profiles_kept_trans w1 w2 w3 :
  profiles_kept w1 w2 -> profiles_kept w2 w3 -> profiles_kept w1 w3.
Proof.
  intros (H1 & H2 & H3 & H4 & H5) (H1' & H2' & H3' & H4' & H5').
  unfold profiles_kept.
  do 4 (split; [congruence|]).
  intros a b. by rewrite H5', H5.
Qed.

Lemma profiles_kept_emit e w : profiles_kept w (emit e w).
Proof. done. Qed.

Lemma profiles_kept_purged kind id w : profiles_kept w (purged kind id w).
Proof.
  destruct (purged_facts kind id w) as (Hup & Hnow & Hdb & _ & _).
  unfold profiles_kept. rewrite Hdb, Hup, Hnow.
  do 4 (split; [done|]). intros a b.
  unfold purged, all_scopes, purge_scope. simpl.
  destruct (cache_up w) eqn:Hcu; simpl; rewrite ?Hcu; simpl; rewrite ?Hcu;
    simpl; rewrite ?Hcu; simpl; rewrite ?Hcu; simpl; rewrite ?Hcu; simpl;
    [|done].
  by rewrite !lookup_delete_ne.
Qed.

Lemma with_seqs_same d : with_seqs d d = d.
Proof. by destruct d. Qed.

Lemma collab_kept name key w : profiles_kept w (collab name key w).2.
Proof.
  rewrite collab_run. by destruct (db_collab (db w) name key) as [st [msg|]].
Qed.

Lemma AttachAvatar_kept profileId fm w :
  profiles_kept w (AttachAvatar profileId fm w).2.
Proof.
  unfold AttachAvatar. rewrite bind_run. unfold gets at 1. cbv beta iota.
  rewrite bind_run.
  pose proof (collab_kept "AttachmentType.Insert" profileId w) as H.
  destruct (collab "AttachmentType.Insert" profileId w) as [[st [msg|]] w'];
    exact H.
Qed.

Lemma ProfileType_Update_kept m w :
  profiles_kept w (ProfileType_Update m w).2.
Proof.
  unfold ProfileType_Update, ProfileType_Validate.
  cbv beta iota zeta delta
    [bind ret gets modify fault h_GetTransaction tx_Exec tx_Commit tx_Rollback].
  destruct (db_profile_validate (db w) m true) as [[mv st] [msg|]]; [done|].
  cbv beta iota.
  destruct (db_fault (db w) GetTransaction); [done|].
  cbn [db emit set_log set_db db_fault].
  destruct (db_fault (db w) (Sql "--Update Profile" (p_Id mv))); [done|].
  cbn [db emit set_log set_db db_fault].
  destruct (db_fault (db w) Commit); [done|].
  rewrite PurgeCache_run. cbn [snd]. rewrite with_seqs_same.
  eapply profiles_kept_trans; [|apply profiles_kept_emit].
  eapply profiles_kept_trans; [|apply profiles_kept_purged].
  done.
Qed.

(** The world [ProfileType.insert] leaves once its transaction has
    committed. *)
Lemma ProfileType_insert_committed m isImport w :
  ECommit ∈ new_effects w (ProfileType_insert m isImport w).2 ->
  db_profiles (db w) !! db_profile_seq (db w) = None
  /\ db_profiles (db (ProfileType_insert m isImport w).2)
     = <[db_profile_seq (db w) := profile_row_of m]> (db_profiles (db w))
  /\ db_fault (db (ProfileType_insert m isImport w).2) = db_fault (db w)
  /\ now (ProfileType_insert m isImport w).2 = now w
  /\ cache_up (ProfileType_insert m isImport w).2 = cache_up w
  /\ forall a b, cache (ProfileType_insert m isImport w).2 !! KSiteUser a b
                 = cache w !! KSiteUser a b.
Proof.
  unfold ProfileType_insert.
  rewrite bind_run, h_GetTransaction_run.
  destruct (db_fault (db w) GetTransaction); [no_commit_branch|].
  rewrite bind_run, tx_insert_profile_run. rewrite db_emit.
  destruct (db_fault (db w) (Sql "--Create Profile" (p_UserId m)));
    [no_commit_branch|].
  cbv zeta.
  destruct (db_profiles (db w) !! db_profile_seq (db w)) eqn:Hfree;
    [no_commit_branch|].
  rewrite bind_run, collab_run.
  cbn [db emit set_log set_db db_collab set_db_profile_seq].
  destruct (db_collab (db w) "GetProfileOptionsDefaults"
              (p_SiteId (set_p_Id (db_profile_seq (db w)) m)))
    as [st1 [msg|]]; [no_commit_branch|].
  rewrite bind_run, collab_run.
  cbn [db emit set_log set_db db_collab set_db_profile_seq].
  destruct (db_collab (db w) "ProfileOptionType.Insert" (db_profile_seq (db w)))
    as [st2 [msg|]]; [no_commit_branch|].
  rewrite bind_run, tx_Commit_run.
  cbn [db emit set_log set_db db_fault set_db_profile_seq].
  destruct (db_fault (db w) Commit); [no_commit_branch|].
  intros _. split; [done|].
  match goal with
  | |- context [bind _ _ ?wc] =>
      assert (db_profiles (db wc)
              = <[db_profile_seq (db w) := profile_row_of m]> (db_profiles (db w))
              /\ db_fault (db wc) = db_fault (db w)
              /\ now wc = now w /\ cache_up wc = cache_up w
              /\ forall a b, cache wc !! KSiteUser a b = cache w !! KSiteUser a b)
        as Hc by done;
      revert Hc; generalize wc
  end.
  intros wc Hc.
  assert (Hkept : forall w', profiles_kept wc w' ->
            db_profiles (db w')
            = <[db_profile_seq (db w) := profile_row_of m]> (db_profiles (db w))
            /\ db_fault (db w') = db_fault (db w)
            /\ now w' = now w /\ cache_up w' = cache_up w
            /\ forall a b, cache w' !! KSiteUser a b = cache w !! KSiteUser a b).
  { intros w' (H1 & H2 & H3 & H4 & H5).
    destruct Hc as (Hc1 & Hc2 & Hc3 & Hc4 & Hc5).
    do 4 (split; [congruence|]).
    intros a b. by rewrite H5, Hc5. }
  clear Hc. apply Hkept. clear Hkept.
  rewrite bind_run.
  pose proof (collab_kept "GetUser"
                (p_UserId (set_p_Id (db_profile_seq (db w)) m)) wc) as Hu.
  destruct (collab "GetUser" (p_UserId (set_p_Id (db_profile_seq (db w)) m)) wc)
    as [[stu [msg|]] wu]; cbn [snd] in Hu; [exact Hu|].
  rewrite bind_run. unfold gets at 1. cbv beta iota.
  assert (Hfinish : forall m' wf,
            profiles_kept wc wf ->
            profiles_kept wc
              (bind (ProfileType_Update m')
                 (fun pat : ProfileType * Z * error =>
                    match pat with
                    | (m0, status1, Some msg) =>
                        ret (m0, status1,
                             Some ("Could not update profile with avatar: "
                                   +:+ msg))
                    | (m0, status1, None) =>
                        go (EPurge (ItemTypes_get ItemTypeProfile) (p_Id m0)) ;;
                        go (ECall "MarkAllAsRead" (p_Id m0)) ;;
                        ret (m0, StatusOK, None)
                    end) wf).2).
  { intros m' wf Hwf. rewrite bind_run.
    pose proof (ProfileType_Update_kept m' wf) as Hup.
    destruct (ProfileType_Update m' wf) as [[[m0 s0] [msg|]] wf']; cbn [snd] in Hup.
    - cbn [snd ret]. by eapply profiles_kept_trans.
    - cbv beta iota delta [bind ret go modify]. cbn [snd].
      eapply profiles_kept_trans; [|apply profiles_kept_emit].
      eapply profiles_kept_trans; [|apply profiles_kept_emit].
      by eapply profiles_kept_trans. }
  destruct isImport; [by apply Hfinish|].
  rewrite bind_run.
  pose proof (collab_kept "StoreGravatar"
                (p_UserId (set_p_Id (db_profile_seq (db w)) m)) wu) as Hs.
  destruct (collab "StoreGravatar" (p_UserId (set_p_Id (db_profile_seq (db w)) m)) wu)
    as [[sts [msg|]] ws]; cbn [snd] in Hs.
  { cbn [snd ret]. by eapply profiles_kept_trans. }
  rewrite bind_run. unfold gets at 1. cbv beta iota.
  rewrite bind_run.
  match goal with
  | |- context [AttachAvatar ?i ?fm ws] =>
      pose proof (AttachAvatar_kept i fm ws) as Ha;
      destruct (AttachAvatar i fm ws) as [[[att sta] [msg|]] wa]; cbn [snd] in Ha
  end.
  { cbn [snd ret]. eapply profiles_kept_trans; [|exact Ha].
    by eapply profiles_kept_trans. }
  apply Hfinish. eapply profiles_kept_trans; [|exact Ha].
  by eapply profiles_kept_trans.
Qed.

(** X15.  [ProfileType.insert] commits the new row before it deals with the
    avatar: once its transaction has committed, the profile row is in the
    store under the id drawn from the sequence -- and stays there when a
    later step ([GetUser], [StoreGravatar], [AttachAvatar], the update with
    the avatar) fails and [insert] returns an error. *)
Theorem ProfileType_insert_keeps_row_once_committed
    (m : ProfileType) (isImport : bool) (w : World) :
  let r := ProfileType_insert m isImport w in
  ECommit ∈ new_effects w r.2 ->
  db_profiles (db w) !! db_profile_seq (db w) = None
  /\ db_profiles (db r.2)
     = <[db_profile_seq (db w) := profile_row_of m]> (db_profiles (db w)).
Proof.
  cbv zeta. intros Hin.
  destruct (ProfileType_insert_committed m isImport w Hin) as (Hfree & Hrow & _).
  done.
Qed.


(** ** Authorisation *)

(** X16.  [GetPermission] fails closed. *)
Theorem GetPermission_fails_closed (ac : AuthContext) (w : World) :
  let r := GetPermission ac w in
  (pm_Valid r.1 = false ->
   r.1 = PermissionType_zero /\ ECommit ∉ new_effects w r.2)
  /\ (pm_Valid r.1 = true ->
      pm_Context r.1 = ac
      /\ ((ac_ProfileId ac = 0 /\ ac_ItemTypeId ac = ItemTypes_get ItemTypeSite
           /\ r = (guest_permission ac, w))
          \/ exists row,
               q_effective_permissions Q (ac_SiteId ac) (ac_MicrocosmId ac)
                 (ac_ItemTypeId ac) (ac_ItemId ac) (ac_ProfileId ac) = Row row
               /\ r.1 = permission_of_row ac row
               /\ new_effects w r.2 = [EBegin; ECommit])).
Proof.
  cbv zeta. unfold GetPermission.
  destruct ((ac_ProfileId ac =? 0) && (ac_ItemTypeId ac =? ItemTypes_get ItemTypeSite))
    eqn:Hguest.
  { apply andb_true_iff in Hguest as [Hp Ht].
    apply Z.eqb_eq in Hp. apply Z.eqb_eq in Ht.
    split; [done|]. intros _. split; [done|]. left. done. }
  rewrite bind_run, h_GetTransaction_run.
  destruct (db_fault (db w) GetTransaction).
  { split; [|done]. intros _. split; [done|].
    cbv beta iota delta [ret]. trace_of_run. by intros ?%elem_of_nil. }
  destruct (q_effective_permissions Q (ac_SiteId ac) (ac_MicrocosmId ac)
              (ac_ItemTypeId ac) (ac_ItemId ac) (ac_ProfileId ac)) as [row| |msg].
  - rewrite bind_run, tx_Commit_run. rewrite db_emit.
    destruct (db_fault (db w) Commit).
    + split; [|done]. intros _. split; [done|].
      cbv beta iota delta [ret]. trace_of_run.
      rewrite ?elem_of_cons, ?elem_of_nil; intuition discriminate.
    + split; [done|]. intros _. split; [done|]. right. exists row.
      split; [done|]. split; [done|].
      cbv beta iota delta [ret]. trace_of_run. done.
  - split; [|done]. intros _. split; [done|].
    cbv beta iota delta [bind ret modify tx_Rollback]. trace_of_run.
    rewrite ?elem_of_cons, ?elem_of_nil; intuition discriminate.
  - split; [|done]. intros _. split; [done|].
    cbv beta iota delta [bind ret modify tx_Rollback]. trace_of_run.
    rewrite ?elem_of_cons, ?elem_of_nil; intuition discriminate.
Qed.

(** ** Profile ids *)

(** [GetProfileId] by cases, with the state passing written out. *)
Lemma GetProfileId_unfold siteId userId w :
  GetProfileId siteId userId w =
  if (siteId =? 0) || (userId =? 0) then ((0, StatusOK, None), w)
  else
    match (CacheGet as_Int64 (KSiteUser siteId userId) w).1 with
    | Some v => ((v, StatusOK, None), w)
    | None =>
      match db_fault (db w) GetConnection with
      | Some msg => ((0, StatusInternalServerError, Some msg), w)
      | None =>
        match select_profile_id siteId userId (db w) with
        | ErrNoRows =>
            ((0, StatusNotFound,
              Some ("Profile for site (" +:+ pretty siteId +:+
                    ") and user (" +:+ pretty userId +:+ ") not found.")), w)
        | QueryFailed msg =>
            ((0, StatusInternalServerError,
              Some ("Database query failed: " +:+ msg)), w)
        | Row id =>
            ((id, StatusOK, None),
             emit (ECacheSet (KSiteUser siteId userId))
               (cache_store (KSiteUser siteId userId) (VInt64 id) (mcTtl X) w))
        end
      end
    end.
Proof.
  unfold GetProfileId. destruct ((siteId =? 0) || (userId =? 0)); [done|].
  run_M. cbn [fst snd].
  destruct (match cache_lookup (KSiteUser siteId userId) w with
            | Some v => as_Int64 v
            | None => None
            end) as [v|]; [done|].
  cbv beta iota.
  destruct (db_fault (db w) GetConnection); [done|].
  by destruct (select_profile_id siteId userId (db w)).
Qed.

Lemma select_profile_id_Row siteId userId d id :
  select_profile_id siteId userId d = Row id ->
  exists row, db_profiles d !! id = Some row
              /\ pr_site_id row = siteId /\ pr_user_id row = userId.
Proof.
  unfold select_profile_id.
  destruct (db_fault d (Sql "--GetProfileId" userId)); [done|].
  destruct (find _ (map_to_list (db_profiles d))) as [[i row]|] eqn:Hfind; [|done].
  intros [= <-]. apply find_some in Hfind as [Hin Hf].
  apply list_elem_of_In, elem_of_map_to_list in Hin.
  apply andb_true_iff in Hf as [Hs Hu]. cbn in Hs, Hu.
  apply Z.eqb_eq in Hs. apply Z.eqb_eq in Hu. by exists row.
Qed.

Lemma select_profile_id_ErrNoRows siteId userId d :
  select_profile_id siteId userId d = ErrNoRows ->
  forall id row, db_profiles d !! id = Some row ->
                 ~ (pr_site_id row = siteId /\ pr_user_id row = userId).
Proof.
  unfold select_profile_id.
  destruct (db_fault d (Sql "--GetProfileId" userId)); [done|].
  destruct (find _ (map_to_list (db_profiles d))) as [ir|] eqn:Hfind; [done|].
  intros _ id row Hrow [Hs Hu].
  assert (Hin : In (id, row) (map_to_list (db_profiles d)))
    by by apply list_elem_of_In, elem_of_map_to_list.
  pose proof (find_none _ _ Hfind (id, row) Hin) as Hf. cbn in Hf.
  apply andb_false_iff in Hf as [Hf%Z.eqb_neq|Hf%Z.eqb_neq]; done.
Qed.

(** X17.  What [GetProfileId] answers. *)
Theorem GetProfileId_answers (siteId userId : Z) (w : World) :
  let r := GetProfileId siteId userId w in
  match r.1.2 with
  | Some _ => r.1.1.2 <> StatusOK /\ r.1.1.1 = 0 /\ r.2 = w
  | None =>
      r.1.1.2 = StatusOK
      /\ ((siteId = 0 \/ userId = 0) -> r.1.1.1 = 0 /\ r.2 = w)
      /\ (siteId <> 0 -> userId <> 0 ->
          ((CacheGetInt64 (KSiteUser siteId userId) w).1 = (r.1.1.1, true)
           /\ r.2 = w)
          \/ ((CacheGetInt64 (KSiteUser siteId userId) w).1 = (0, false)
              /\ (exists row, db_profiles (db w) !! r.1.1.1 = Some row
                              /\ pr_site_id row = siteId
                              /\ pr_user_id row = userId)
              /\ r.2 = emit (ECacheSet (KSiteUser siteId userId))
                         (cache_store (KSiteUser siteId userId)
                            (VInt64 r.1.1.1) (mcTtl X) w)))
  end.
Proof.
  cbv zeta. rewrite GetProfileId_unfold.
  destruct ((siteId =? 0) || (userId =? 0)) eqn:Hz.
  { cbn [fst snd]. split; [done|]. split; [done|].
    intros Hs Hu. apply orb_true_iff in Hz as [?%Z.eqb_eq|?%Z.eqb_eq]; done. }
  apply orb_false_iff in Hz as [Hs%Z.eqb_neq Hu%Z.eqb_neq].
  unfold CacheGetInt64. rewrite bind_run.
  destruct (CacheGet as_Int64 (KSiteUser siteId userId) w) as [[v|] wc] eqn:Hget;
    cbn [fst snd].
  { split; [done|]. split; [intros [?|?]; done|]. intros _ _. left. done. }
  destruct (db_fault (db w) GetConnection); [done|].
  destruct (select_profile_id siteId userId (db w)) as [id| |msg] eqn:Hsel;
    cbn [fst snd]; try done.
  split; [done|]. split; [intros [?|?]; done|]. intros _ _. right.
  split; [done|]. split; [|done].
  by apply select_profile_id_Row in Hsel.
Qed.

Lemma GetProfileId_reads_only siteId userId w :
  reads_only w (GetProfileId siteId userId w).2.
Proof.
  rewrite GetProfileId_unfold.
  destruct ((siteId =? 0) || (userId =? 0)); [auto with reads|].
  destruct ((CacheGet as_Int64 (KSiteUser siteId userId) w).1); [auto with reads|].
  destruct (db_fault (db w) GetConnection); [auto with reads|].
  destruct (select_profile_id siteId userId (db w)); cbn [snd]; auto with reads.
Qed.

Lemma reads_only_no_Begin w w' :
  reads_only w w' -> EBegin ∉ new_effects w w'.
Proof.
  intros (_ & _ & _ & l & Hl & Hf). rewrite (new_effects_app _ _ _ Hl).
  intros Hin. rewrite Forall_forall in Hf.
  destruct (Hf _ Hin) as [k Hk]. discriminate.
Qed.

(** X18.  [GetOrCreateProfile] sets out to create a profile only when the
    lookup of the profile id has answered "not found". *)
Theorem GetOrCreateProfile_creates_only_when_not_found
    (site : SiteType) (user : UserType) (w : World) :
  let r := GetOrCreateProfile site user w in
  EBegin ∈ new_effects w r.2 ->
  s_Id site <> 0 /\ u_ID user <> 0
  /\ (CacheGetInt64 (KSiteUser (s_Id site) (u_ID user)) w).1 = (0, false)
  /\ db_fault (db w) GetConnection = None
  /\ select_profile_id (s_Id site) (u_ID user) (db w) = ErrNoRows
  /\ r.1.1.1 = match r.1.2 with
               | Some _ => ProfileType_zero
               | None => (ProfileType_Insert (new_profile site user) w).1.1.1
               end
  /\ r.1.2 = (ProfileType_Insert (new_profile site user) w).1.2
  /\ r.2 = (ProfileType_Insert (new_profile site user) w).2.
Proof.
  cbv zeta. unfold GetOrCreateProfile. rewrite bind_run.
  pose proof (GetProfileId_reads_only (s_Id site) (u_ID user) w) as Hro.
  revert Hro. rewrite GetProfileId_unfold.
  destruct ((s_Id site =? 0) || (u_ID user =? 0)) eqn:Hz.
  { intros _ Hin. exfalso. revert Hin. cbv beta iota. cbn [Z.eqb StatusOK].
    apply reads_only_no_Begin, GetProfile_reads_only. }
  apply orb_false_iff in Hz as [Hs%Z.eqb_neq Hu%Z.eqb_neq].
  unfold CacheGetInt64. rewrite bind_run.
  destruct (CacheGet as_Int64 (KSiteUser (s_Id site) (u_ID user)) w)
    as [[v|] wc] eqn:Hget; cbn [fst snd].
  { intros _ Hin. exfalso. revert Hin. cbv beta iota. cbn [Z.eqb StatusOK].
    apply reads_only_no_Begin, GetProfile_reads_only. }
  destruct (db_fault (db w) GetConnection).
  { intros _ Hin. exfalso. revert Hin. cbn.
    rewrite (new_effects_same w w eq_refl). by intros ?%elem_of_nil. }
  destruct (select_profile_id (s_Id site) (u_ID user) (db w)) as [id| |msg].
  - cbn [snd]. intros Hro Hin. exfalso. revert Hin. cbv beta iota.
    cbn [Z.eqb StatusOK]. apply reads_only_no_Begin.
    eapply reads_only_trans; [exact Hro|]. apply GetProfile_reads_only.
  - intros _ _. cbv beta iota.
    change (StatusNotFound =? StatusOK) with false.
    change (negb (StatusNotFound =? StatusNotFound)) with false.
    cbv beta iota zeta. rewrite bind_run.
    destruct (ProfileType_Insert (new_profile site user) w)
      as [[[p st] [msg|]] w1]; done.
  - intros _ Hin. exfalso. revert Hin. cbn.
    rewrite (new_effects_same w w eq_refl). by intros ?%elem_of_nil.
Qed.

Lemma select_profile_id_after_insert siteId userId d d' id row :
  select_profile_id siteId userId d = ErrNoRows ->
  db_fault d' = db_fault d ->
  db_profiles d' = <[id := row]> (db_profiles d) ->
  pr_site_id row = siteId -> pr_user_id row = userId ->
  select_profile_id siteId userId d' = Row id.
Proof.
  intros Hnone Hfault Hprofiles Hs Hu.
  destruct (select_profile_id siteId userId d') as [id'| |msg] eqn:Hsel.
  - apply select_profile_id_Row in Hsel as (row' & Hrow' & Hs' & Hu').
    rewrite Hprofiles in Hrow'.
    destruct (decide (id' = id)) as [->|Hne]; [done|].
    rewrite lookup_insert_ne in Hrow' by done.
    by destruct (select_profile_id_ErrNoRows _ _ _ Hnone id' row' Hrow').
  - destruct (select_profile_id_ErrNoRows _ _ _ Hsel id row); [|done].
    by rewrite Hprofiles, lookup_insert_eq.
  - revert Hnone Hsel. unfold select_profile_id. rewrite Hfault.
    destruct (db_fault d (Sql "--GetProfileId" userId)); [done|].
    by destruct (find _ (map_to_list (db_profiles d'))).
Qed.

Lemma CacheGet_fst_eq {A} (proj : CacheValue -> option A) k w w' :
  cache_up w' = cache_up w -> now w' = now w -> cache w' !! k = cache w !! k ->
  (CacheGet proj k w').1 = (CacheGet proj k w).1.
Proof.
  intros Hup Hnow Hk. unfold CacheGet, gets, cache_lookup. cbn [fst].
  by rewrite Hup, Hnow, Hk.
Qed.

(** X19.  A profile that did not exist is found once it has been created:
    when [GetProfileId] has answered "not found" for a site and user, and
    [ProfileType.insert] then commits a profile for them, [GetProfileId]
    returns the id of the new profile -- also when a later step of [insert]
    failed.  (The "not found" was not remembered in the cache.) *)
Theorem created_profile_is_found
    (m : ProfileType) (isImport : bool) (w : World) :
  (GetProfileId (p_SiteId m) (p_UserId m) w).1.1.2 = StatusNotFound ->
  ECommit ∈ new_effects w (ProfileType_insert m isImport w).2 ->
  (GetProfileId (p_SiteId m) (p_UserId m) (ProfileType_insert m isImport w).2).1
  = (db_profile_seq (db w), StatusOK, None).
Proof.
  intros Hnf Hin.
  destruct (ProfileType_insert_committed m isImport w Hin)
    as (Hfree & Hrow & Hfault & Hnow & Hup & Hcache).
  revert Hnf. rewrite !GetProfileId_unfold.
  destruct ((p_SiteId m =? 0) || (p_UserId m =? 0)); [done|].
  rewrite (CacheGet_fst_eq as_Int64 _ w _ Hup Hnow (Hcache _ _)).
  destruct ((CacheGet as_Int64 (KSiteUser (p_SiteId m) (p_UserId m)) w).1);
    [done|].
  rewrite Hfault.
  destruct (db_fault (db w) GetConnection); [done|].
  destruct (select_profile_id (p_SiteId m) (p_UserId m) (db w)) eqn:Hsel;
    try done.
  intros _.
  by rewrite (select_profile_id_after_insert _ _ _ _ _ _ Hsel Hfault Hrow
                eq_refl eq_refl).
Qed.

(** X20.  [ProfileType.Import] never stores a profile that was last active
    before it was created. *)
Theorem imported_profile_is_active_since_creation (m : ProfileType) (w : World) :
  ECommit ∈ new_effects w (ProfileType_Import m w).2 ->
  exists row,
    db_profiles (db (ProfileType_Import m w).2) !! db_profile_seq (db w) = Some row
    /\ pr_created row <= pr_last_active row.
Proof.
  unfold ProfileType_Import. rewrite bind_run.
  unfold ProfileType_Validate, gets. cbn [fst snd].
  destruct (db_profile_validate (db w) _ true) as [[mv st] [msg|]].
  { no_commit_branch. }
  intros Hin.
  destruct (ProfileType_insert_committed _ _ _ Hin) as (_ & Hrow & _).
  rewrite Hrow, lookup_insert_eq. eexists. split; [done|].
  destruct (p_LastActive mv <? p_Created mv) eqn:Hlt; cbn.
  - lia.
  - by apply Z.ltb_ge in Hlt.
Qed.

(** ** View counts *)

Lemma UpdateViewCounts_rows_ok rows views uc ue up :
  exists uc' ue' up',
    UpdateViewCounts_rows None rows views uc ue up
    = Some ((views ++ rows)%list, uc', ue', up').
Proof.
  revert views uc ue up.
  induction rows as [|view rows IH]; intros views uc ue up; cbn [UpdateViewCounts_rows].
  - exists uc, ue, up. by rewrite app_nil_r.
  - replace (views ++ view :: rows)%list with ((views ++ [view]) ++ rows)%list
      by by rewrite <-app_assoc.
    destruct (v_ItemTypeId view =? ItemTypes_get ItemTypeConversation); [apply IH|].
    destruct (v_ItemTypeId view =? ItemTypes_get ItemTypeEvent); [apply IH|].
    destruct (v_ItemTypeId view =? ItemTypes_get ItemTypePoll); apply IH.
Qed.

Lemma UpdateViewCounts_rows_fault msg rows views uc ue up :
  UpdateViewCounts_rows (Some msg) rows views uc ue up
  = match rows with [] => Some (views, uc, ue, up) | _ :: _ => None end.
Proof. by destruct rows. Qed.

Lemma purge_views_run views w :
  db (purge_views views w).2 = db w
  /\ log (purge_views views w).2 = (log w ++ map purge_of_view views)%list.
Proof.
  revert w. induction views as [|view rest IH]; intros w; cbn [purge_views map].
  - cbn. by rewrite app_nil_r.
  - rewrite bind_run. unfold PurgeCacheByScope, modify.
    destruct (IH (emit (EPurgeScope CacheItem (v_ItemTypeId view) (v_ItemId view))
                    (purge_scope CacheItem (v_ItemTypeId view) (v_ItemId view) w)))
      as [Hdb Hlog].
    rewrite Hdb, Hlog. rewrite db_emit, db_purge_scope, log_emit, log_purge_scope.
    by rewrite <-app_assoc.
Qed.

Lemma exec_when_run update label w :
  exec_when update label w =
  if update then
    match db_fault (db w) (Sql label 0) with
    | Some msg => (Some msg, w)
    | None => (None, emit (EExec label 0) w)
    end
  else (None, w).
Proof.
  unfold exec_when. destruct update; [|done].
  unfold tx_Exec. run_M. by destruct (db_fault (db w) (Sql label 0)).
Qed.

(** A branch of [UpdateViewCounts] that ends before the views are cleared. *)
Ltac views_untouched :=
  eexists; split; [trace_of_run; reflexivity|];
  right; split; [repeat constructor|];
  rewrite ?elem_of_cons, ?elem_of_nil; (intuition discriminate).

(** The part of an explicit trace before its element [c]. *)
Ltac prefix_before c l :=
  lazymatch l with
  | c :: _ => constr:(@nil Effect)
  | ?x :: ?l' => let p := prefix_before c l' in constr:(x :: p)
  end.

(** One of the three conditional updates of [UpdateViewCounts]. *)
Ltac exec_when_step w update label :=
  rewrite exec_when_run; rewrite ?db_emit;
  destruct update;
  [ destruct (db_fault (db w) (Sql label 0)); [views_untouched|] | ];
  cbv beta iota.

Lemma UpdateViewCounts_trace w :
  exists tr,
    new_effects w (UpdateViewCounts w).2 = tr
    /\ ((exists pre,
           tr = (pre ++ (match db_fault (db w) Commit with
                         | Some _ => ECommitFailed
                         | None => ECommit
                         end) :: map purge_of_view (q_views Q))%list
           /\ q_views Q <> [] /\ no_purge pre
           /\ last pre = Some (EExec "TRUNCATE TABLE views" 0))
        \/ (no_purge tr
            /\ (ECommit ∉ tr) /\ (ECommitFailed ∉ tr)
            /\ (EExec "TRUNCATE TABLE views" 0 ∉ tr))).
Proof.
  unfold UpdateViewCounts.
  cbv beta iota zeta delta
    [bind ret gets modify fault h_GetTransaction tx_Exec tx_Commit tx_Rollback].
  destruct (db_fault (db w) GetTransaction); [views_untouched|].
  cbv beta iota; rewrite ?db_emit.
  destruct (db_fault (db w) (Sql "--UpdateViewCounts SELECT" 0));
    [views_untouched|].
  cbv beta iota; rewrite ?db_emit.
  destruct (db_fault (db w) (Sql "--UpdateViewCounts rows.Scan" 0)) as [msg|].
  { rewrite UpdateViewCounts_rows_fault.
    destruct (q_views Q); [|views_untouched].
    cbv beta iota; rewrite ?db_emit.
    destruct (db_fault (db w) (Sql "--UpdateViewCounts rows.Err" 0));
      views_untouched. }
  destruct (UpdateViewCounts_rows_ok (q_views Q) [] false false false)
    as (uc & ue & up & ->).
  cbn [app]. cbv beta iota; rewrite ?db_emit.
  destruct (db_fault (db w) (Sql "--UpdateViewCounts rows.Err" 0));
    [views_untouched|].
  destruct (q_views Q) as [|view views] eqn:Hviews; [views_untouched|].
  cbn [length Nat.eqb]. cbv beta iota.
  exec_when_step w uc "--UpdateViewCounts UPDATE conversations".
  all: exec_when_step w ue "--UpdateViewCounts UPDATE events".
  all: exec_when_step w up "--UpdateViewCounts UPDATE polls".
  all: rewrite ?db_emit;
    (destruct (db_fault (db w) (Sql "TRUNCATE TABLE views" 0));
       [views_untouched|]).
  all: cbv beta iota; rewrite ?db_emit.
  all: destruct (db_fault (db w) Commit); cbv beta iota.
  all: match goal with
       | |- context [purge_views ?vs ?wc] =>
           destruct (purge_views_run vs wc) as [_ Hlog]
       end.
  all: eexists; split;
         [ erewrite new_effects_app; [reflexivity|];
           rewrite Hlog; log_norm; rewrite <-?app_assoc; simpl; reflexivity |].
  all: left.
  all: match goal with
       | |- exists pre, ?l = (_ ++ ?c :: _)%list /\ _ =>
           let p := prefix_before c l in exists p
       end.
  all: split; [reflexivity|]; split; [done|]; split; [repeat constructor|];
        reflexivity.
Qed.

(** X21.  [UpdateViewCounts] purges the cached items after its attempt to
    commit, whatever came of the attempt.  Either the statement that clears
    the views ran: then it is followed by the commit or by the failed
    commit, and that by one purge of the item scope per view, in the order
    of the views, and nothing was purged before.  Or it did not run (no
    transaction, a failed query or statement, no views): then nothing is
    committed and nothing is purged. *)
Theorem UpdateViewCounts_purges_after_the_commit_attempt (w : World) :
  let tr := new_effects w (UpdateViewCounts w).2 in
  (exists pre,
      tr = (pre ++ (match db_fault (db w) Commit with
                    | Some _ => ECommitFailed
                    | None => ECommit
                    end) :: map purge_of_view (q_views Q))%list
      /\ q_views Q <> [] /\ no_purge pre
      /\ last pre = Some (EExec "TRUNCATE TABLE views" 0))
  \/ (no_purge tr
      /\ (ECommit ∉ tr) /\ (ECommitFailed ∉ tr)
      /\ (EExec "TRUNCATE TABLE views" 0 ∉ tr)).
Proof.
  cbv zeta. destruct (UpdateViewCounts_trace w) as (tr & <- & H). exact H.
Qed.

(** ** Profile names *)

Lemma IsProfileNameTaken_rows_ok rows email exists_ :
  IsProfileNameTaken_rows None rows email exists_
  = inr (default (email, exists_) (last rows)).
Proof.
  revert email exists_. induction rows as [|[e x] rows IH]; intros email exists_.
  - done.
  - cbn [IsProfileNameTaken_rows]. rewrite IH.
    destruct rows as [|r rows]; [done|]. rewrite last_cons_cons.
    destruct (last (r :: rows)) eqn:Hlast; [done|].
    by apply last_None in Hlast.
Qed.

(** Settles the clauses about one outcome of [IsProfileNameTaken]. *)
Ltac name_cases :=
  cbn;
  repeat (match goal with |- _ /\ _ => split end);
  first [ done
        | intros _; repeat (match goal with |- _ /\ _ => split end);
          first [ done | by left | right; by eexists ] ].

(** X22.  [IsProfileNameTaken] says that a name is free only when it is
    sure. *)
Theorem IsProfileNameTaken_errs_towards_taken
    (siteId userId : Z) (profileName : string) (w : World) :
  let r := IsProfileNameTaken siteId userId profileName w in
  let rows := q_name_taken Q siteId userId (strings_ToLower X profileName) in
  r.2 = w
  /\ (r.1.2 <> None ->
      r.1.1.1 = true /\ r.1.1.2 = StatusInternalServerError)
  /\ (r.1.2 = None -> r.1.1.2 = StatusOK)
  /\ (r.1.1.1 = false ->
      r.1.2 = None
      /\ db_fault (db w) GetConnection = None
      /\ db_fault (db w) (Sql "IsProfileNameTaken" userId) = None
      /\ db_fault (db w) (Sql "IsProfileNameTaken rows.Err" userId) = None
      /\ (rows = [] \/ exists email, last rows = Some (email, false)))
  /\ (rows = [] -> r.1.2 = None -> r.1.1.1 = false).
Proof.
  cbv zeta. unfold IsProfileNameTaken. run_M. cbn [fst snd].
  unfold reservedProfileNames. rewrite map_to_list_empty. cbn [existsb].
  destruct (db_fault (db w) GetConnection); [name_cases|].
  cbv beta iota.
  destruct (db_fault (db w) (Sql "IsProfileNameTaken" userId)); [name_cases|].
  cbv beta iota.
  destruct (q_name_taken Q siteId userId (strings_ToLower X profileName))
    as [|row rows] eqn:Hrows.
  { cbn [IsProfileNameTaken_rows].
    destruct (db_fault (db w) (Sql "IsProfileNameTaken rows.Err" userId));
      name_cases. }
  destruct (db_fault (db w) (Sql "IsProfileNameTaken rows.Scan" userId)) as [msg|].
  { destruct row. name_cases. }
  rewrite IsProfileNameTaken_rows_ok.
  destruct (last (row :: rows)) as [[email x]|] eqn:Hlast;
    cbn [default from_option id].
  2:{ by apply last_None in Hlast. }
  cbv beta iota.
  destruct (db_fault (db w) (Sql "IsProfileNameTaken rows.Err" userId));
    [name_cases|].
  cbv beta iota.
  destruct x; name_cases.
Qed.
End Model.

(** Settles a conjunction of closed equations by evaluating both sides. *)
Ltac by_evaluation :=
  repeat (match goal with |- _ /\ _ => split end); vm_compute; reflexivity.

(** * The model at work on the example site *)

Example GetProfileSummary_alice :
  (GetProfileSummary X0 1 1 w0).1
  = (summary_of_row 1 (profile_row0 1 101 "alice"), StatusOK, None).
Proof. vm_compute. reflexivity. Qed.

Example GetProfiles_page :
  (GetProfiles X0 1
     {| so_OrderByCommentCount := false; so_IsFollowing := false;
        so_IsOnline := false; so_StartsWith := ""; so_ProfileId := 0 |}
     10 0 [1; 0]%nat w0).1
  = ([summary_of_row 1 (profile_row0 1 101 "alice");
      summary_of_row 2 (profile_row0 1 102 "bob")], 2, 1, StatusOK, None).
Proof. vm_compute. reflexivity. Qed.


(** C6, as the claim states it, fails.  Two units fail; the one numbered 1
    (profile 5, a failed query, status 500) is received before the one
    numbered 0 (profile 7, no such row, status 404).  Scanning after the
    sort would surface the 404 of unit 0; [GetProfiles] surfaces the 500 of
    unit 1. *)
Lemma error_scan_after_sort_counterexample :
  gather_sorted_scan
    (fan_out (HandleProfileSummaryRequest X0 1) [7; 5] [1; 0]%nat w_query5_fails).1
  = inl (StatusNotFound, Some "Resource with profile ID 7 not found")
  /\ (GetProfiles_hydrate X0 1 [7; 5] 2 10 0 [1; 0]%nat w_query5_fails).1
     = ([], 0, 0, StatusInternalServerError,
        Some "Database query failed: connection reset")
  /\ (GetProfiles_hydrate X0 1 [7; 5] 2 10 0 [1; 0]%nat w_query5_fails).1
     <> ([], 0, 0, StatusNotFound, Some "Resource with profile ID 7 not found").
Proof.
  split; [|split].
  - vm_compute. reflexivity.
  - vm_compute. reflexivity.
  - vm_compute. discriminate.
Qed.

Lemma error_scan_is_in_arrival_order_witness :
  ((fan_out (HandleProfileSummaryRequest X0 1) [7; 5] [1; 0]%nat w_query5_fails).1
     = ([] ++ failed5 :: [failed7])%list
   /\ Forall (fun x : ProfileSummaryRequest => Err x = None) []
   /\ Err failed5 <> None
   /\ (GetProfiles_hydrate X0 1 [7; 5] 2 10 0 [1; 0]%nat w_query5_fails).1
      = ([], 0, 0, StatusInternalServerError,
         Some "Database query failed: connection reset"))
  /\ (0 <= GetMaxOffset 2 10
      /\ (fan_out (HandleSummaryContainerRequest X0 1) ignores0 [0; 1]%nat w0).1
         = ([fetched1] ++ failed13 :: [])%list
      /\ Forall (fun x : SummaryContainerRequest => Err x = None) [fetched1]
      /\ Err failed13 <> None
      /\ (GetIgnored_hydrate X0 1 ignores0 2 10 0 [0; 1]%nat w0).1
         = ([], 0, 0, StatusNotFound, Some "Not found")).
Proof.
  split.
  - assert (H1 : (fan_out (HandleProfileSummaryRequest X0 1) [7; 5] [1; 0]%nat
                    w_query5_fails).1 = ([] ++ failed5 :: [failed7])%list)
      by (vm_compute; reflexivity).
    assert (H2 : Forall (fun x : ProfileSummaryRequest => Err x = None) [])
      by constructor.
    assert (H3 : Err failed5 <> None) by discriminate.
    split; [exact H1|]. split; [exact H2|]. split; [exact H3|].
    exact (proj1 (error_scan_is_in_arrival_order X0 1 [1; 0]%nat 2 10 0 w_query5_fails)
             [7; 5] [] [failed7] failed5 H1 H2 H3).
  - assert (H0 : 0 <= GetMaxOffset 2 10) by (vm_compute; discriminate).
    assert (H1 : (fan_out (HandleSummaryContainerRequest X0 1) ignores0 [0; 1]%nat
                    w0).1 = ([fetched1] ++ failed13 :: [])%list)
      by (vm_compute; reflexivity).
    assert (H2 : Forall (fun x : SummaryContainerRequest => Err x = None) [fetched1])
      by (repeat constructor).
    assert (H3 : Err failed13 <> None) by discriminate.
    split; [exact H0|]. split; [exact H1|]. split; [exact H2|]. split; [exact H3|].
    exact (proj2 (error_scan_is_in_arrival_order X0 1 [0; 1]%nat 2 10 0 w0)
             ignores0 [fetched1] [] failed13 H0 H1 H2 H3).
Defined.

Lemma failed_unit_fails_whole_page_witness :
  (Exists (fun r : ProfileSummaryRequest => Err r <> None)
     (fan_out (HandleProfileSummaryRequest X0 1) [1; 7; 2] [2; 1; 0]%nat w0).1
   /\ (GetProfiles_hydrate X0 1 [1; 7; 2] 3 10 0 [2; 1; 0]%nat w0).1
      = ([], 0, 0, StatusNotFound, Some "Resource with profile ID 7 not found")
   /\ (cache_up w0 = true -> 0 < mcTtl X0 ->
       summary_hit X0 1 (GetProfiles_hydrate X0 1 [1; 7; 2] 3 10 0 [2; 1; 0]%nat w0).2
       = Some (summary_of_row 1 (profile_row0 1 101 "alice"))))
  /\ (0 <= GetMaxOffset 2 10
      /\ Exists (fun r : SummaryContainerRequest => Err r <> None)
           (fan_out (HandleSummaryContainerRequest X0 1) ignores0 [0; 1]%nat w0).1
      /\ (GetIgnored_hydrate X0 1 ignores0 2 10 0 [0; 1]%nat w0).1
         = ([], 0, 0, StatusNotFound, Some "Not found")).
Proof.
  split.
  - assert (H1 : Exists (fun r : ProfileSummaryRequest => Err r <> None)
              (fan_out (HandleProfileSummaryRequest X0 1) [1; 7; 2] [2; 1; 0]%nat w0).1).
    { vm_compute. apply Exists_cons_tl, Exists_cons_hd. discriminate. }
    destruct (proj1 (failed_unit_fails_whole_page X0 1 [2; 1; 0]%nat 3 10 0 w0)
                [1; 7; 2] H1) as (_ & _ & Hcached).
    split; [exact H1|]. split; [vm_compute; reflexivity|].
    intros Hup Httl.
    apply (Hcached Hup Httl
             {| Item := summary_of_row 1 (profile_row0 1 101 "alice");
                Err := None; Status := StatusOK; Seq := 0 |} 1).
    + vm_compute. apply list_elem_of_In. right. right. left. reflexivity.
    + reflexivity.
    + reflexivity.
  - assert (H0 : 0 <= GetMaxOffset 2 10) by (vm_compute; discriminate).
    assert (H1 : Exists (fun r : SummaryContainerRequest => Err r <> None)
              (fan_out (HandleSummaryContainerRequest X0 1) ignores0 [0; 1]%nat w0).1).
    { vm_compute. apply Exists_cons_tl, Exists_cons_hd. discriminate. }
    destruct (proj2 (failed_unit_fails_whole_page X0 1 [0; 1]%nat 2 10 0 w0)
                ignores0 H0 H1) as ((r & Hr & Herr & Hres) & _).
    split; [exact H0|]. split; [exact H1|].
    vm_compute. reflexivity.
Defined.

Lemma paginator_ceiling_and_offset_check_witness :
  0 <= 25 /\ 0 < 10
  /\ GetPageCount 25 10 = 3 /\ GetMaxOffset 25 10 = 20
  /\ GetEvents_paginate [] 25 10 21
     = ([], 0, 0, StatusBadRequest,
        Some "not enough records, offset (21) would return an empty page.")
  /\ GetEvents_paginate [] 25 10 20 = ([], 25, 3, StatusOK, None).
Proof.
  assert (H1 : 0 <= 25) by lia.
  assert (H2 : 0 < 10) by lia.
  destruct (paginator_ceiling_and_offset_check X0 25 10 21 1 [] w0 H1 H2)
    as (_ & _ & Hev21 & _ & _ & Hp & Hm).
  destruct (paginator_ceiling_and_offset_check X0 25 10 20 1 [] w0 H1 H2)
    as (_ & _ & Hev20 & _).
  split; [exact H1|]. split; [exact H2|]. split; [exact Hp|]. split; [exact Hm|].
  split.
  - apply (proj1 (Hev21 [])). rewrite Hm. lia.
  - apply (proj2 (Hev20 [])). rewrite Hm. reflexivity.
Defined.

Lemma ignore_update_delete_always_OK_witness :
  (IgnoreType_Validate X0 ignore0).2 = None
  /\ db_fault (db w_ignore_exists) GetTransaction = None
  /\ (IgnoreType_Update X0 ignore0 w_ignore_exists).1
     = (set_ig_ItemTypeId 2 ignore0, StatusOK, None)
  /\ log (IgnoreType_Update X0 ignore0 w_ignore_exists).2 = [EBegin; ECommit]
  /\ log (IgnoreType_Update X0 ignore0 w0).2
     = [EBegin; EExec "--Create Ignore" 1; ECommit].
Proof.
  assert (H1 : (IgnoreType_Validate X0 ignore0).2 = None) by reflexivity.
  assert (H2 : db_fault (db w_ignore_exists) GetTransaction = None) by reflexivity.
  assert (H3 : db_fault (db w0) GetTransaction = None) by reflexivity.
  destruct (ignore_update_delete_always_OK X0 ignore0 w_ignore_exists H1 H2)
    as (Hu & _ & Hlog & _).
  destruct (ignore_update_delete_always_OK X0 ignore0 w0 H1 H3)
    as (_ & _ & Hlog0 & _).
  split; [exact H1|]. split; [exact H2|].
  split; [exact Hu|]. split; [exact Hlog|exact Hlog0].
Defined.

Lemma cache_read_failure_is_a_miss_witness :
  (1 <> 0
   /\ (CacheGet as_ProfileSummary (mcProfileKeys X0 CacheSummary 1) w_wrong_shape).1 = None
   /\ (GetProfileSummary X0 1 1 w_wrong_shape).1
      = (summary_of_row 1 (profile_row0 1 101 "alice"), StatusOK, None)
   /\ summary_hit X0 1 (GetProfileSummary X0 1 1 w_wrong_shape).2
      = Some (summary_of_row 1 (profile_row0 1 101 "alice")))
  /\ (1 <> 0 /\ 5 <> 0
      /\ (CacheGet as_Int64Slice (mcEventKeys X0 CacheProfileIds 5) w_cache_down).1 = None
      /\ (IsAttending X0 1 5 w_cache_down).1 = (false, None)).
Proof.
  split.
  - assert (H1 : 1 <> 0) by lia.
    assert (H2 : (CacheGet as_ProfileSummary (mcProfileKeys X0 CacheSummary 1)
                    w_wrong_shape).1 = None) by reflexivity.
    destruct (proj1 (cache_read_failure_is_a_miss X0 1 1 1 5 w_wrong_shape) H1 H2)
      as [Hres Hworld].
    split; [exact H1|]. split; [exact H2|]. split; [exact Hres|].
    rewrite Hworld. vm_compute. reflexivity.
  - assert (H1 : 1 <> 0) by lia.
    assert (H2 : 5 <> 0) by lia.
    assert (H3 : (CacheGet as_Int64Slice (mcEventKeys X0 CacheProfileIds 5)
                    w_cache_down).1 = None) by reflexivity.
    destruct (proj2 (cache_read_failure_is_a_miss X0 1 1 1 5 w_cache_down) H1 H2 H3)
      as [Hres _].
    split; [exact H1|]. split; [exact H2|]. split; [exact H3|]. exact Hres.
Defined.

(** C8 at a failing input.  The store has no row for event 5.
    [GetEventSummary] reports the absence with status 500 (its sibling
    [GetProfileSummary] reports an absent profile with status 404, and so
    does [GetEvent] for an absent event); no cache entry is written by any
    of them. *)
Theorem GetEventSummary_absent_row_is_500 :
  select_event_summary 5 (db w0) = ErrNoRows
  /\ GetEventSummary X0 1 5 0 w0
     = ((EventSummaryType_zero, StatusInternalServerError,
         Some "Event with ID 5 not found"), w0)
  /\ GetProfileSummary X0 1 5 w0
     = ((ProfileSummaryType_zero, StatusNotFound,
         Some "Resource with profile ID 5 not found"), w0)
  /\ GetEvent X0 1 5 0 w0
     = ((EventType_zero, StatusNotFound, Some "Event not found"), w0).
Proof. by_evaluation. Qed.


Example EventType_Insert_picnic :
  (EventType_Insert X0 picnic 1 1 w0).1.2 = None
  /\ e_Id (EventType_Insert X0 picnic 1 1 w0).1.1.1 = 1
  /\ e_Status (EventType_Insert X0 picnic 1 1 w0).1.1.1 = "upcoming"
  /\ log (EventType_Insert X0 picnic 1 1 w0).2
     = [EBegin; EExec "INSERT INTO events" 1;
        ECall "IncrementMicrocosmItemCount" 1; ECommit;
        ECacheSet (dupeKey X0 (EventType_Insert X0 picnic 1 1 w0).1.1.1);
        EPurge 9 1; EPurge 2 1].
Proof. by_evaluation. Qed.

Lemma duplicate_insert_is_suppressed_witness :
  cache_up w0 = true
  /\ EventType_Insert X0 picnic 1 1 w0
     = (((EventType_Insert X0 picnic 1 1 w0).1.1.1, StatusOK, None),
        (EventType_Insert X0 picnic 1 1 w0).2)
  /\ (CacheGet as_Int64 (dupeKey X0 (EventType_Insert X0 picnic 1 1 w0).1.1.1) w0).1
     = None
  /\ same_submission picnic picnic_again
  /\ now (set_now 1400000299 (EventType_Insert X0 picnic 1 1 w0).2) < now w0 + 300
  /\ exists m2',
       EventType_Insert X0 picnic_again 1 1
         (set_now 1400000299 (EventType_Insert X0 picnic 1 1 w0).2)
       = ((m2', StatusOK, None),
          set_now 1400000299 (EventType_Insert X0 picnic 1 1 w0).2)
       /\ e_Id m2' = 1.
Proof.
  assert (H1 : cache_up w0 = true) by reflexivity.
  assert (H2 : EventType_Insert X0 picnic 1 1 w0
               = (((EventType_Insert X0 picnic 1 1 w0).1.1.1, StatusOK, None),
                  (EventType_Insert X0 picnic 1 1 w0).2))
    by (vm_compute; reflexivity).
  assert (H3 : (CacheGet as_Int64
                  (dupeKey X0 (EventType_Insert X0 picnic 1 1 w0).1.1.1) w0).1 = None)
    by (vm_compute; reflexivity).
  assert (H4 : same_submission picnic picnic_again)
    by (repeat split; reflexivity).
  assert (H5 : cache_up (set_now 1400000299 (EventType_Insert X0 picnic 1 1 w0).2)
               = true) by (vm_compute; reflexivity).
  assert (H6 : cache (set_now 1400000299 (EventType_Insert X0 picnic 1 1 w0).2)
                 !! dupeKey X0 (EventType_Insert X0 picnic 1 1 w0).1.1.1
               = cache (EventType_Insert X0 picnic 1 1 w0).2
                 !! dupeKey X0 (EventType_Insert X0 picnic 1 1 w0).1.1.1)
    by (vm_compute; reflexivity).
  assert (H7 : db_microcosm_summary
                 (db (set_now 1400000299 (EventType_Insert X0 picnic 1 1 w0).2))
               = db_microcosm_summary (db (EventType_Insert X0 picnic 1 1 w0).2))
    by (vm_compute; reflexivity).
  assert (H8 : now (set_now 1400000299 (EventType_Insert X0 picnic 1 1 w0).2)
               < now w0 + 300) by (vm_compute; reflexivity).
  destruct (duplicate_insert_is_suppressed X0 picnic picnic_again _ 1 1
              w0 _ _ H1 H2 H3 H4 H5 H6 H7 H8)
    as (_ & _ & _ & _ & _ & m2' & Hrun & Hid).
  split; [exact H1|]. split; [exact H2|]. split; [exact H3|].
  split; [exact H4|]. split; [exact H8|].
  exists m2'. split; [exact Hrun|]. rewrite Hid. vm_compute. reflexivity.
Defined.

(** Once the ttl has run out the same submission creates a second row. *)
Example EventType_Insert_after_ttl :
  e_Id (EventType_Insert X0 picnic_again 1 1
          (set_now 1400000300 (EventType_Insert X0 picnic 1 1 w0).2)).1.1.1 = 2
  /\ size (db_events (db (EventType_Insert X0 picnic_again 1 1
             (set_now 1400000300 (EventType_Insert X0 picnic 1 1 w0).2)).2)) = 2%nat.
Proof. split; vm_compute; reflexivity. Qed.

(** C7, as the claim states it, fails on two operations.
    Creating a profile: the transaction commits, then [GetUser] fails and
    [insert] returns an error without any purge (on success its own purge is
    handed to [go], after further steps).  Updating the unread-huddle count:
    the purge of the counts scope is issued before the commit, and stays
    issued when the commit fails. *)
Lemma purge_iff_commit_counterexample :
  (ProfileType_insert X0 dave false w_getuser_fails).1.2
    = Some "No user found for profile: user not found"
  /\ new_effects w_getuser_fails (ProfileType_insert X0 dave false w_getuser_fails).2
     = [EBegin; EExec "--Create Profile" 4;
        ECall "GetProfileOptionsDefaults" 1; ECall "ProfileOptionType.Insert" 4;
        ECommit]
  /\ new_effects w0 (ProfileType_insert X0 dave false w0).2
     = [EBegin; EExec "--Create Profile" 4;
        ECall "GetProfileOptionsDefaults" 1; ECall "ProfileOptionType.Insert" 4;
        ECommit;
        ECall "GetUser" 104; ECall "StoreGravatar" 104;
        ECall "AttachmentType.Insert" 4;
        EBegin; EExec "--Update Profile" 4; ECommit; EPurge 3 4;
        EGo (EPurge 3 4); EGo (ECall "MarkAllAsRead" 4)]
  /\ new_effects w_commit_fails (UpdateUnreadHuddleCount X0 1 w_commit_fails).2
     = [EBegin; EExec "--updateUnreadHuddleCount" 1;
        EPurgeScope CacheCounts 3 1; ECommitFailed].
Proof. by_evaluation. Qed.
